(** * zebra-proxy: printer backends, backend selector and artifact routes

    A shallow embedding of the JavaScript sources

      - [printers/PrinterFactory.js]  (backend selector),
      - [printers/TCPPrinter.js]      (both variants found in the sources),
      - [printers/USBPrinter.js],
      - [printers/VirtualPrinter.js]  (HTTP relay and artifact store),
      - the routes of the express server for the virtual printer,

    together with the parts of the Node.js runtime those sources lean on
    (POSIX [path], a small [fs], the [net.Socket] event discipline). *)

From Stdlib Require Import ZArith Ascii String List Lia Bool.
From Stdlib.Strings Require Import Byte.
From Stdlib Require Import Sorted Permutation.
From stdpp Require Import base option gmap strings list pretty.

Import ListNotations.
Local Open Scope string_scope.
Local Open Scope Z_scope.

(** ** JavaScript values shared by all modules *)

(** A JavaScript string is kept as the bytes of its UTF-8 encoding, the
    way a string literal is read here: a character up to U+007F is one
    [ascii], and the characters above U+00FF are those whose encoding
    starts with a byte from 196 on. The path functions, [startsWith] and
    the comparisons with ASCII texts come out the same on the bytes as on
    the characters. *)

(** A Node.js [Buffer]. *)
Abbreviation bytes := (list byte).

(** [new Error(message)]; low-level errors of the runtime are [Error]
    objects too, so one record covers both. *)
Record js_error := Error { message : string }.

(** Completion of a synchronous call: a value or a thrown exception. *)
Inductive completion (A : Type) :=
| Return (a : A)
| Throw (e : js_error).
Arguments Return {A} a.
Arguments Throw {A} e.

(** State of a [Promise]. [resolve] and [reject] only act on a pending
    promise; later calls are ignored. *)
Inductive promise (A : Type) :=
| Pending
| Fulfilled (a : A)
| Rejected (e : js_error).
Arguments Pending {A}.
Arguments Fulfilled {A} a.
Arguments Rejected {A} e.

Definition resolve_with {A} (a : A) (p : promise A) : promise A :=
  match p with Pending => Fulfilled a | _ => p end.

Definition reject_with {A} (e : js_error) (p : promise A) : promise A :=
  match p with Pending => Rejected e | _ => p end.

Definition settled {A} (p : promise A) : bool :=
  match p with Pending => false | _ => true end.

(** ** Node's POSIX [path] module *)
Module Path.

Definition slash : ascii := "/"%char.

(** [s.split('/')]. *)
Fixpoint split_slash (s : string) : list string :=
  match s with
  | EmptyString => [EmptyString]
  | String c rest =>
      if Ascii.eqb c slash then EmptyString :: split_slash rest
      else match split_slash rest with
           | seg :: segs => String c seg :: segs
           | [] => [String c EmptyString]
           end
  end.

(** One segment of the walk of [normalizeString]: empty and [.] segments
    are dropped, [..] removes the segment before it, and a [..] with
    nothing to remove is kept only when [allowAboveRoot]. The stack [acc]
    holds the kept segments, last one first. *)
Definition walk_step (allowAboveRoot : bool) (acc : list string)
    (seg : string) : list string :=
  if String.eqb seg "" || String.eqb seg "." then acc
  else if String.eqb seg ".." then
    match acc with
    | top :: below =>
        if String.eqb top ".." then
          if allowAboveRoot then ".." :: acc else acc
        else below
    | [] => if allowAboveRoot then [".."] else []
    end
  else seg :: acc.

Definition walk_segments (allowAboveRoot : bool) (segs : list string)
  : list string :=
  rev (fold_left (walk_step allowAboveRoot) segs []).

(** A segment that names an entry of a directory: not empty, not [.]
    and not [..]. *)
Definition is_name (seg : string) : bool :=
  negb (String.eqb seg "" || String.eqb seg "." || String.eqb seg "..").

Definition normalizeString (path : string) (allowAboveRoot : bool) : string :=
  String.concat "/" (walk_segments allowAboveRoot (split_slash path)).

Definition isAbsolute (path : string) : bool :=
  match path with String c _ => Ascii.eqb c slash | EmptyString => false end.

Fixpoint endsWithSlash (path : string) : bool :=
  match path with
  | EmptyString => false
  | String c EmptyString => Ascii.eqb c slash
  | String _ rest => endsWithSlash rest
  end.

(** [path.normalize]. *)
Definition normalize (path : string) : string :=
  if String.eqb path "" then "."
  else
    let abs := isAbsolute path in
    let trailing := endsWithSlash path in
    let p := normalizeString path (negb abs) in
    if String.eqb p "" then
      if abs then "/" else if trailing then "./" else "."
    else
      let p := if trailing then p ++ "/" else p in
      if abs then "/" ++ p else p.

(** [path.join(a, b)]: the non-empty arguments, glued by [/], then
    normalised. *)
Definition join (a b : string) : string :=
  match String.eqb a "", String.eqb b "" with
  | true, true => "."
  | true, false => normalize b
  | false, true => normalize a
  | false, false => normalize (a ++ "/" ++ b)
  end.

(** [path.resolve(p)] in a process whose working directory is [cwd]
    (an absolute path, as [process.cwd()] returns): the path is put
    after the working directory unless it is absolute, then walked. *)
Definition anchored (cwd p : string) : string :=
  if String.eqb p "" then cwd ++ "/"
  else if isAbsolute p then p ++ "/"
  else cwd ++ "/" ++ p ++ "/".

Definition resolve (cwd p : string) : string :=
  "/" ++ normalizeString (anchored cwd p) false.

(** The stack of the walk once the working directory has been passed. *)
Definition cwd_stack (cwd : string) : list string :=
  fold_left (walk_step false) (split_slash cwd) [].

(** The stack of the walk [normalize] makes over a directory. *)
Definition dir_stack (dir : string) : list string :=
  fold_left (walk_step (negb (isAbsolute dir))) (split_slash dir) [].

(** [s.startsWith(prefix)]. *)
Definition startsWith (s pre : string) : bool := String.prefix pre s.

(** The segments of a resolved path, and its parent directory. *)
Definition segments (resolved : string) : list string :=
  walk_segments false (split_slash resolved).

Definition of_segments (segs : list string) : string :=
  "/" ++ String.concat "/" segs.

Definition dirname (resolved : string) : string :=
  of_segments (removelast (segments resolved)).

(** [path.extname]: the extension of the last path component, from its
    last [.] on; empty when the component has no [.], starts with its only
    [.], or is [..]. *)
Fixpoint last_dot_suffix (s : string) : option string :=
  match s with
  | EmptyString => None
  | String c rest =>
      match last_dot_suffix rest with
      | Some ext => Some ext
      | None => if Ascii.eqb c "."%char then Some s else None
      end
  end.

Definition last_component (path : string) : string :=
  List.last
    (List.filter (fun seg => negb (String.eqb seg "")) (split_slash path)) "".

Definition extname (path : string) : string :=
  let name := last_component path in
  if String.eqb name ".." then ""
  else match name with
       | EmptyString => ""
       | String _ rest =>
           match last_dot_suffix rest with
           | Some ext => ext
           | None => ""
           end
       end.

End Path.

(** The one-character string holding a double quote. *)
Definition dquote : string := String (ascii_of_nat 34) EmptyString.

(** [s.toLowerCase()], exact on ASCII texts; the bytes of other
    characters are kept. The sources only compare the result with
    [tcp], [usb], [virtual], [pdf], [json], [png] and the three
    extensions, and no character outside [A] to [Z] has a lower case
    that is part of one of these (the Kelvin sign gives [k], the dotted
    capital [I] an [i] with a combining dot after it), so each comparison
    comes out as in JavaScript. *)
Definition lower_ascii (c : ascii) : ascii :=
  let n := nat_of_ascii c in
  if ((65 <=? n)%nat && (n <=? 90)%nat)%bool then ascii_of_nat (n + 32) else c.

Fixpoint toLowerCase (s : string) : string :=
  match s with
  | EmptyString => EmptyString
  | String c rest => String (lower_ascii c) (toLowerCase rest)
  end.

(** ** A model of the [fs] calls the sources make

    The store maps resolved absolute paths to nodes; the root directory
    always exists. There are no symbolic links, so the place a path leads
    to is the one [path.resolve] computes ([key], and [stat] for the node
    there). The operating system walks the path as it is written, though,
    and wants a directory wherever the path goes on after a name:
    [old.png/], [old.png/.] and [old.png/../x] are refused with ENOTDIR
    when [old.png] is a file and with ENOENT when it is missing
    ([refusal]). A name followed by another name needs no test of its own:
    in a file system the entry below it is only there when the name is a
    directory, and [writeFileSync] looks at the parent itself. *)
Module Fs.

Inductive node :=
| Dir
| File (content : bytes).

Record t := Make { cwd : string; nodes : gmap string node }.

Definition key (fs : t) (p : string) : string := Path.resolve (cwd fs) p.

Definition lookup_key (fs : t) (k : string) : option node :=
  if String.eqb k "/" then Some Dir else nodes fs !! k.

(** The node at the place a path leads to. *)
Definition stat (fs : t) (p : string) : option node := lookup_key fs (key fs p).

(** The error object of a failed system call. *)
Definition sys_error (code syscall p : string) : js_error :=
  Error (code ++ ", " ++ syscall ++ " '" ++ p ++ "'").

(** Where the walk of a path starts; places are stacks of segments, the
    last one first. *)
Definition start (fs : t) (p : string) : list string :=
  if Path.isAbsolute p then [] else Path.cwd_stack (cwd fs).

Definition place (here : list string) : string := Path.of_segments (rev here).

(** A name after which the path goes on with [/], [.] or [..]. *)
Definition goes_on (seg : string) (rest : list string) : bool :=
  Path.is_name seg &&
  match rest with
  | next :: _ => negb (Path.is_name next)
  | [] => false
  end.

(** The places at which the walk of the segments must find a directory. *)
Fixpoint demands (here : list string) (segs : list string) : list (list string) :=
  match segs with
  | [] => []
  | seg :: rest =>
      let there := Path.walk_step false here seg in
      (if goes_on seg rest then [there] else []) ++ demands there rest
  end.

Fixpoint refused (fs : t) (places : list (list string)) : option string :=
  match places with
  | [] => None
  | here :: rest =>
      match lookup_key fs (place here) with
      | Some Dir => refused fs rest
      | Some (File _) => Some "ENOTDIR: not a directory"
      | None => Some "ENOENT: no such file or directory"
      end
  end.

(** The error code the walk of a path ends with, if it does; the empty
    path leads nowhere. *)
Definition refusal (fs : t) (p : string) : option string :=
  if String.eqb p "" then Some "ENOENT: no such file or directory"
  else refused fs (demands (start fs p) (Path.split_slash p)).

(** [fs.existsSync]. *)
Definition existsSync (fs : t) (p : string) : bool :=
  match refusal fs p, stat fs p with
  | None, Some _ => true
  | _, _ => false
  end.

(** [fs.writeFileSync]: the parent must be a directory and the target must
    not be one; an existing file is replaced. *)
Definition writeFileSync (fs : t) (p : string) (data : bytes) : completion t :=
  let k := key fs p in
  match refusal fs p with
  | Some code => Throw (sys_error code "open" p)
  | None =>
      match lookup_key fs (Path.dirname k) with
      | Some Dir =>
          match lookup_key fs k with
          | Some Dir =>
              Throw (sys_error "EISDIR: illegal operation on a directory" "open" p)
          | _ => Return (Make (cwd fs) (<[k := File data]> (nodes fs)))
          end
      | Some (File _) => Throw (sys_error "ENOTDIR: not a directory" "open" p)
      | None => Throw (sys_error "ENOENT: no such file or directory" "open" p)
      end
  end.

(** [fs.unlinkSync]: removes a file; fails on a directory or on nothing.
    The error codes are those of Linux, the system of the project's
    Dockerfile (node on alpine): [unlink] of a directory is [EISDIR]
    there. *)
Definition unlinkSync (fs : t) (p : string) : completion t :=
  let k := key fs p in
  match refusal fs p with
  | Some code => Throw (sys_error code "unlink" p)
  | None =>
      match lookup_key fs k with
      | Some (File _) => Return (Make (cwd fs) (delete k (nodes fs)))
      | Some Dir =>
          Throw (sys_error "EISDIR: illegal operation on a directory" "unlink" p)
      | None => Throw (sys_error "ENOENT: no such file or directory" "unlink" p)
      end
  end.

(** [fs.mkdirSync(p, { recursive: true })] walks the path as written and
    creates each named directory that is missing, also one the path
    leaves again with [..]. A file under one of the names stops it: with
    EEXIST when the name is the last segment, with ENOTDIR before that.
    The result is the code it stopped with, if it did, and the store with
    the directories made until then. *)
Fixpoint mkdir_along (m : gmap string node)
    (here : list string) (segs : list string) : option string * gmap string node :=
  match segs with
  | [] => (None, m)
  | seg :: rest =>
      let there := Path.walk_step false here seg in
      if Path.is_name seg then
        match m !! place there with
        | Some (File _) =>
            (Some (match rest with
                   | [] => "EEXIST: file already exists"
                   | _ :: _ => "ENOTDIR: not a directory"
                   end), m)
        | Some Dir => mkdir_along m there rest
        | None => mkdir_along (<[place there := Dir]> m) there rest
        end
      else mkdir_along m there rest
  end.

(** A path that creates nothing ([.], [..]) ends at a place that was
    there before; the call fails when it is not (the working directory
    itself is gone). *)
Definition mkdirSync_recursive (fs : t) (p : string) : completion t :=
  if String.eqb p "" then
    Throw (sys_error "ENOENT: no such file or directory" "mkdir" p)
  else
    match mkdir_along (nodes fs) (start fs p) (Path.split_slash p) with
    | (None, m) =>
        match lookup_key (Make (cwd fs) m) (key fs p) with
        | Some Dir => Return (Make (cwd fs) m)
        | _ => Throw (sys_error "ENOENT: no such file or directory" "mkdir" p)
        end
    | (Some code, _) => Throw (sys_error code "mkdir" p)
    end.

(** The file system after the call, whether it returned or threw: the
    directories made before a file stopped it are not taken back. *)
Definition mkdir_leaves (fs : t) (p : string) : t :=
  if String.eqb p "" then fs
  else Make (cwd fs) (snd (mkdir_along (nodes fs) (start fs p) (Path.split_slash p))).

(** [fs.createReadStream(p)] piped to the response: the bytes read. *)
Definition read (fs : t) (p : string) : option bytes :=
  match refusal fs p, stat fs p with
  | None, Some (File content) => Some content
  | _, _ => None
  end.

End Fs.

(** ** JavaScript built-ins used by the virtual printer *)

(** [a || b] on strings that may be [undefined]: the empty string and
    [undefined] are falsy. *)
Definition or_default (a : option string) (b : string) : string :=
  match a with
  | Some s => if String.eqb s "" then b else s
  | None => b
  end.

(** A number as [parseInt] returns it: not a number, an integer a double
    holds, the negative zero, or an infinity. *)
Inductive js_number :=
| NaN
| Num (n : Z)
| NegZero
| Infinity (negative : bool).

Module ParseInt.

Definition code (c : ascii) : Z := Z.of_nat (nat_of_ascii c).

(** White space and line terminators of one byte: tab, LF, VT, FF, CR and
    the space; of two bytes: U+00A0; of three bytes: U+1680, U+2000 to
    U+200A, U+2028, U+2029, U+202F, U+205F, U+3000 and U+FEFF. *)
Definition space1 (a : Z) : bool :=
  ((9 <=? a) && (a <=? 13)) || (a =? 32).

Definition space2 (a b : Z) : bool := (a =? 194) && (b =? 160).

Definition space3 (a b c : Z) : bool :=
  ((a =? 225) && (b =? 154) && (c =? 128)) ||
  ((a =? 226) && (b =? 128) &&
   (((128 <=? c) && (c <=? 138)) || (c =? 168) || (c =? 169) || (c =? 175))) ||
  ((a =? 226) && (b =? 129) && (c =? 159)) ||
  ((a =? 227) && (b =? 128) && (c =? 128)) ||
  ((a =? 239) && (b =? 187) && (c =? 191)).

Fixpoint trim_start (s : string) : string :=
  match s with
  | String a rest =>
      if space1 (code a) then trim_start rest
      else
        match rest with
        | String b rest2 =>
            if space2 (code a) (code b) then trim_start rest2
            else
              match rest2 with
              | String c rest3 =>
                  if space3 (code a) (code b) (code c) then trim_start rest3
                  else s
              | EmptyString => s
              end
        | EmptyString => s
        end
  | EmptyString => s
  end.

(** Value of a digit in the given radix, when it is one. *)
Definition digit (radix : Z) (c : ascii) : option Z :=
  let n := code c in
  let v :=
    if (48 <=? n) && (n <=? 57) then Some (n - 48)
    else if (97 <=? n) && (n <=? 122) then Some (n - 87)
    else if (65 <=? n) && (n <=? 90) then Some (n - 55)
    else None in
  match v with
  | Some d => if d <? radix then Some d else None
  | None => None
  end.

(** Longest prefix of digits, read left to right; [acc] is [None] until
    the first digit has been seen. *)
Fixpoint digits (radix : Z) (acc : option Z) (s : string) : option Z :=
  match s with
  | String c rest =>
      match digit radix c with
      | Some d =>
          digits radix (Some (radix * default 0 acc + d)) rest
      | None => acc
      end
  | EmptyString => acc
  end.

Definition unsigned (s : string) : option Z :=
  match s with
  | String "0" (String "x" rest) | String "0" (String "X" rest) =>
      digits 16 None rest
  | _ => digits 10 None s
  end.

(** The double nearest to a natural number: the number itself up to 53
    significant bits, beyond that the number rounded to 53 bits, a tie
    going to the even neighbour; [None] from 2^1024 on. *)
Definition nearest_double (n : Z) : option Z :=
  let drop := Z.log2 n - 52 in
  if drop <=? 0 then Some n
  else
    let kept := Z.shiftr n drop in
    let rest := Z.land n (Z.ones drop) in
    let half := Z.shiftl 1 (drop - 1) in
    let up := (half <? rest) || ((rest =? half) && Z.odd kept) in
    let v := Z.shiftl (if up then kept + 1 else kept) drop in
    if Z.log2 v <? 1024 then Some v else None.

(** [parseInt(s)]. *)
Definition parseInt (s : string) : js_number :=
  let s := trim_start s in
  let '(negative, body) :=
    match s with
    | String "-" rest => (true, rest)
    | String "+" rest => (false, rest)
    | _ => (false, s)
    end in
  match unsigned body with
  | Some n =>
      match nearest_double n with
      | Some v =>
          if negative then (if v =? 0 then NegZero else Num (- v)) else Num v
      | None => Infinity negative
      end
  | None => NaN
  end.

End ParseInt.

(** [Date]: the fields [toISOString] prints (UTC). *)
Module Date.

Record t := Make {
  year : Z; month : nat; day : nat;
  hours : nat; minutes : nat; seconds : nat; milliseconds : nat }.

Definition digit_char (d : nat) : ascii := ascii_of_nat (48 + d mod 10).

(** The last [width] decimal digits of [n], zero padded. *)
Fixpoint padded (width n : nat) (tail : string) : string :=
  match width with
  | O => tail
  | S w => padded w (n / 10) (String (digit_char n) tail)
  end.

Definition year_string (y : Z) : string :=
  if (0 <=? y) && (y <=? 9999) then padded 4 (Z.to_nat y) ""
  else (if y <? 0 then "-" else "+") ++ padded 6 (Z.abs_nat y) "".

(** [YYYY-MM-DDTHH:mm:ss.sssZ]. *)
Definition toISOString (d : t) : string :=
  year_string (year d) ++ "-" ++ padded 2 (month d) "" ++ "-" ++
  padded 2 (day d) "" ++ "T" ++ padded 2 (hours d) "" ++ ":" ++
  padded 2 (minutes d) "" ++ ":" ++ padded 2 (seconds d) "" ++ "." ++
  padded 3 (milliseconds d) "" ++ "Z".

End Date.

(** [s.replace(/[:.]/g, '-')]. *)
Fixpoint replace_colon_dot (s : string) : string :=
  match s with
  | EmptyString => EmptyString
  | String c rest =>
      String (if Ascii.eqb c ":" || Ascii.eqb c "." then "-"%char else c)
             (replace_colon_dot rest)
  end.

(** ** [VirtualPrinter]: the HTTP relay backend and its artifact store *)
Module VirtualPrinter.

(** The [options] object of the constructor; every field may be absent. *)
Record options := Options {
  opt_baseUrl : option string;
  opt_dpmm : option string;
  opt_labelWidth : option string;
  opt_labelHeight : option string;
  opt_labelIndex : option string;
  opt_outputFormat : option string;
  opt_saveDirectory : option string }.

(** [{}], the default argument. *)
Definition no_options : options := Options None None None None None None None.

Record t := Make {
  baseUrl : string;
  dpmm : string;
  labelWidth : string;
  labelHeight : string;
  labelIndex : string;
  outputFormat : string;
  saveDirectory : string }.

Definition ensureDirectoryExists (this : t) (fs : Fs.t) : completion Fs.t :=
  if negb (Fs.existsSync fs (saveDirectory this)) then
    Fs.mkdirSync_recursive fs (saveDirectory this)
  else Return fs.

(** The fields the constructor assigns. *)
Definition with_defaults (o : options) : t := {|
  baseUrl := or_default (opt_baseUrl o) "http://api.labelary.com/v1/printers";
  dpmm := or_default (opt_dpmm o) "8dpmm";
  labelWidth := or_default (opt_labelWidth o) "100";
  labelHeight := or_default (opt_labelHeight o) "150";
  labelIndex := or_default (opt_labelIndex o) "0";
  outputFormat := or_default (opt_outputFormat o) "png";
  saveDirectory := or_default (opt_saveDirectory o) "./generated_labels" |}.

Definition constructor (o : options) (fs : Fs.t) : completion (t * Fs.t) :=
  let this := with_defaults o in
  match ensureDirectoryExists this fs with
  | Return fs' => Return (this, fs')
  | Throw e => Throw e
  end.

(** The file system after the constructor, also when it threw. *)
Definition constructor_leaves (o : options) (fs : Fs.t) : Fs.t :=
  let this := with_defaults o in
  if negb (Fs.existsSync fs (saveDirectory this)) then
    Fs.mkdir_leaves fs (saveDirectory this)
  else fs.

Definition extension (this : t) : string :=
  if String.eqb (outputFormat this) "pdf" then "pdf"
  else if String.eqb (outputFormat this) "json" then "json" else "png".

(** [generateFilename], with the clock reading of its [new Date()]. *)
Definition generateFilename (this : t) (now : Date.t) : string :=
  let timestamp := replace_colon_dot (Date.toISOString now) in
  "label_" ++ timestamp ++ "." ++ extension this.

Definition getAcceptHeader (this : t) : string :=
  let fmt := toLowerCase (outputFormat this) in
  if String.eqb fmt "pdf" then "application/pdf"
  else if String.eqb fmt "json" then "application/json"
  else "image/png".

(** What the render service sends back: the status line, the
    [x-total-count] header when present, and the body as the chunks of
    the ['data'] events. *)
Record response := Response {
  statusCode : Z;
  x_total_count : option string;
  chunks : list bytes }.

(** How the request ends: ['end'] of a response, ['error'] on the
    request, or the 10 s [setTimeout] callback, whichever settles the
    promise first. The call of [request] itself may throw (on a
    [baseUrl] that is no URL of the protocol), which rejects the promise
    with what was thrown. And none of them may ever come: a response whose
    body trickles in, or whose connection is lost after the headers, has
    no ['end'], no ['error'] on the request and no idle time-out. *)
Inductive exchange :=
| ResponseEnd (res : response)
| RequestError (error : js_error)
| RequestTimeout
| RequestThrows (error : js_error)
| ResponseNeverEnds.

(** The object [print] resolves with. *)
Record result := Result {
  success : bool;
  result_message : string;
  labelCount : js_number;
  result_outputFormat : string;
  dataSize : nat;
  filename : string;
  filepath : string;
  savedAt : string }.

Section Print.

(** [Buffer.prototype.toString()] (UTF-8 decoding) and the UTF-8
    encoding [writeFileSync(_, text, 'utf8')] applies. *)
Variable utf8_decode : bytes -> string.
Variable utf8_encode : string -> bytes.

(** What [writeFileSync] is given, as bytes on disk. *)
Definition saved_content (this : t) (data : bytes) : bytes :=
  if String.eqb (outputFormat this) "json" then utf8_encode (utf8_decode data)
  else data.

(** [print]. The request itself (URL, headers, body) goes to the render
    service; [ex] is how that exchange ends, [name_clock] and
    [saved_clock] are the two [new Date()] readings of the success path. *)
Definition print (this : t) (zplData : string) (ex : exchange)
    (name_clock saved_clock : Date.t) (fs : Fs.t)
  : promise result * Fs.t :=
  match ex with
  | ResponseEnd res =>
      let data := List.concat (chunks res) in
      if statusCode res =? 200 then
        let totalCount := or_default (x_total_count res) "1" in
        let filename := generateFilename this name_clock in
        let filepath := Path.join (saveDirectory this) filename in
        match Fs.writeFileSync fs filepath (saved_content this data) with
        | Return fs' =>
            (Fulfilled {|
               success := true;
               result_message := "Label processed and saved successfully";
               labelCount := ParseInt.parseInt totalCount;
               result_outputFormat := outputFormat this;
               dataSize := length data;
               filename := filename;
               filepath := filepath;
               savedAt := Date.toISOString saved_clock |}, fs')
        | Throw saveError =>
            (Rejected (Error ("Failed to save file: " ++ message saveError)), fs)
        end
      else
        let errorMessage := utf8_decode data in
        (Rejected (Error ("Labelary API error (" ++ pretty (statusCode res)
                          ++ "): " ++ errorMessage)), fs)
  | RequestError error =>
      (Rejected (Error ("Network error: " ++ message error)), fs)
  | RequestTimeout => (Rejected (Error "Request timeout"), fs)
  | RequestThrows error => (Rejected error, fs)
  | ResponseNeverEnds => (Pending, fs)
  end.

End Print.

(** [deleteSavedLabel]: any exception of the [try] block, the
    ['File not found'] one included, is rethrown with a prefix. *)
Definition deleteSavedLabel (this : t) (filename : string) (fs : Fs.t)
  : completion Fs.t :=
  let filepath := Path.join (saveDirectory this) filename in
  let attempt :=
    if Fs.existsSync fs filepath then Fs.unlinkSync fs filepath
    else Throw (Error "File not found") in
  match attempt with
  | Return fs' => Return fs'
  | Throw error => Throw (Error ("Failed to delete file: " ++ message error))
  end.

End VirtualPrinter.

(** ** [net.Socket] as the TCP printers use it *)

(** What [print] is given and may resolve with: a [Buffer] or a string. *)
Inductive js_value :=
| VBuffer (b : bytes)
| VString (s : string).

Module Net.

(** Events a socket emits to its listeners. *)
Inductive event :=
| Connect
| Data (response : bytes)
| Close
| Err (err : js_error).

Record socket := Socket { destroyed : bool; written : list js_value }.

Definition fresh : socket := Socket false [].

(** [client.destroy()] and [client.write(data)]. *)
Definition destroy (s : socket) : socket := Socket true (written s).
Definition write (data : js_value) (s : socket) : socket :=
  Socket (destroyed s) (written s ++ [data]).

(** The socket as its listeners find it when the event is emitted: node
    emits ['error'] and ['close'] from [destroy], so the socket is already
    destroyed when those listeners run. *)
Definition emitted (e : event) (s : socket) : socket :=
  match e with
  | Close | Err _ => destroy s
  | Connect | Data _ => s
  end.

(** One callback run by the event loop: a listener of the socket, or the
    [setTimeout] callback. *)
Inductive occurrence :=
| Emitted (e : event)
| TimerFired.

(** The socket and the promise of one [print] call. *)
Record call := Call { client : socket; outcome : promise js_value }.

Definition start : call := Call fresh Pending.

(** [client.connect(port, host, ...)] looks at the port before it does
    anything else and throws on a number outside 0..65535. Thrown inside
    the executor of the promise, that rejects the promise and ends the
    executor: no listener is added, no timer is set and the socket is left
    as it was made. *)
Definition valid_port (port : Z) : bool := (0 <=? port) && (port <=? 65535).

Definition bad_port (port : Z) : js_error :=
  Error ("Port should be >= 0 and < 65536. Received type number ("
         ++ pretty port ++ ").").

Definition connect_throws (port : Z) : call := Call fresh (Rejected (bad_port port)).

(** Socket events stamped with the milliseconds since [print] was called,
    in the order they happen; a timer of [timeout] ms runs after the
    events that come before its expiry. *)
Fixpoint schedule (timeout : Z) (evs : list (Z * event)) : list occurrence :=
  match evs with
  | [] => [TimerFired]
  | (at_ms, e) :: rest =>
      if at_ms <? timeout then Emitted e :: schedule timeout rest
      else TimerFired :: map (fun te => Emitted (snd te)) evs
  end.

End Net.

(** [buf.toString('ascii')]: every byte with its high bit cleared. *)
Definition ascii_char (b : byte) : ascii :=
  match ascii_of_byte b with
  | Ascii b0 b1 b2 b3 b4 b5 b6 _ => Ascii b0 b1 b2 b3 b4 b5 b6 false
  end.

Definition toString_ascii (b : bytes) : string :=
  string_of_list_ascii (map ascii_char b).

(** ** [TCPPrinter], the variant with the 5000 ms timer *)
Module TCPPrinter.
Import Net.

(** The host only matters to the connection attempt; what comes of it
    reaches [print] as the socket events. The port is looked at by
    [connect] itself. *)
Record t := Make { host : string; port : Z }.

Definition timeout_ms : Z := 5000.

Definition on_connect (data : js_value) (c : call) : call :=
  Call (write data (client c)) (outcome c).

Definition on_data (response : bytes) (c : call) : call :=
  Call (destroy (client c)) (resolve_with (VBuffer response) (outcome c)).

Definition on_close (c : call) : call :=
  Call (client c) (resolve_with (VString "Print job sent successfully") (outcome c)).

Definition on_error (err : js_error) (c : call) : call :=
  Call (client c) (reject_with err (outcome c)).

Definition on_timer (c : call) : call :=
  if negb (destroyed (client c)) then
    Call (destroy (client c))
         (resolve_with (VString "Print job sent (timeout)") (outcome c))
  else c.

Definition step (data : js_value) (c : call) (o : occurrence) : call :=
  match o with
  | Emitted e =>
      let c := Call (emitted e (client c)) (outcome c) in
      match e with
      | Connect => on_connect data c
      | Data response => on_data response c
      | Close => on_close c
      | Err err => on_error err c
      end
  | TimerFired => on_timer c
  end.

(** The call after the given callbacks have run, in order. *)
Definition run (data : js_value) (os : list occurrence) : call :=
  fold_left (step data) os start.

(** [print] against a peer that produces the timed socket events. *)
Definition print (this : t) (data : js_value) (evs : list (Z * event)) : call :=
  if valid_port (port this) then run data (schedule timeout_ms evs)
  else connect_throws (port this).

End TCPPrinter.

(** ** [TCPPrinter], the variant with the 100 ms timer *)
Module TCPPrinter2.
Import Net.

Record t := Make { host : string; port : Z }.

Definition timeout_ms : Z := 100.

Definition on_connect (data : js_value) (c : call) : call :=
  Call (write data (client c)) (outcome c).

Definition on_data (response : bytes) (c : call) : call :=
  Call (destroy (client c))
       (resolve_with (VString (toString_ascii response)) (outcome c)).

Definition on_close (c : call) : call :=
  Call (client c) (resolve_with (VString "Print job sent successfully") (outcome c)).

Definition on_error (err : js_error) (c : call) : call :=
  Call (client c) (reject_with err (outcome c)).

Definition on_timer (c : call) : call :=
  if negb (destroyed (client c)) then
    Call (destroy (client c))
         (resolve_with (VString "Print job sent (timeout)") (outcome c))
  else c.

Definition step (data : js_value) (c : call) (o : occurrence) : call :=
  match o with
  | Emitted e =>
      let c := Call (emitted e (client c)) (outcome c) in
      match e with
      | Connect => on_connect data c
      | Data response => on_data response c
      | Close => on_close c
      | Err err => on_error err c
      end
  | TimerFired => on_timer c
  end.

Definition run (data : js_value) (os : list occurrence) : call :=
  fold_left (step data) os start.

Definition print (this : t) (data : js_value) (evs : list (Z * event)) : call :=
  if valid_port (port this) then run data (schedule timeout_ms evs)
  else connect_throws (port this).

End TCPPrinter2.

(** ** The [usb] library as [USBPrinter] uses it *)
Module Usb.

Inductive direction := DirIn | DirOut.

Record endpoint := Endpoint { direction_of : direction; address : Z }.

(** An attached device: its descriptor, its first interface, and what
    [open], [detachKernelDriver] and [claim] throw on it, if they throw.
    (What [close] throws is caught and logged by the caller, so it is
    not recorded.) *)
Record device := Device {
  idVendor : Z;
  idProduct : Z;
  open_error : option js_error;
  kernelDriverActive : bool;
  detach_error : option js_error;
  claim_error : option js_error;
  endpoints : list endpoint }.

(** Library calls made on the selected device, in order. *)
Inductive call :=
| Open
| DetachKernelDriver
| Claim
| Transfer (ep : endpoint) (buffer : bytes)
| CloseDevice.

(** [usb.findByIds]: the first attached device with both identifiers. *)
Definition findByIds (devices : list device) (vid pid : Z) : option device :=
  List.find (fun d => (idVendor d =? vid) && (idProduct d =? pid)) devices.

Definition is_out (ep : endpoint) : bool :=
  match direction_of ep with DirOut => true | DirIn => false end.

(** How a started bulk transfer ends: the callback is never invoked, or it
    is invoked with an error or without one. *)
Inductive transfer_end :=
| NoCallback
| Callback (error : option js_error).

End Usb.

(** ** [USBPrinter] *)
Module USBPrinter.
Import Usb.

(** The [endpoint] field: [null] from the constructor, [undefined] when
    [find] found nothing, or an endpoint. *)
Inductive endpoint_slot :=
| Null
| Undefined
| Found (ep : endpoint).

Record t := Make {
  vendorId : Z;
  productId : option Z;
  device : option Usb.device;
  endpoint : endpoint_slot }.

(** [new USBPrinter(vendorId, productId)]; an absent argument takes its
    default. *)
Definition constructor (vendorId : option Z) (productId : option Z) : t :=
  Make (default 0x0a5f vendorId) productId None Null.

(** [if (this.productId)]: [null] and [0] are falsy. *)
Definition productId_given (this : t) : option Z :=
  match productId this with
  | Some pid => if pid =? 0 then None else Some pid
  | None => None
  end.

Definition with_device (this : t) (d : option Usb.device) : t :=
  Make (vendorId this) (productId this) d (endpoint this).

Definition with_endpoint (this : t) (e : endpoint_slot) : t :=
  Make (vendorId this) (productId this) (device this) e.

(** The [if] block of [findPrinter]: whether it returned [true], and the
    object after it. *)
Definition find_exact (this : t) (devices : list Usb.device) : bool * t :=
  match productId_given this with
  | Some pid =>
      let this := with_device this (findByIds devices (vendorId this) pid) in
      (match device this with Some _ => true | None => false end, this)
  | None => (false, this)
  end.

(** [findPrinter]: the [if] block, and after it the loop that takes the
    first device of the vendor. The loop is reached when no product
    identifier is given and when the exact pair was not found. *)
Definition findPrinter (this : t) (devices : list Usb.device) : bool * t :=
  let '(found, this) := find_exact this devices in
  if found then (true, this)
  else
    match List.find (fun d => idVendor d =? vendorId this) devices with
    | Some d => (true, with_device this (Some d))
    | None => (false, this)
    end.

(** Code that changes the printer object, calls the library and may
    throw: the object and the calls made so far go in; the completion, the
    object and the calls come out. *)
Definition effect (A : Type) : Type :=
  t * list Usb.call -> completion A * (t * list Usb.call).

Definition ret {A} (a : A) : effect A := fun st => (Return a, st).

Definition throw {A} (e : js_error) : effect A := fun st => (Throw e, st).

Definition bind {A B} (m : effect A) (k : A -> effect B) : effect B :=
  fun st =>
    match m st with
    | (Return a, st') => k a st'
    | (Throw e, st') => (Throw e, st')
    end.

(** A library call: it is logged, and throws the error given, if any. *)
Definition lib (c : Usb.call) (err : option js_error) : effect unit :=
  fun '(this, log) =>
    (match err with Some e => Throw e | None => Return tt end,
     (this, (log ++ [c])%list)).

Definition set_endpoint (e : endpoint_slot) : effect unit :=
  fun '(this, log) => (Return tt, (with_endpoint this e, log)).

Definition this_device : effect (option Usb.device) :=
  fun '(this, log) => (Return (device this), (this, log)).

Local Notation "'let!' x := m 'in' k" := (bind m (fun x => k))
  (at level 10, x name, m at level 100, k at level 200).
Local Notation "m ;;; k" := (bind m (fun _ => k))
  (at level 100, k at level 200, right associativity).

(** [initializeDevice]. *)
Definition initializeDevice : effect unit :=
  let! d := this_device in
  match d with
  | None => throw (Error "No USB printer device found")
  | Some d =>
      lib Open (open_error d) ;;;
      (if kernelDriverActive d
       then lib DetachKernelDriver (detach_error d) else ret tt) ;;;
      lib Claim (claim_error d) ;;;
      match List.find is_out (endpoints d) with
      | Some ep => set_endpoint (Found ep)
      | None =>
          set_endpoint Undefined ;;;
          throw (Error "No OUT endpoint found on USB device")
      end
  end.

(** What [this.endpoint.transfer] throws when there is no endpoint. *)
Definition no_endpoint_error (slot : string) : js_error :=
  Error ("Cannot read properties of " ++ slot ++ " (reading 'transfer')").

Record printed := Printed {
  outcome : promise string;
  calls : list Usb.call;
  after : t }.

Section Print.

(** [Buffer.from(text, 'utf8')]. *)
Variable utf8_encode : string -> bytes.

Definition to_buffer (data : js_value) : bytes :=
  match data with
  | VBuffer b => b
  | VString s => utf8_encode s
  end.

(** [print]. [initializeDevice] is an [async] function called without
    [await]: its body runs to completion inside the call, and what it
    throws rejects a promise nobody looks at, so [print] goes on to the
    transfer either way. The callback of the transfer settles the promise
    and then closes the device; what [close] throws is caught there. *)
Definition print (this : t) (data : js_value)
    (devices : list Usb.device) (tr : transfer_end) : printed :=
  let '(found, this) := findPrinter this devices in
  if negb found then
    Printed (Rejected (Error "Zebra printer not found via USB")) [] this
  else
    let '(_, (this, log)) := initializeDevice (this, []) in
    let buffer := to_buffer data in
    match endpoint this with
    | Found ep =>
        let log := (log ++ [Transfer ep buffer])%list in
        match tr with
        | NoCallback => Printed Pending log this
        | Callback error =>
            Printed
              (match error with
               | Some e => Rejected e
               | None => Fulfilled "Print job sent successfully via USB"
               end)
              (log ++ [CloseDevice])%list this
        end
    | Null => Printed (Rejected (no_endpoint_error "null")) log this
    | Undefined => Printed (Rejected (no_endpoint_error "undefined")) log this
    end.

End Print.

End USBPrinter.

(** ** [PrinterFactory]: the backend selector *)
Module PrinterFactory.

(** The configuration object; [None] is an absent ([undefined] or [null])
    field. *)
Record config := Config {
  type : string;
  host : option string;
  port : option Z;
  vendorId : option Z;
  productId : option Z;
  virtual : option VirtualPrinter.options }.

Inductive printer :=
| TCP (p : TCPPrinter.t)
| USB (p : USBPrinter.t)
| Virtual (p : VirtualPrinter.t).

(** [!host || !port]: an absent field, the empty string and [0] are
    falsy. *)
Definition truthy_string (o : option string) : option string :=
  match o with
  | Some s => if String.eqb s "" then None else Some s
  | None => None
  end.

Definition truthy_number (o : option Z) : option Z :=
  match o with
  | Some n => if n =? 0 then None else Some n
  | None => None
  end.

(** [createPrinter]. Only the virtual printer's constructor touches the
    file system; when it throws, the directories it has made stay. *)
Definition createPrinter (cfg : config) (fs : Fs.t) : completion printer * Fs.t :=
  let kind := toLowerCase (type cfg) in
  if String.eqb kind "tcp" then
    match truthy_string (host cfg), truthy_number (port cfg) with
    | Some h, Some p => (Return (TCP (TCPPrinter.Make h p)), fs)
    | _, _ =>
        (Throw (Error "TCP printer requires host and port configuration"), fs)
    end
  else if String.eqb kind "usb" then
    (Return (USB (USBPrinter.constructor (vendorId cfg) (productId cfg))), fs)
  else if String.eqb kind "virtual" then
    match VirtualPrinter.constructor
            (default VirtualPrinter.no_options (virtual cfg)) fs with
    | Return (p, fs') => (Return (Virtual p), fs')
    | Throw e =>
        (Throw e,
         VirtualPrinter.constructor_leaves
           (default VirtualPrinter.no_options (virtual cfg)) fs)
    end
  else
    (Throw (Error ("Unsupported printer type: " ++ type cfg ++
                   ". Supported types: tcp, usb, virtual")), fs).

End PrinterFactory.

(** ** The [/labels/:filename] routes of the server *)
Module Server.
Import PrinterFactory.

(** What the handler sends: a JSON body with a status, or the headers
    of a file and the file piped into the response. The content is [None]
    when the stream cannot read the path (a directory): it fails after the
    handler has returned, and nothing of the file is sent. *)
Inductive reply :=
| Json (status : Z) (error : option string)
| FileStream (contentType disposition : string) (content : option bytes).

(** A file-system call made while serving a file. *)
Inductive fs_call :=
| ExistsSync (p : string)
| CreateReadStream (p : string).

Definition contentTypeOf (ext : string) : string :=
  if String.eqb ext ".png" then "image/png"
  else if String.eqb ext ".pdf" then "application/pdf"
  else if String.eqb ext ".json" then "application/json"
  else "application/octet-stream".

Definition not_virtual : reply :=
  Json 400 (Some "Labels endpoint only available for virtual printers").

(** [printerConfig.virtual.saveDirectory]; the server always fills it in.
    Without it the handler throws inside its [try] block, and the
    [catch] block answers with the message of the exception. *)
Definition configured_saveDirectory (cfg : config) : completion string :=
  match virtual cfg with
  | Some o =>
      match VirtualPrinter.opt_saveDirectory o with
      | Some d => Return d
      | None =>
          Throw (Error ("The " ++ dquote ++ "path" ++ dquote ++
                        " argument must be of type string. Received undefined"))
      end
  | None =>
      Throw (Error "Cannot read properties of undefined (reading 'saveDirectory')")
  end.

(** [res.setHeader] throws on a value with a character other than the
    tab, U+0020 to U+007E and U+0080 to U+00FF: on a control character,
    and on any character above U+00FF. *)
Definition header_char (c : ascii) : bool :=
  let n := nat_of_ascii c in
  ((n =? 9) || ((32 <=? n) && (n <=? 126)) || ((128 <=? n) && (n <=? 195)))%nat.

Definition header_value (s : string) : bool :=
  forallb header_char (list_ascii_of_string s).

Definition invalid_header (name : string) : js_error :=
  Error ("Invalid character in header content [" ++ dquote ++ name ++ dquote ++ "]").

(** [GET /labels/:filename]. [filename] is the decoded route parameter.
    The reply comes with the file-system calls made, in order. The
    [Content-Disposition] header is set before the file is opened; when
    [setHeader] throws, the [catch] block answers. *)
Definition serveLabel (cfg : config) (fs : Fs.t) (filename : string)
  : reply * list fs_call :=
  if negb (String.eqb (type cfg) "virtual") then (not_virtual, [])
  else
    match configured_saveDirectory cfg with
    | Throw error => (Json 500 (Some (message error)), [])
    | Return saveDirectory =>
        let filepath := Path.join saveDirectory filename in
        let resolvedPath := Path.resolve (Fs.cwd fs) filepath in
        let resolvedSaveDir := Path.resolve (Fs.cwd fs) saveDirectory in
        if negb (Path.startsWith resolvedPath resolvedSaveDir) then
          (Json 403 (Some "Access denied: Invalid file path"), [])
        else if negb (Fs.existsSync fs filepath) then
          (Json 404 (Some "File not found"), [ExistsSync filepath])
        else
          let ext := toLowerCase (Path.extname filename) in
          let disposition := "inline; filename=" ++ dquote ++ filename ++ dquote in
          if header_value disposition then
            (FileStream (contentTypeOf ext) disposition (Fs.read fs filepath),
             [ExistsSync filepath; CreateReadStream filepath])
          else
            (Json 500 (Some (message (invalid_header "Content-Disposition"))),
             [ExistsSync filepath])
    end.

(** [DELETE /labels/:filename]: a printer is built from the configuration
    and asked to delete; any exception becomes a 500 reply. *)
Definition deleteLabel (cfg : config) (fs : Fs.t) (filename : string)
  : reply * Fs.t :=
  if negb (String.eqb (type cfg) "virtual") then (not_virtual, fs)
  else
    match createPrinter cfg fs with
    | (Return (Virtual printer), fs1) =>
        match VirtualPrinter.deleteSavedLabel printer filename fs1 with
        | Return fs2 => (Json 200 None, fs2)
        | Throw error => (Json 500 (Some (message error)), fs1)
        end
    | (Return _, fs1) =>
        (Json 500 (Some "printer.deleteSavedLabel is not a function"), fs1)
    | (Throw error, fs1) => (Json 500 (Some (message error)), fs1)
    end.

End Server.

(** ** Notions of the specification used in the statements *)

(** Containment of resolved paths as the path-traversal guard words it:
    [p] is the directory [dir] itself or lies below it, segment by
    segment. *)
Fixpoint segments_below (dir p : list string) : bool :=
  match dir, p with
  | [], _ => true
  | d :: ds, q :: qs => String.eqb d q && segments_below ds qs
  | _ :: _, [] => false
  end.

Definition inside_directory (dir p : string) : bool :=
  segments_below (Path.segments dir) (Path.segments p).

(** A string without [/]; a segment the walk of [normalizeString] may
    keep ([plain]); one it keeps whatever comes before it ([clean]). *)
Definition no_slash (s : string) : bool :=
  forallb (fun c => negb (Ascii.eqb c Path.slash)) (list_ascii_of_string s).

Definition plain (seg : string) : bool :=
  no_slash seg && negb (String.eqb seg "") && negb (String.eqb seg ".").

Definition clean (seg : string) : bool :=
  plain seg && negb (String.eqb seg "..").

(** A stack of the walk of [normalizeString] has its names on top: what
    is no name (the [..] segments that lead above the start) lies below
    them. *)
Definition no_name (seg : string) : bool := negb (Path.is_name seg).

Fixpoint names_on_top (acc : list string) : bool :=
  match acc with
  | [] => true
  | top :: below =>
      if Path.is_name top then names_on_top below else forallb no_name below
  end.

(** The library call that starts a bulk transfer. *)
Definition is_transfer (c : Usb.call) : bool :=
  match c with Usb.Transfer _ _ => true | _ => false end.

(** A response seen as the 100 ms variant reports it. *)
Definition as_ascii (v : js_value) : js_value :=
  match v with
  | VBuffer b => VString (toString_ascii b)
  | VString s => VString s
  end.

Definition map_promise {A B} (f : A -> B) (p : promise A) : promise B :=
  match p with
  | Pending => Pending
  | Fulfilled a => Fulfilled (f a)
  | Rejected e => Rejected e
  end.

Definition ascii_view (c : Net.call) : Net.call :=
  Net.Call (Net.client c) (map_promise as_ascii (Net.outcome c)).

(** Timed ['connect'] events. *)
Definition connects (times : list Z) : list (Z * Net.event) :=
  map (fun at_ms => (at_ms, Net.Connect)) times.

(** ** Sample data for the worked cases *)
Module Sample.

(** The configuration the server builds when only [PRINTER_TYPE=virtual]
    is set. *)
Definition virtual_options : VirtualPrinter.options :=
  VirtualPrinter.Options
    (Some "http://api.labelary.com/v1/printers") (Some "8dpmm") (Some "4")
    (Some "6") (Some "0") (Some "png") (Some "./generated_labels").

Definition virtual_config : PrinterFactory.config :=
  PrinterFactory.Config "virtual" None (Some 9100) (Some 0x0a5f) None
    (Some virtual_options).

Definition tcp_config : PrinterFactory.config :=
  PrinterFactory.Config "TCP" (Some "10.0.0.7") (Some 9100) (Some 0x0a5f) None
    (Some virtual_options).


Definition printer : VirtualPrinter.t := VirtualPrinter.with_defaults virtual_options.

(** A process running in [/app], with one saved label, a directory next
    to the save directory, and a file of its own. *)
Definition disk : Fs.t :=
  Fs.Make "/app"
    (<["/app" := Fs.Dir]>
    (<["/app/generated_labels" := Fs.Dir]>
    (<["/app/generated_labels/old.png" := Fs.File [x89; x50; x4e; x47]]>
    (<["/app/generated_labels_old" := Fs.Dir]>
    (<["/app/generated_labels_old/a.png" := Fs.File [x41]]>
    (<["/app/.env" := Fs.File [x4b; x3d; x31]]>
    (<["/etc" := Fs.Dir]>
    (<["/etc/passwd" := Fs.File [x72; x6f; x6f; x74]]> ∅)))))))).

(** The same after [/app/.env] is gone. *)
Definition disk_without_env : Fs.t :=
  Fs.Make "/app" (delete "/app/.env" (Fs.nodes disk)).

(** Text of ASCII bytes, for the worked cases. *)
Definition decode (b : bytes) : string := string_of_list_byte b.
Definition encode (s : string) : bytes := list_byte_of_string s.

(** A Zebra device of another product than the configured one. *)
Definition other_product : Usb.device :=
  Usb.Device 0x0a5f 0x0099 None false None None
    [Usb.Endpoint Usb.DirIn 129; Usb.Endpoint Usb.DirOut 1].

Definition zpl : string := "^XA^FDhello^FS^XZ".

End Sample.

(** ** The remaining operations of [VirtualPrinter] *)

(** [s.endsWith(suffix)]. *)
Fixpoint endsWith (s suffix : string) : bool :=
  String.eqb s suffix ||
  match s with
  | String _ rest => endsWith rest suffix
  | EmptyString => false
  end.

(** [s.substring(1)]. *)
Definition substring1 (s : string) : string :=
  match s with
  | String _ rest => rest
  | EmptyString => EmptyString
  end.

Module VirtualPrinterOps.
Import VirtualPrinter.

(** The sample label of [testConnection]. *)
Definition testZpl : string :=
  "^XA^FO50,50^A0N,50,50^FDTest Label^FS^FO50,120^A0N,30,30^FDVirtual Printer^FS^XZ".

(** [testConnection]: [print] on the sample label; the [catch] block logs
    and throws the same error again. *)
Definition testConnection (utf8_decode : bytes -> string)
    (utf8_encode : string -> bytes) (this : t) (ex : exchange)
    (name_clock saved_clock : Date.t) (fs : Fs.t) : promise result * Fs.t :=
  print utf8_decode utf8_encode this testZpl ex name_clock saved_clock fs.

(** What [fs.statSync] returns, as far as it is read: the size and the
    two times, in milliseconds. *)
Record stats := Stats { size : nat; birthtime : Z; mtime : Z }.

(** The answers of the file system to the calls of [listSavedLabels]. *)
Record answers := Answers {
  existsSync : string -> bool;
  readdirSync : string -> completion (list string);
  statSync : string -> completion stats }.

(** An element of the array [listSavedLabels] returns. *)
Record label := Label {
  label_filename : string;
  label_filepath : string;
  label_size : nat;
  created : Z;
  modified : Z;
  extension_of : string }.

(** [/\.(png|pdf|json)$/i.test(file)]. *)
Definition is_label (file : string) : bool :=
  let lower := toLowerCase file in
  endsWith lower ".png" || endsWith lower ".pdf" || endsWith lower ".json".

(** The callback of [map], on a file whose [statSync] went through. *)
Definition describe (this : t) (file : string) (st : stats) : label := {|
  label_filename := file;
  label_filepath := Path.join (saveDirectory this) file;
  label_size := size st;
  created := birthtime st;
  modified := mtime st;
  extension_of := substring1 (toLowerCase (Path.extname file)) |}.

(** [files.map(...)]: the files in order; the first [statSync] that throws
    ends it. *)
Fixpoint describe_all (this : t) (fsys : answers) (files : list string)
  : completion (list label) :=
  match files with
  | [] => Return []
  | file :: rest =>
      match statSync fsys (Path.join (saveDirectory this) file) with
      | Throw e => Throw e
      | Return st =>
          match describe_all this fsys rest with
          | Throw e => Throw e
          | Return labels => Return (describe this file st :: labels)
          end
      end
  end.

(** [.sort((a, b) => b.created - a.created)]. The sort of the runtime is
    stable: a label goes in front of the first one that is not newer than
    it, coming from the right. *)
Fixpoint insert_newest (x : label) (sorted : list label) : list label :=
  match sorted with
  | [] => [x]
  | y :: rest =>
      if created x <? created y then y :: insert_newest x rest
      else x :: y :: rest
  end.

Fixpoint sort_newest_first (labels : list label) : list label :=
  match labels with
  | [] => []
  | x :: rest => insert_newest x (sort_newest_first rest)
  end.

(** [listSavedLabels]. *)
Definition listSavedLabels (this : t) (fsys : answers) : completion (list label) :=
  let attempt :=
    if negb (existsSync fsys (saveDirectory this)) then Return []
    else
      match readdirSync fsys (saveDirectory this) with
      | Throw e => Throw e
      | Return files =>
          match describe_all this fsys (List.filter is_label files) with
          | Throw e => Throw e
          | Return labels => Return (sort_newest_first labels)
          end
      end in
  match attempt with
  | Return labels => Return labels
  | Throw error => Throw (Error ("Failed to list saved labels: " ++ message error))
  end.

End VirtualPrinterOps.

(** ** The remaining routes for the virtual printer *)
Module ServerOps.
Import PrinterFactory.

(** A JSON reply: the payload of a success, or a status with an error
    text. *)
Inductive answer (A : Type) :=
| Ok (payload : A)
| Failed (status : Z) (error : string).
Arguments Ok {A} payload.
Arguments Failed {A} status error.

Definition not_virtual {A} (message : string) : answer A := Failed 400 message.

(** [GET /printer/test]. The reply is sent when the promise of
    [testConnection] settles; [None] stands for a promise still pending. *)
Definition printerTest (utf8_decode : bytes -> string)
    (utf8_encode : string -> bytes) (cfg : config)
    (ex : VirtualPrinter.exchange) (name_clock saved_clock : Date.t) (fs : Fs.t)
  : option (answer VirtualPrinter.result) * Fs.t :=
  if negb (String.eqb (type cfg) "virtual") then
    (Some (not_virtual "Test endpoint only available for virtual printers"), fs)
  else
    match createPrinter cfg fs with
    | (Return (Virtual printer), fs1) =>
        match VirtualPrinterOps.testConnection utf8_decode utf8_encode printer ex
                name_clock saved_clock fs1 with
        | (Fulfilled result, fs2) => (Some (Ok result), fs2)
        | (Rejected error, fs2) => (Some (Failed 500 (message error)), fs2)
        | (Pending, fs2) => (None, fs2)
        end
    | (Return _, fs1) =>
        (Some (Failed 500 "printer.testConnection is not a function"), fs1)
    | (Throw error, fs1) => (Some (Failed 500 (message error)), fs1)
    end.

(** [GET /labels]: the labels and their count. *)
Definition listLabels (cfg : config) (fs : Fs.t) (fsys : VirtualPrinterOps.answers)
  : answer (list VirtualPrinterOps.label * nat) * Fs.t :=
  if negb (String.eqb (type cfg) "virtual") then
    (not_virtual "Labels endpoint only available for virtual printers", fs)
  else
    match createPrinter cfg fs with
    | (Return (Virtual printer), fs1) =>
        match VirtualPrinterOps.listSavedLabels printer fsys with
        | Return labels => (Ok (labels, length labels), fs1)
        | Throw error => (Failed 500 (message error), fs1)
        end
    | (Return _, fs1) =>
        (Failed 500 "printer.listSavedLabels is not a function", fs1)
    | (Throw error, fs1) => (Failed 500 (message error), fs1)
    end.

End ServerOps.

(** ** Further notions used in the statements *)

(** The library calls of a [print] that runs to its end on device [d]. *)
Definition full_sequence (d : Usb.device) (buffer : bytes) : list Usb.call :=
  ([Usb.Open] ++
   (if Usb.kernelDriverActive d then [Usb.DetachKernelDriver] else []) ++
   [Usb.Claim] ++
   match List.find Usb.is_out (Usb.endpoints d) with
   | Some ep => [Usb.Transfer ep buffer; Usb.CloseDevice]
   | None => []
   end)%list.

Definition is_connect (o : Net.occurrence) : bool :=
  match o with Net.Emitted Net.Connect => true | _ => false end.

Definition is_error (e : Net.event) : bool :=
  match e with Net.Err _ => true | _ => false end.

(** Labels from the newest to the oldest. *)
Definition not_older (a b : VirtualPrinterOps.label) : Prop :=
  VirtualPrinterOps.created b <= VirtualPrinterOps.created a.

(** ** More sample data for the worked cases *)
Module SampleOps.

Definition clock : Date.t := Date.Make 2024 1 15 10 30 45 123.
Definition later : Date.t := Date.Make 2024 1 15 10 30 45 124.

Definition rendered : VirtualPrinter.response :=
  VirtualPrinter.Response 200 (Some "2") [[x89; x50]; [x4e; x47]].

Definition rendered_again : VirtualPrinter.response :=
  VirtualPrinter.Response 200 None [[x47; x49; x46]].

(** The virtual printer asked for [PDF] in capital letters. *)
Definition capital_pdf : VirtualPrinter.t :=
  VirtualPrinter.with_defaults
    (VirtualPrinter.Options None None None None None (Some "PDF") None).

Definition virtual_config_capital : PrinterFactory.config :=
  PrinterFactory.Config "Virtual" None (Some 9100) (Some 0x0a5f) None
    (Some Sample.virtual_options).

(** A save directory with two labels of one creation time, a newer one,
    a file that is no label, and one entry that cannot be examined. *)
Definition stats_of (broken : bool) (p : string)
  : completion VirtualPrinterOps.stats :=
  if String.eqb p "generated_labels/b.PNG" then
    Return (VirtualPrinterOps.Stats 10 1000 1000)
  else if String.eqb p "generated_labels/a.json" then
    Return (VirtualPrinterOps.Stats 20 1000 1500)
  else if String.eqb p "generated_labels/c.pdf" then
    Return (VirtualPrinterOps.Stats 30 2000 2000)
  else if String.eqb p "generated_labels/gone.png" then
    if broken then Throw (Error "ENOENT: no such file or directory, stat 'generated_labels/gone.png'")
    else Return (VirtualPrinterOps.Stats 0 500 500)
  else Throw (Error "ENOENT: no such file or directory").

Definition listing (broken : bool) : VirtualPrinterOps.answers :=
  VirtualPrinterOps.Answers
    (fun p => String.eqb p "./generated_labels")
    (fun _ => Return ["b.PNG"; "notes.txt"; "a.json"; "c.pdf"; "gone.png"])
    (stats_of broken).

(** A Zebra device without an endpoint to write to. *)
Definition input_only : Usb.device :=
  Usb.Device 0x0a5f 0x0099 None true None None [Usb.Endpoint Usb.DirIn 129].

End SampleOps.

(** * Properties *)

Local Open Scope list_scope.

(** ** The event schedule *)

Lemma schedule_early timeout at_ms e rest :
  at_ms < timeout ->
  Net.schedule timeout ((at_ms, e) :: rest)
  = Net.Emitted e :: Net.schedule timeout rest.
Proof.
  intros Hlt. simpl. destruct (Z.ltb_spec at_ms timeout); [reflexivity | lia].
Qed.

Lemma schedule_connects timeout times rest :
  Forall (fun at_ms => at_ms < timeout) times ->
  Net.schedule timeout (connects times ++ rest)
  = map (fun _ => Net.Emitted Net.Connect) times ++ Net.schedule timeout rest.
Proof.
  induction 1 as [|at_ms times Hlt _ IH]; [reflexivity|].
  cbn [connects map app]. rewrite schedule_early by assumption.
  f_equal. exact IH.
Qed.

Lemma schedule_late timeout evs :
  Forall (fun te => timeout <= fst te) evs ->
  Net.schedule timeout evs
  = Net.TimerFired :: map (fun te => Net.Emitted (snd te)) evs.
Proof.
  intros Hall. destruct Hall as [|[at_ms e] evs Hge _]; [reflexivity|].
  simpl in *. destruct (Z.ltb_spec at_ms timeout); [lia | reflexivity].
Qed.

Lemma schedule_same_gap lo hi evs :
  Forall (fun te => fst te < lo \/ hi <= fst te) evs -> lo <= hi ->
  Net.schedule lo evs = Net.schedule hi evs.
Proof.
  intros Hall Hle. induction Hall as [|[at_ms e] evs Hgap _ IH]; [reflexivity|].
  simpl in *.
  destruct (Z.ltb_spec at_ms lo), (Z.ltb_spec at_ms hi); try lia.
  - f_equal. exact IH.
  - reflexivity.
Qed.

(** ** [TCPPrinter] *)
Module TCPPrinterFacts.
Import Net TCPPrinter.

Ltac step_cases c o :=
  destruct c as [[dead sent] [|v|err]]; destruct o as [[|resp| |e]|];
  cbn; try destruct dead; cbn.

(** A settled promise stays as it is. *)
Lemma step_keeps_outcome data c o :
  settled (outcome c) = true -> outcome (step data c o) = outcome c.
Proof. step_cases c o; intros; congruence. Qed.

Lemma steps_keep_outcome data os : forall c,
  settled (outcome c) = true ->
  outcome (fold_left (step data) os c) = outcome c.
Proof.
  induction os as [|o os IH]; intros c Hs; [reflexivity|].
  cbn [fold_left]. rewrite IH; rewrite step_keeps_outcome; auto.
Qed.

(** ['connect'] only writes the payload. *)
Lemma after_connects data (times : list Z) : forall c,
  let c' := fold_left (step data)
              (map (fun _ => Emitted Connect) times) c in
  outcome c' = outcome c /\ destroyed (client c') = destroyed (client c).
Proof.
  induction times as [|t times IH]; intros c; [split; reflexivity|].
  cbn [map fold_left]. destruct (IH (step data c (Emitted Connect))) as [Ho Hd].
  cbn zeta. rewrite Ho, Hd. destruct c as [[dead sent] p]. split; reflexivity.
Qed.

(** The first callback other than ['connect'] settles the promise of a
    fresh call. *)
Lemma first_decides data (times : list Z) o rest c :
  c = fold_left (step data) (map (fun _ => Emitted Connect) times) start ->
  settled (outcome (step data c o)) = true ->
  outcome (run data (map (fun _ => Emitted Connect) times ++ o :: rest))
  = outcome (step data c o).
Proof.
  intros -> Hs. unfold run. rewrite fold_left_app. cbn [fold_left].
  apply steps_keep_outcome, Hs.
Qed.

(** Settled promises only exist on destroyed sockets. *)
Lemma step_closed data c o :
  settled (outcome c) = destroyed (client c) ->
  settled (outcome (step data c o)) = destroyed (client (step data c o)).
Proof. step_cases c o; intros; congruence. Qed.

Lemma run_closed data os :
  settled (outcome (run data os)) = destroyed (client (run data os)).
Proof.
  unfold run. generalize start (eq_refl : settled (outcome start) = destroyed (client start)).
  induction os as [|o os IH]; intros c Hc; [exact Hc|].
  cbn [fold_left]. apply IH, step_closed, Hc.
Qed.

(** The timer always runs, so every call settles. *)
Lemma timer_settles data c :
  settled (outcome c) = destroyed (client c) ->
  settled (outcome (step data c TimerFired)) = true.
Proof. destruct c as [[[|] sent] [|v|err]]; cbn; congruence. Qed.

Lemma scheduled_settles data timeout evs : forall c,
  settled (outcome c) = destroyed (client c) ->
  settled (outcome (fold_left (step data) (schedule timeout evs) c)) = true.
Proof.
  induction evs as [|[at_ms e] evs IH]; intros c Hc.
  - cbn [schedule fold_left]. apply timer_settles, Hc.
  - cbn [schedule]. destruct (at_ms <? timeout).
    + cbn [fold_left]. apply IH, step_closed, Hc.
    + cbn [fold_left]. rewrite steps_keep_outcome; apply timer_settles, Hc.
Qed.

End TCPPrinterFacts.

Section TCPClaims.
Import Net TCPPrinter TCPPrinterFacts.

(** A call that has only seen ['connect'] is pending on an open socket,
    so the next callback decides. *)
Lemma connected_pending data (times : list Z) :
  exists sent,
    fold_left (step data) (map (fun _ => Emitted Connect) times) start
    = Call (Socket false sent) Pending.
Proof.
  destruct (after_connects data times start) as [Ho Hd]. cbn zeta in *.
  destruct (fold_left _ _ start) as [[dead sent] p]. cbn in *. subst.
  exists sent. reflexivity.
Qed.

Lemma decided_after_connects data (times : list Z) o rest p :
  (forall sent, outcome (step data (Call (Socket false sent) Pending) o) = p) ->
  settled p = true ->
  outcome (run data (map (fun _ => Emitted Connect) times ++ o :: rest)) = p.
Proof.
  intros Hstep Hp. destruct (connected_pending data times) as [sent Hc].
  rewrite (first_decides data times o rest _ eq_refl); rewrite Hc, Hstep; auto.
Qed.

(** On a port that [connect] takes, [print] is the run of the scheduled
    callbacks. *)
Lemma print_connected this data evs :
  valid_port (port this) = true ->
  print this data evs = run data (schedule timeout_ms evs).
Proof. unfold print. intros ->. reflexivity. Qed.

(** Every callback but that of ['connect'] leaves the socket closed. *)
Lemma step_closes data c o :
  o <> Emitted Connect -> destroyed (client (step data c o)) = true.
Proof.
  destruct c as [[dead sent] p]; destruct o as [[|resp| |e]|]; cbn;
    try destruct dead; cbn; congruence.
Qed.

(** C3: the first callback after the connection decides the promise of
    [TCPPrinter.print]. Response bytes that arrive before the timer
    fulfil it with those bytes, a close of the peer before the timer
    fulfils it with the generic success text, the timer running before
    any response or close fulfils it with the text marked timeout, and an
    error of the connection before the timer rejects it with that
    error; what happens afterwards changes nothing. The connection error
    may also come from [connect] itself, which throws on a port outside
    0 to 65535: then the promise is rejected with what it threw before a
    listener or the timer is set, whatever the peer would do. *)
Theorem tcp_print_race this data times at_ms response err rest late evs :
  Forall (fun t => t < timeout_ms) times ->
  at_ms < timeout_ms ->
  Forall (fun te => timeout_ms <= fst te) late ->
  (valid_port (port this) = true ->
   outcome (print this data (connects times ++ (at_ms, Data response) :: rest))
   = Fulfilled (VBuffer response) /\
   outcome (print this data (connects times ++ (at_ms, Close) :: rest))
   = Fulfilled (VString "Print job sent successfully") /\
   outcome (print this data (connects times ++ late))
   = Fulfilled (VString "Print job sent (timeout)") /\
   outcome (print this data (connects times ++ (at_ms, Err err) :: rest))
   = Rejected err) /\
  (valid_port (port this) = false ->
   outcome (print this data evs) = Rejected (bad_port (port this))).
Proof.
  intros Htimes Hat Hlate. split.
  - intros Hport. rewrite !print_connected by assumption.
    rewrite !schedule_connects, !schedule_early, (schedule_late _ late) by assumption.
    repeat split; apply decided_after_connects; reflexivity.
  - intros Hport. unfold print. rewrite Hport. reflexivity.
Qed.

Lemma tcp_print_race_witness :
  outcome (print (Make "10.0.0.7" 9100) (VString "^XA^XZ")
             (connects [3] ++ (40, Data [x4f; x4b]) :: [(41, Close)]))
  = Fulfilled (VBuffer [x4f; x4b]) /\
  outcome (print (Make "10.0.0.7" 9100) (VString "^XA^XZ")
             (connects [3] ++ [(6000, Data [x4f; x4b])]))
  = Fulfilled (VString "Print job sent (timeout)") /\
  outcome (print (Make "10.0.0.7" 70000) (VString "^XA^XZ") [])
  = Rejected (Error "Port should be >= 0 and < 65536. Received type number (70000).").
Proof.
  destruct (tcp_print_race (Make "10.0.0.7" 9100) (VString "^XA^XZ")
              [3] 40 [x4f; x4b] (Error "ECONNRESET") [(41, Close)]
              [(6000, Data [x4f; x4b])] []) as [Hrace _].
  - repeat constructor.
  - reflexivity.
  - repeat constructor. cbn. discriminate.
  - destruct (tcp_print_race (Make "10.0.0.7" 70000) (VString "^XA^XZ")
                [] 0 [] (Error "ECONNRESET") [] [] []) as [_ Hthrown];
      [constructor | reflexivity | constructor |].
    destruct (Hrace eq_refl) as (Hdata & _ & Htimer & _).
    split; [exact Hdata | split; [exact Htimer | exact (Hthrown eq_refl)]].
Defined.

(** C8, as it stands, fails: with port 70000 configured the call ends
    with the promise rejected by what [connect] threw, and nothing has
    closed the socket. *)
Lemma tcp_bad_port_leaves_socket :
  settled (outcome (print (Make "10.0.0.7" 70000) (VString "^XA^XZ") [])) = true /\
  destroyed (client (print (Make "10.0.0.7" 70000) (VString "^XA^XZ") [])) = false.
Proof. split; reflexivity. Qed.

(** C8, amended: once [connect] has taken the port, the socket is
    closed on every path on which [TCPPrinter.print] settles its promise.
    Each callback that settles it leaves the socket closed: the handlers
    of a response and of the timer destroy it, and on ['close'] and
    ['error'] the runtime has destroyed it by the time the listener runs.
    So after any sequence of callbacks a settled promise goes with a
    closed socket, and every call does settle, because the timer always
    runs. When [connect] throws on the port, the promise is rejected and
    the socket, never connected, is not closed. *)
Theorem tcp_socket_closed_on_every_exit this data os o evs :
  (o <> Emitted Connect ->
   destroyed (client (step data (run data os) o)) = true) /\
  (settled (outcome (run data os)) = true ->
   destroyed (client (run data os)) = true) /\
  (valid_port (port this) = true ->
   settled (outcome (print this data evs)) = true /\
   destroyed (client (print this data evs)) = true) /\
  (valid_port (port this) = false ->
   settled (outcome (print this data evs)) = true /\
   destroyed (client (print this data evs)) = false).
Proof.
  split; [apply step_closes|]. split; [|split].
  - rewrite run_closed. auto.
  - intros Hport. rewrite print_connected by assumption. split.
    + apply scheduled_settles. reflexivity.
    + rewrite <- run_closed. apply scheduled_settles. reflexivity.
  - intros Hport. unfold print. rewrite Hport. split; reflexivity.
Qed.

Lemma tcp_socket_closed_on_every_exit_witness :
  destroyed (client (step (VString "^XA^XZ")
                       (run (VString "^XA^XZ") [Emitted Connect])
                       (Emitted (Data [x4f; x4b])))) = true /\
  destroyed (client (run (VString "^XA^XZ")
                       [Emitted Connect; Emitted (Err (Error "EPIPE"))])) = true /\
  destroyed (client (print (Make "10.0.0.7" 9100) (VString "^XA^XZ")
                       [(3, Connect)])) = true.
Proof.
  destruct (tcp_socket_closed_on_every_exit (Make "10.0.0.7" 9100)
              (VString "^XA^XZ") [Emitted Connect]
              (Emitted (Data [x4f; x4b])) [(3, Connect)])
    as (Hstep & _ & Hprint & _).
  destruct (tcp_socket_closed_on_every_exit (Make "10.0.0.7" 9100)
              (VString "^XA^XZ")
              [Emitted Connect; Emitted (Err (Error "EPIPE"))]
              TimerFired [])
    as (_ & Hexit & _ & _).
  split; [apply Hstep; discriminate|].
  split; [apply Hexit; reflexivity|].
  apply (Hprint eq_refl).
Defined.

End TCPClaims.

(** ** The two variants of [TCPPrinter] side by side *)
Section TCPVariants.
Import Net.

Lemma step_ascii_view data c o :
  TCPPrinter2.step data (ascii_view c) o = ascii_view (TCPPrinter.step data c o).
Proof.
  destruct c as [[dead sent] [|v|err]]; destruct o as [[|resp| |e]|];
    cbn; try destruct dead; reflexivity.
Qed.

Lemma run_ascii_view data os :
  TCPPrinter2.run data os = ascii_view (TCPPrinter.run data os).
Proof.
  unfold TCPPrinter2.run, TCPPrinter.run.
  change start with (ascii_view start) at 1. generalize start.
  induction os as [|o os IH]; intros c; [reflexivity|].
  cbn [fold_left]. rewrite step_ascii_view. apply IH.
Qed.

(** C9, as it stands, fails: a response of one byte, well before either
    timer, is reported as a [Buffer] by one variant and as a string by
    the other. *)
Lemma tcp_variants_differ_on_response :
  outcome (TCPPrinter.print (TCPPrinter.Make "10.0.0.7" 9100)
             (VString "^XA^XZ") [(2, Connect); (10, Data [x41])])
  = Fulfilled (VBuffer [x41]) /\
  outcome (TCPPrinter2.print (TCPPrinter2.Make "10.0.0.7" 9100)
             (VString "^XA^XZ") [(2, Connect); (10, Data [x41])])
  = Fulfilled (VString "A") /\
  outcome (TCPPrinter.print (TCPPrinter.Make "10.0.0.7" 9100)
             (VString "^XA^XZ") [(2, Connect); (10, Data [x41])])
  <> outcome (TCPPrinter2.print (TCPPrinter2.Make "10.0.0.7" 9100)
                (VString "^XA^XZ") [(2, Connect); (10, Data [x41])]).
Proof. repeat split; try reflexivity. cbn. discriminate. Qed.

(** C9, amended: besides the timer constants the variants differ in
    the form of a response, kept as a [Buffer] by the 5000 ms variant and
    decoded as ASCII text by the 100 ms variant. After the same callbacks
    the 100 ms variant is in the state of the 5000 ms variant with a
    response seen as ASCII text, and so it is, for one configured port,
    after the same timed socket events none of which falls between the
    two timers. Where the 5000 ms variant does not end with a response,
    the two outcomes are the same. *)
Theorem tcp_variants_agree_up_to_ascii this this2 data os evs :
  TCPPrinter2.run data os = ascii_view (TCPPrinter.run data os) /\
  (TCPPrinter2.port this2 = TCPPrinter.port this ->
   Forall (fun te => fst te < TCPPrinter2.timeout_ms \/
                     TCPPrinter.timeout_ms <= fst te) evs ->
   TCPPrinter2.print this2 data evs
   = ascii_view (TCPPrinter.print this data evs)) /\
  ((forall response,
       outcome (TCPPrinter.run data os) <> Fulfilled (VBuffer response)) ->
   outcome (TCPPrinter2.run data os) = outcome (TCPPrinter.run data os)).
Proof.
  split; [apply run_ascii_view|]. split.
  - intros Hport Hgap. unfold TCPPrinter2.print, TCPPrinter.print.
    rewrite Hport. destruct (valid_port (TCPPrinter.port this)); [|reflexivity].
    rewrite (schedule_same_gap _ TCPPrinter.timeout_ms)
      by (assumption || (cbv; discriminate)).
    apply run_ascii_view.
  - intros Hother. rewrite run_ascii_view. cbn [ascii_view outcome].
    destruct (outcome (TCPPrinter.run data os)) as [|[b|s]|e]; try reflexivity.
    destruct (Hother b eq_refl).
Qed.

Lemma tcp_variants_agree_up_to_ascii_witness :
  TCPPrinter2.print (TCPPrinter2.Make "10.0.0.7" 9100) (VString "^XA^XZ")
    [(2, Connect); (10, Data [xc1])]
  = ascii_view (TCPPrinter.print (TCPPrinter.Make "10.0.0.7" 9100)
                  (VString "^XA^XZ") [(2, Connect); (10, Data [xc1])]).
Proof.
  destruct (tcp_variants_agree_up_to_ascii (TCPPrinter.Make "10.0.0.7" 9100)
              (TCPPrinter2.Make "10.0.0.7" 9100) (VString "^XA^XZ") []
              [(2, Connect); (10, Data [xc1])]) as (_ & Htimed & _).
  apply Htimed; [reflexivity | repeat constructor].
Defined.

End TCPVariants.

(** ** [USBPrinter] *)

Lemma existsb_find {A} (f : A -> bool) (l : list A) :
  existsb f l = match List.find f l with Some _ => true | None => false end.
Proof.
  induction l as [|a l IH]; [reflexivity|]. cbn. destruct (f a); [reflexivity | exact IH].
Qed.

Section USBClaims.
Import Usb USBPrinter.

Variable utf8_encode : string -> bytes.

Lemma findByIds_of_vendor devices vid pid d :
  findByIds devices vid pid = Some d ->
  existsb (fun d => idVendor d =? vid) devices = true.
Proof.
  intros Hfind. apply find_some in Hfind as [Hin Hids].
  apply andb_true_iff in Hids as [Hvid _].
  apply existsb_exists. exists d. split; assumption.
Qed.

Lemma findPrinter_found this devices :
  fst (findPrinter this devices)
  = existsb (fun d => idVendor d =? vendorId this) devices.
Proof.
  unfold findPrinter, find_exact.
  destruct (productId_given this) as [pid|].
  - destruct (findByIds devices (vendorId this) pid) as [d|] eqn:Hexact;
      cbn [with_device device vendorId].
    + symmetry. eapply findByIds_of_vendor, Hexact.
    + rewrite existsb_find. destruct (List.find _ devices); reflexivity.
  - rewrite existsb_find. destruct (List.find _ devices); reflexivity.
Qed.

(** Discovery as [findPrinter] makes it: a configured product
    identifier gives the exact vendor and product pair the first try only.
    Discovery succeeds
    exactly when some enumerated device has the configured vendor
    identifier: the exact pair is taken when it is enumerated, the first
    device of the vendor otherwise. When no enumerated device has the
    vendor identifier, [print] rejects with the not-found error and makes
    no call on any device, [open] included. *)
Theorem usb_discovery_falls_back_to_vendor this data devices tr :
  fst (findPrinter this devices)
  = existsb (fun d => idVendor d =? vendorId this) devices /\
  (forall pid d,
      productId_given this = Some pid ->
      findByIds devices (vendorId this) pid = Some d ->
      device (snd (findPrinter this devices)) = Some d) /\
  (forall pid,
      productId_given this = Some pid ->
      findByIds devices (vendorId this) pid = None ->
      device (snd (findPrinter this devices))
      = List.find (fun d => idVendor d =? vendorId this) devices) /\
  (existsb (fun d => idVendor d =? vendorId this) devices = false ->
   outcome (print utf8_encode this data devices tr)
   = Rejected (Error "Zebra printer not found via USB") /\
   calls (print utf8_encode this data devices tr) = []).
Proof.
  split; [apply findPrinter_found|]. split; [|split].
  - intros pid d Hpid Hexact. unfold findPrinter, find_exact.
    rewrite Hpid, Hexact. reflexivity.
  - intros pid Hpid Hexact. unfold findPrinter, find_exact.
    rewrite Hpid, Hexact. cbn [with_device device vendorId].
    destruct (List.find _ devices); reflexivity.
  - intros Hnone. rewrite <- findPrinter_found in Hnone. unfold print.
    destruct (findPrinter this devices) as [found this']. cbn in Hnone.
    subst found. split; reflexivity.
Qed.

(** [initializeDevice] opens, detaches and claims; it starts no transfer. *)
Lemma initializeDevice_no_transfer this :
  existsb is_transfer (snd (snd (initializeDevice (this, [])))) = false.
Proof.
  unfold initializeDevice, bind, this_device, lib, set_endpoint, ret, throw.
  destruct (device this) as [d|]; [|reflexivity].
  destruct (open_error d), (kernelDriverActive d), (detach_error d),
    (claim_error d), (List.find is_out (endpoints d)); reflexivity.
Qed.

(** C7: once the bulk transfer has been started and its callback runs,
    the call on the device right after the transfer is [close], whether
    the callback reports an error or not; with an error the promise is
    rejected with that low-level error, without one it is fulfilled. *)
Theorem usb_transfer_closes_device this data devices error :
  let r := print utf8_encode this data devices (Callback error) in
  existsb is_transfer (calls r) = true ->
  (exists log ep,
      calls r = log ++ [Transfer ep (to_buffer utf8_encode data); CloseDevice]) /\
  outcome r = match error with
              | Some e => Rejected e
              | None => Fulfilled "Print job sent successfully via USB"
              end.
Proof.
  cbn zeta. unfold print.
  destruct (findPrinter this devices) as [[|] this']; cbn [negb];
    [|cbn; discriminate].
  pose proof (initializeDevice_no_transfer this') as Hinit.
  destruct (initializeDevice (this', [])) as [done [this'' log]]. cbn [snd] in Hinit.
  destruct (endpoint this'') as [| |ep]; cbn [calls outcome]; try congruence.
  intros _. split; [|reflexivity].
  exists log, ep. rewrite <- app_assoc. reflexivity.
Qed.

End USBClaims.

(** ** POSIX paths *)
Module PathFacts.
Import Path.

Lemma append_cons c a b : String c a +:+ b = String c (a +:+ b).
Proof. reflexivity. Qed.

Lemma split_slash_cons s : exists seg segs, split_slash s = seg :: segs.
Proof.
  induction s as [|c s (seg & segs & IH)]; cbn [split_slash]; [eauto|].
  destruct (Ascii.eqb c slash); [eauto|]. rewrite IH. eauto.
Qed.

Lemma split_slash_app a b :
  split_slash (a +:+ String slash b) = split_slash a ++ split_slash b.
Proof.
  induction a as [|c a IH]; [reflexivity|].
  rewrite append_cons. cbn [split_slash]. rewrite IH.
  destruct (Ascii.eqb c slash); [reflexivity|].
  destruct (split_slash_cons a) as (seg & segs & ->). reflexivity.
Qed.

Lemma split_slash_trailing a :
  split_slash (a +:+ "/") = split_slash a ++ [""%string].
Proof. apply (split_slash_app a ""). Qed.

Lemma no_slash_cons c s :
  no_slash (String c s) = negb (Ascii.eqb c slash) && no_slash s.
Proof. reflexivity. Qed.

Lemma no_slash_app a b : no_slash (a +:+ b) = no_slash a && no_slash b.
Proof.
  induction a as [|c a IH]; [reflexivity|].
  rewrite append_cons, !no_slash_cons, IH. apply andb_assoc.
Qed.

Lemma split_slash_no_slash s : no_slash s = true -> split_slash s = [s].
Proof.
  induction s as [|c s IH]; [reflexivity|]. rewrite no_slash_cons.
  intros [Hc Hs]%andb_true_iff. cbn [split_slash].
  apply negb_true_iff in Hc. rewrite Hc, IH by assumption. reflexivity.
Qed.

Lemma split_slash_segments s : forallb no_slash (split_slash s) = true.
Proof.
  induction s as [|c s IH]; [reflexivity|]. cbn [split_slash].
  destruct (Ascii.eqb c slash) eqn:Hc; [exact IH|].
  destruct (split_slash s) as [|seg segs]; cbn [forallb] in *;
    rewrite ?no_slash_cons, Hc; [reflexivity | exact IH].
Qed.

(** Splitting undoes joining with [/]. *)
Lemma split_slash_concat seg segs :
  forallb no_slash (seg :: segs) = true ->
  split_slash (String.concat "/" (seg :: segs)) = seg :: segs.
Proof.
  revert seg. induction segs as [|next segs IH]; intros seg Hall.
  - cbn [forallb String.concat] in *. apply split_slash_no_slash.
    rewrite andb_true_r in Hall. exact Hall.
  - cbn [forallb] in Hall. apply andb_true_iff in Hall as [Hseg Hrest].
    change (String.concat "/" (seg :: next :: segs))
      with (seg +:+ String slash (String.concat "/" (next :: segs))).
    rewrite split_slash_app, IH, split_slash_no_slash by assumption. reflexivity.
Qed.


(** *** The walk over segments *)

Lemma forallb_rev {A} (f : A -> bool) (l : list A) :
  forallb f (rev l) = forallb f l.
Proof.
  induction l as [|a l IH]; [reflexivity|].
  cbn [rev forallb]. rewrite forallb_app, IH. cbn. rewrite andb_true_r. apply andb_comm.
Qed.

Lemma clean_plain seg : clean seg = true -> plain seg = true.
Proof. unfold clean. intros [H _]%andb_true_iff. exact H. Qed.

Lemma plain_no_slash seg : plain seg = true -> no_slash seg = true.
Proof. unfold plain. intros [[H _]%andb_true_iff _]%andb_true_iff. exact H. Qed.

Lemma forallb_impl {A} (f g : A -> bool) (l : list A) :
  (forall a, f a = true -> g a = true) -> forallb f l = true -> forallb g l = true.
Proof.
  intros Himpl. induction l as [|a l IH]; [reflexivity|]. cbn [forallb].
  intros [Ha Hl]%andb_true_iff. rewrite (Himpl a Ha), IH by assumption. reflexivity.
Qed.

Lemma walk_step_empty b acc : walk_step b acc "" = acc.
Proof. reflexivity. Qed.

Lemma walk_step_clean b acc seg : clean seg = true -> walk_step b acc seg = seg :: acc.
Proof.
  unfold clean, plain, walk_step.
  intros [[[_ H0]%andb_true_iff H1]%andb_true_iff H2]%andb_true_iff.
  apply negb_true_iff in H0, H1, H2. rewrite H0, H1, H2. reflexivity.
Qed.

Lemma walk_clean b segs : forall acc,
  forallb clean segs = true ->
  fold_left (walk_step b) segs acc = rev segs ++ acc.
Proof.
  induction segs as [|seg segs IH]; intros acc Hall; [reflexivity|].
  cbn [forallb] in Hall. apply andb_true_iff in Hall as [Hseg Hrest].
  cbn [fold_left rev]. rewrite walk_step_clean, IH by assumption.
  rewrite <- app_assoc. reflexivity.
Qed.

(** Without [allowAboveRoot] the stack holds clean segments only. *)
Lemma walk_step_keeps_clean acc seg :
  no_slash seg = true -> forallb clean acc = true ->
  forallb clean (walk_step false acc seg) = true.
Proof.
  intros Hseg Hacc. unfold walk_step.
  destruct (String.eqb seg "") eqn:H0; [exact Hacc|].
  destruct (String.eqb seg ".") eqn:H1; [exact Hacc|]. cbn [orb].
  destruct (String.eqb seg "..") eqn:H2.
  - destruct acc as [|top below]; [reflexivity|].
    pose proof Hacc as Hall.
    cbn [forallb] in Hacc. apply andb_true_iff in Hacc as [Htop Hbelow].
    destruct (String.eqb top ".."); assumption.
  - cbn [forallb]. rewrite Hacc. unfold clean, plain. rewrite Hseg, H0, H1, H2. reflexivity.
Qed.

Lemma walk_keeps_clean segs : forall acc,
  forallb no_slash segs = true -> forallb clean acc = true ->
  forallb clean (fold_left (walk_step false) segs acc) = true.
Proof.
  induction segs as [|seg segs IH]; intros acc Hsegs Hacc; [exact Hacc|].
  cbn [forallb] in Hsegs. apply andb_true_iff in Hsegs as [Hseg Hrest].
  cbn [fold_left]. apply IH; [exact Hrest|]. apply walk_step_keeps_clean; assumption.
Qed.

(** With or without it the stack holds plain segments. *)
Lemma walk_step_keeps_plain b acc seg :
  no_slash seg = true -> forallb plain acc = true ->
  forallb plain (walk_step b acc seg) = true.
Proof.
  intros Hseg Hacc. unfold walk_step.
  destruct (String.eqb seg "") eqn:H0; [exact Hacc|].
  destruct (String.eqb seg ".") eqn:H1; [exact Hacc|]. cbn [orb].
  destruct (String.eqb seg "..").
  - destruct acc as [|top below]; [destruct b; reflexivity|].
    pose proof Hacc as Hall.
    cbn [forallb] in Hacc. apply andb_true_iff in Hacc as [Htop Hbelow].
    destruct (String.eqb top ".."), b; assumption.
  - cbn [forallb]. rewrite Hacc. unfold plain. rewrite Hseg, H0, H1. reflexivity.
Qed.

Lemma walk_keeps_plain b segs : forall acc,
  forallb no_slash segs = true -> forallb plain acc = true ->
  forallb plain (fold_left (walk_step b) segs acc) = true.
Proof.
  induction segs as [|seg segs IH]; intros acc Hsegs Hacc; [exact Hacc|].
  cbn [forallb] in Hsegs. apply andb_true_iff in Hsegs as [Hseg Hrest].
  cbn [fold_left]. apply IH; [exact Hrest|]. apply walk_step_keeps_plain; assumption.
Qed.

(** Walking a relative path from a stack equals normalising it first,
    above the root allowed, and walking the result from that stack. *)
Lemma walk_step_relative acc up seg :
  forallb plain up = true ->
  fold_left (walk_step false) (rev (walk_step true up seg)) acc
  = walk_step false (fold_left (walk_step false) (rev up) acc) seg.
Proof.
  intros Hup. unfold walk_step at 2.
  destruct (String.eqb seg "") eqn:H0; [apply String.eqb_eq in H0; subst; reflexivity|].
  destruct (String.eqb seg ".") eqn:H1; [apply String.eqb_eq in H1; subst; reflexivity|].
  cbn [orb]. destruct (String.eqb seg "..") eqn:H2.
  - apply String.eqb_eq in H2. subst seg.
    destruct up as [|top below]; [reflexivity|].
    cbn [forallb] in Hup. apply andb_true_iff in Hup as [Htop _].
    destruct (String.eqb top "..") eqn:Hdots; cbn [rev]; rewrite ?fold_left_app;
      [reflexivity|].
    cbn [fold_left]. rewrite (walk_step_clean false _ top).
    + unfold walk_step. cbn. rewrite Hdots. reflexivity.
    + unfold clean. rewrite Htop, Hdots. reflexivity.
  - cbn [rev]. rewrite fold_left_app. reflexivity.
Qed.

Lemma walk_relative segs : forall acc up,
  forallb no_slash segs = true -> forallb plain up = true ->
  fold_left (walk_step false) (rev (fold_left (walk_step true) segs up)) acc
  = fold_left (walk_step false) segs (fold_left (walk_step false) (rev up) acc).
Proof.
  induction segs as [|seg segs IH]; intros acc up Hsegs Hup; [reflexivity|].
  cbn [forallb] in Hsegs. apply andb_true_iff in Hsegs as [Hseg Hrest].
  cbn [fold_left]. rewrite IH, walk_step_relative; auto using walk_step_keeps_plain.
Qed.

(** *** [resolve] *)

Lemma walk_segments_clean segs :
  forallb no_slash segs = true -> forallb clean (walk_segments false segs) = true.
Proof.
  intros Hsegs. unfold walk_segments. rewrite forallb_rev.
  apply walk_keeps_clean; [exact Hsegs | reflexivity].
Qed.

Lemma split_slash_leading s : split_slash (String slash s) = ""%string :: split_slash s.
Proof. reflexivity. Qed.

(** The segments of a path written from clean segments are those. *)
Lemma segments_of_segments segs :
  forallb clean segs = true -> segments (of_segments segs) = segs.
Proof.
  intros Hclean. unfold segments, of_segments.
  change ("/" ++ String.concat "/" segs)%string
    with (String slash (String.concat "/" segs)).
  rewrite split_slash_leading. destruct segs as [|seg segs]; [reflexivity|].
  rewrite split_slash_concat
    by (eapply forallb_impl; [|exact Hclean]; intros; apply plain_no_slash, clean_plain; assumption).
  unfold walk_segments.
  change (fold_left (walk_step false) (""%string :: seg :: segs) [])
    with (fold_left (walk_step false) (seg :: segs) []).
  rewrite walk_clean by assumption. rewrite app_nil_r. apply rev_involutive.
Qed.

Lemma resolve_walk cwd p :
  resolve cwd p = of_segments (walk_segments false (split_slash (anchored cwd p))).
Proof. reflexivity. Qed.

Lemma segments_resolve cwd p :
  segments (resolve cwd p) = walk_segments false (split_slash (anchored cwd p)).
Proof.
  rewrite resolve_walk. apply segments_of_segments, walk_segments_clean,
    split_slash_segments.
Qed.

(** A resolved path is written from its segments. *)
Lemma resolve_of_segments cwd p : of_segments (segments (resolve cwd p)) = resolve cwd p.
Proof. rewrite segments_resolve. reflexivity. Qed.

Lemma segments_resolve_cases cwd p :
  segments (resolve cwd p)
  = if String.eqb p "" then rev (cwd_stack cwd)
    else if isAbsolute p then rev (fold_left (walk_step false) (split_slash p) [])
    else rev (fold_left (walk_step false) (split_slash p) (cwd_stack cwd)).
Proof.
  rewrite segments_resolve. unfold anchored, walk_segments, cwd_stack.
  destruct (String.eqb p ""); [|destruct (isAbsolute p)].
  - rewrite split_slash_trailing, fold_left_app. reflexivity.
  - rewrite split_slash_trailing, fold_left_app. reflexivity.
  - change (cwd ++ "/" ++ p ++ "/")%string with (cwd +:+ String slash (p +:+ "/")).
    rewrite split_slash_app, split_slash_trailing, !fold_left_app. reflexivity.
Qed.

(** *** [join] with a file name *)

Lemma plain_head seg :
  plain seg = true -> exists c rest, seg = String c rest /\ Ascii.eqb c slash = false.
Proof.
  unfold plain. destruct seg as [|c rest]; [discriminate|].
  rewrite no_slash_cons. intros [[[Hc _]%andb_true_iff _]%andb_true_iff _]%andb_true_iff.
  apply negb_true_iff in Hc. eauto.
Qed.

Lemma concat_head seg segs :
  exists tail, String.concat "/" (seg :: segs) = seg +:+ tail.
Proof.
  destruct segs as [|next segs].
  - exists ""%string. cbn [String.concat]. induction seg as [|c seg IH]; [reflexivity|].
    rewrite append_cons, <- IH. reflexivity.
  - eexists. reflexivity.
Qed.

Lemma concat_plain seg segs :
  plain seg = true ->
  isAbsolute (String.concat "/" (seg :: segs)) = false /\
  String.eqb (String.concat "/" (seg :: segs)) "" = false.
Proof.
  intros (c & rest & -> & Hc)%plain_head.
  destruct (concat_head (String c rest) segs) as [tail ->].
  rewrite append_cons. split; [exact Hc | reflexivity].
Qed.

Lemma endsWithSlash_app a b :
  b <> ""%string -> endsWithSlash (a +:+ b) = endsWithSlash b.
Proof.
  intros Hb. induction a as [|c a IH]; [reflexivity|].
  rewrite append_cons. cbn [endsWithSlash]. rewrite IH.
  destruct (a +:+ b) eqn:Hab; [|reflexivity].
  destruct a; [destruct (Hb Hab) | rewrite append_cons in Hab; discriminate].
Qed.

Lemma endsWithSlash_no_slash s : no_slash s = true -> endsWithSlash s = false.
Proof.
  induction s as [|c s IH]; [reflexivity|]. rewrite no_slash_cons.
  intros [Hc Hs]%andb_true_iff. apply negb_true_iff in Hc.
  cbn [endsWithSlash]. destruct s; [exact Hc | apply IH, Hs].
Qed.

Lemma clean_nonempty name : clean name = true -> String.eqb name "" = false.
Proof.
  intros (c & rest & -> & _)%clean_plain%plain_head. reflexivity.
Qed.

Lemma snoc_cons {A} (l : list A) (x : A) : exists y ys, l ++ [x] = y :: ys.
Proof. destruct l; cbn; eauto. Qed.

Lemma concat_plain_snoc segs name :
  forallb plain (segs ++ [name]) = true ->
  isAbsolute (String.concat "/" (segs ++ [name])) = false /\
  String.eqb (String.concat "/" (segs ++ [name])) "" = false.
Proof.
  destruct (snoc_cons segs name) as (seg & rest & ->). cbn [forallb].
  intros [Hseg _]%andb_true_iff. apply concat_plain, Hseg.
Qed.

Lemma split_slash_concat_snoc segs name :
  forallb no_slash (segs ++ [name]) = true ->
  split_slash (String.concat "/" (segs ++ [name])) = segs ++ [name].
Proof.
  destruct (snoc_cons segs name) as (seg & rest & ->). apply split_slash_concat.
Qed.

Lemma forallb_snoc {A} (f : A -> bool) l x :
  forallb f l = true -> f x = true -> forallb f (l ++ [x]) = true.
Proof. intros Hl Hx. rewrite forallb_app, Hl. cbn. rewrite Hx. reflexivity. Qed.

Lemma dir_stack_plain sd : forallb plain (dir_stack sd) = true.
Proof. apply walk_keeps_plain; [apply split_slash_segments | reflexivity]. Qed.

(** [join] of a directory and a clean file name: the normalised directory
    followed by the name. *)
Lemma join_file sd name :
  clean name = true ->
  join sd name
  = if String.eqb sd "" then name
    else (if isAbsolute sd then "/" else "")%string
         +:+ String.concat "/" (rev (dir_stack sd) ++ [name]).
Proof.
  intros Hname. pose proof (clean_nonempty name Hname) as Hne.
  pose proof (clean_plain name Hname) as Hplain.
  pose proof (plain_no_slash name Hplain) as Hns.
  unfold join. rewrite Hne. destruct (String.eqb sd "") eqn:Hsd.
  - unfold normalize. rewrite Hne.
    destruct (concat_plain name [] Hplain) as [Habs _]. cbn [String.concat] in Habs.
    rewrite Habs, (endsWithSlash_no_slash name Hns). cbn [negb].
    unfold normalizeString, walk_segments. rewrite split_slash_no_slash by assumption.
    cbn [fold_left]. rewrite walk_step_clean by assumption.
    cbn [rev app String.concat]. rewrite Hne. reflexivity.
  - destruct sd as [|c sd]; [discriminate|].
    change (String c sd ++ "/" ++ name)%string
      with (String c sd +:+ String slash name).
    unfold normalize.
    replace (String.eqb (String c sd +:+ String slash name) "") with false
      by (rewrite append_cons; reflexivity).
    replace (isAbsolute (String c sd +:+ String slash name))
      with (isAbsolute (String c sd)) by (rewrite append_cons; reflexivity).
    rewrite endsWithSlash_app by discriminate.
    replace (endsWithSlash (String slash name)) with false
      by (destruct name as [|a name]; [discriminate|];
          symmetry; apply (endsWithSlash_no_slash (String a name) Hns)).
    unfold normalizeString, walk_segments.
    rewrite split_slash_app, (split_slash_no_slash name Hns), fold_left_app.
    cbn [fold_left]. rewrite walk_step_clean by assumption.
    fold (dir_stack (String c sd)). cbn [rev].
    assert (forallb plain (rev (dir_stack (String c sd)) ++ [name]) = true) as Hall
      by (apply forallb_snoc; [rewrite forallb_rev; apply dir_stack_plain | exact Hplain]).
    destruct (concat_plain_snoc _ _ Hall) as [_ ->].
    destruct (isAbsolute (String c sd)); reflexivity.
Qed.

(** A clean file name joined to a directory resolves to that name
    directly below the resolved directory. *)
Lemma join_file_segments cwd sd name :
  clean name = true ->
  segments (resolve cwd (join sd name)) = segments (resolve cwd sd) ++ [name].
Proof.
  intros Hname. pose proof (clean_nonempty name Hname) as Hne.
  pose proof (clean_plain name Hname) as Hplain.
  pose proof (plain_no_slash name Hplain) as Hns.
  rewrite join_file by assumption. rewrite (segments_resolve_cases cwd sd).
  destruct (String.eqb sd "") eqn:Hsd.
  - rewrite segments_resolve_cases, Hne.
    destruct (concat_plain name [] Hplain) as [Habs _]. cbn [String.concat] in Habs.
    rewrite Habs, split_slash_no_slash by assumption.
    cbn [fold_left]. rewrite walk_step_clean by assumption. reflexivity.
  - assert (forallb plain (rev (dir_stack sd) ++ [name]) = true) as Hall
      by (apply forallb_snoc; [rewrite forallb_rev; apply dir_stack_plain | exact Hplain]).
    assert (forallb no_slash (rev (dir_stack sd) ++ [name]) = true) as Hslash
      by (eapply forallb_impl; [apply plain_no_slash | exact Hall]).
    destruct (concat_plain_snoc _ _ Hall) as [Hrel Hnonempty].
    rewrite segments_resolve_cases. unfold dir_stack in *.
    destruct (isAbsolute sd) eqn:Habs; cbn [negb] in *.
    + change ("/" +:+ ?p) with (String slash p).
      cbn [String.eqb isAbsolute]. rewrite Ascii.eqb_refl.
      rewrite split_slash_leading, split_slash_concat_snoc by assumption.
      change (fold_left (walk_step false) (""%string :: ?l) [])
        with (fold_left (walk_step false) l []).
      rewrite walk_clean, app_nil_r, rev_involutive; [reflexivity|].
      apply forallb_snoc; [|exact Hname]. rewrite forallb_rev.
      apply walk_keeps_clean; [apply split_slash_segments | reflexivity].
    + change (""%string +:+ ?p) with p. rewrite Hnonempty, Hrel.
      rewrite split_slash_concat_snoc, fold_left_app by assumption.
      cbn [fold_left]. rewrite walk_step_clean by assumption.
      rewrite walk_relative by (apply split_slash_segments || reflexivity).
      reflexivity.
Qed.

Lemma dirname_join_file cwd sd name :
  clean name = true ->
  dirname (resolve cwd (join sd name)) = resolve cwd sd.
Proof.
  intros Hname. unfold dirname. rewrite join_file_segments by assumption.
  rewrite removelast_last. apply resolve_of_segments.
Qed.

(** A resolved path below the root is not the root. *)
Lemma resolve_join_file_not_root cwd sd name :
  clean name = true -> String.eqb (resolve cwd (join sd name)) "/" = false.
Proof.
  intros Hname. rewrite <- resolve_of_segments, join_file_segments by assumption.
  destruct (snoc_cons (segments (resolve cwd sd)) name) as (seg & rest & Heq).
  rewrite Heq. unfold of_segments.
  assert (plain seg = true) as (c & tail & -> & _)%plain_head.
  { assert (forallb plain (seg :: rest) = true) as Hall.
    { rewrite <- Heq. apply forallb_snoc; [|apply clean_plain, Hname].
      rewrite segments_resolve. eapply forallb_impl; [apply clean_plain|].
      apply walk_segments_clean, split_slash_segments. }
    cbn [forallb] in Hall. apply andb_true_iff in Hall as [Hseg _]. exact Hseg. }
  destruct (concat_head (String c tail) rest) as [more ->]. reflexivity.
Qed.

(** *** The form of a normalised path *)

Lemma clean_is_name seg : clean seg = true -> is_name seg = true.
Proof.
  unfold clean, plain, is_name.
  intros [[[_ H0]%andb_true_iff H1]%andb_true_iff H2]%andb_true_iff.
  apply negb_true_iff in H0, H1, H2. rewrite H0, H1, H2. reflexivity.
Qed.

Lemma plain_is_name seg :
  plain seg = true -> is_name seg = negb (String.eqb seg "..").
Proof.
  unfold plain, is_name.
  intros [[_ H0]%andb_true_iff H1]%andb_true_iff.
  apply negb_true_iff in H0, H1. rewrite H0, H1. reflexivity.
Qed.

Lemma walk_step_name b acc seg : is_name seg = true -> walk_step b acc seg = seg :: acc.
Proof.
  unfold is_name, walk_step. intros H%negb_true_iff.
  apply orb_false_iff in H as [H H2]. rewrite H, H2. reflexivity.
Qed.

Lemma no_names_on_top acc : forallb no_name acc = true -> names_on_top acc = true.
Proof.
  destruct acc as [|top below]; [reflexivity|]. cbn [forallb names_on_top].
  unfold no_name at 1. intros [Htop Hbelow]%andb_true_iff.
  apply negb_true_iff in Htop. rewrite Htop. exact Hbelow.
Qed.

Lemma names_on_top_below top below :
  names_on_top (top :: below) = true -> names_on_top below = true.
Proof.
  cbn [names_on_top]. destruct (is_name top); [auto | apply no_names_on_top].
Qed.

Lemma walk_step_names_on_top b acc seg :
  names_on_top acc = true -> names_on_top (walk_step b acc seg) = true.
Proof.
  intros Hacc. unfold walk_step.
  destruct (String.eqb seg "" || String.eqb seg ".") eqn:H01; [exact Hacc|].
  destruct (String.eqb seg "..") eqn:H2.
  - destruct acc as [|top below]; [destruct b; reflexivity|].
    destruct (String.eqb top "..") eqn:Htop.
    + destruct b; [|exact Hacc]. apply String.eqb_eq in Htop. subst top.
      cbn [names_on_top] in *. exact Hacc.
    + eapply names_on_top_below, Hacc.
  - cbn [names_on_top]. unfold is_name. rewrite H01, H2. exact Hacc.
Qed.

Lemma walk_names_on_top b segs : forall acc,
  names_on_top acc = true -> names_on_top (fold_left (walk_step b) segs acc) = true.
Proof.
  induction segs as [|seg segs IH]; intros acc Hacc; [exact Hacc|].
  cbn [fold_left]. apply IH, walk_step_names_on_top, Hacc.
Qed.

(** Read from the bottom, such a stack is what is no name, then names. *)
Lemma names_on_top_shape acc :
  names_on_top acc = true ->
  exists ups names,
    rev acc = ups ++ names /\
    forallb no_name ups = true /\ forallb is_name names = true.
Proof.
  induction acc as [|top below IH]; [exists [], []; auto|].
  cbn [names_on_top rev]. destruct (is_name top) eqn:Htop.
  - intros (ups & names & -> & Hups & Hnames)%IH.
    exists ups, (names ++ [top]). rewrite <- app_assoc.
    split; [reflexivity|]. split; [exact Hups|]. apply forallb_snoc; assumption.
  - intros Hbelow. exists (rev below ++ [top]), []. rewrite app_nil_r.
    split; [reflexivity|]. split; [|reflexivity].
    apply forallb_snoc; [rewrite forallb_rev; exact Hbelow|].
    unfold no_name. rewrite Htop. reflexivity.
Qed.

(** The segments of a normalised path: what is no name, then names,
    then nothing or the empty segment of a [/] at the end. *)
Lemma normalize_split q :
  q <> ""%string ->
  normalize q <> ""%string /\
  exists ups names post,
    split_slash (normalize q) = ups ++ names ++ post /\
    forallb no_name ups = true /\ forallb is_name names = true /\
    (post = [] \/ post = [""%string]).
Proof.
  intros Hq. apply String.eqb_neq in Hq. unfold normalize. rewrite Hq.
  unfold normalizeString, walk_segments.
  pose proof (walk_keeps_plain (negb (isAbsolute q)) (split_slash q) []
                (split_slash_segments q) eq_refl) as Hplain.
  pose proof (walk_names_on_top (negb (isAbsolute q)) (split_slash q) [] eq_refl)
    as Hshape.
  apply names_on_top_shape in Hshape as (ups & names & Hrev & Hups & Hnames).
  rewrite <- forallb_rev in Hplain.
  destruct (rev (fold_left (walk_step (negb (isAbsolute q))) (split_slash q) []))
    as [|seg segs] eqn:Hsegs.
  - cbn [String.concat String.eqb].
    destruct (isAbsolute q), (endsWithSlash q); (split; [discriminate|]).
    + exists [""%string; ""%string], [], []. auto.
    + exists [""%string; ""%string], [], []. auto.
    + exists ["."%string; ""%string], [], []. auto.
    + exists ["."%string], [], []. auto.
  - assert (forallb no_slash (seg :: segs) = true) as Hslash
      by (eapply forallb_impl; [apply plain_no_slash | exact Hplain]).
    pose proof Hplain as Hhead. cbn [forallb] in Hhead.
    apply andb_true_iff in Hhead as [Hseg _].
    destruct (concat_plain seg segs Hseg) as [_ Hne]. rewrite Hne.
    pose proof (split_slash_concat seg segs Hslash) as Hsplit.
    destruct (concat_head seg segs) as [tail Htail].
    destruct (plain_head seg Hseg) as (c & more & -> & _).
    destruct (isAbsolute q), (endsWithSlash q).
    + split; [discriminate|]. exists (""%string :: ups), names, [""%string].
      change ("/" ++ ?p)%string with (String slash p).
      rewrite split_slash_leading, split_slash_trailing, Hsplit, Hrev.
      cbn [app forallb]. rewrite <- app_assoc. auto.
    + split; [discriminate|]. exists (""%string :: ups), names, [].
      change ("/" ++ ?p)%string with (String slash p).
      rewrite split_slash_leading, Hsplit, Hrev, app_nil_r. cbn [app forallb]. auto.
    + split; [rewrite Htail, !append_cons; discriminate|].
      exists ups, names, [""%string].
      rewrite split_slash_trailing, Hsplit, Hrev, <- app_assoc. auto.
    + split; [rewrite Htail, append_cons; discriminate|].
      exists ups, names, []. rewrite Hsplit, Hrev, app_nil_r. auto.
Qed.

End PathFacts.

(** ** The walk of the file system *)
Module FsFacts.
Import Path PathFacts.

(** Names followed by names ask for nothing. *)
Lemma demands_names names : forall here,
  forallb is_name names = true -> Fs.demands here names = [].
Proof.
  induction names as [|seg rest IH]; intros here Hall; [reflexivity|].
  cbn [forallb] in Hall. apply andb_true_iff in Hall as [Hseg Hrest].
  cbn [Fs.demands]. rewrite IH by assumption. unfold Fs.goes_on.
  destruct rest as [|next more]; [rewrite andb_false_r; reflexivity|].
  cbn [forallb] in Hrest. apply andb_true_iff in Hrest as [Hnext _].
  rewrite Hnext, andb_false_r. reflexivity.
Qed.

(** What is no name asks for nothing either. *)
Lemma demands_ups ups rest : forall here,
  forallb no_name ups = true ->
  Fs.demands here (ups ++ rest)
  = Fs.demands (fold_left (walk_step false) ups here) rest.
Proof.
  induction ups as [|seg ups IH]; intros here Hall; [reflexivity|].
  cbn [forallb] in Hall. apply andb_true_iff in Hall as [Hseg Hups].
  cbn [app Fs.demands fold_left]. rewrite IH by assumption.
  unfold Fs.goes_on. unfold no_name in Hseg. apply negb_true_iff in Hseg.
  rewrite Hseg. reflexivity.
Qed.

(** A [/] after the last name asks for a directory at the place the
    names lead to. *)
Lemma demands_names_slash names : forall here,
  forallb is_name names = true -> names <> [] ->
  Fs.demands here (names ++ [""%string])
  = [fold_left (walk_step false) names here].
Proof.
  induction names as [|seg rest IH]; intros here Hall Hne; [contradiction|].
  cbn [forallb] in Hall. apply andb_true_iff in Hall as [Hseg Hrest].
  destruct rest as [|next more].
  - cbn. unfold Fs.goes_on. rewrite Hseg. reflexivity.
  - pose proof Hrest as Hnext. cbn [forallb] in Hnext.
    apply andb_true_iff in Hnext as [Hnext _].
    change ((seg :: next :: more) ++ [""%string])
      with (seg :: (next :: more) ++ [""%string]).
    remember (next :: more) as rest eqn:Hrest_eq.
    cbn [Fs.demands fold_left].
    rewrite IH by (assumption || (subst rest; discriminate)).
    unfold Fs.goes_on. subst rest. cbn [app]. rewrite Hnext, andb_false_r.
    reflexivity.
Qed.

(** A normalised path asks for a directory at its own place at most. *)
Lemma demands_normal here ups names post :
  forallb no_name ups = true -> forallb is_name names = true ->
  post = [] \/ post = [""%string] ->
  Fs.demands here (ups ++ names ++ post) = [] \/
  Fs.demands here (ups ++ names ++ post)
  = [fold_left (walk_step false) (ups ++ names ++ post) here].
Proof.
  intros Hups Hnames Hpost. rewrite demands_ups by assumption.
  rewrite !fold_left_app.
  destruct Hpost as [-> | ->].
  - left. rewrite app_nil_r. apply demands_names, Hnames.
  - destruct names as [|seg rest]; [left; reflexivity|].
    right. rewrite demands_names_slash by (assumption || discriminate).
    reflexivity.
Qed.

(** The place a path leads to is where the walk of its segments ends. *)
Lemma key_fold fs p :
  p <> ""%string ->
  Fs.key fs p
  = Fs.place (fold_left (walk_step false) (split_slash p) (Fs.start fs p)).
Proof.
  intros Hp. apply String.eqb_neq in Hp. unfold Fs.key, Fs.place, Fs.start.
  rewrite <- resolve_of_segments, segments_resolve_cases, Hp.
  destruct (isAbsolute p); reflexivity.
Qed.

Lemma refusal_normal fs p ups names post :
  p <> ""%string ->
  split_slash p = ups ++ names ++ post ->
  forallb no_name ups = true -> forallb is_name names = true ->
  post = [] \/ post = [""%string] ->
  Fs.stat fs p = Some Fs.Dir -> Fs.refusal fs p = None.
Proof.
  intros Hp Hsplit Hups Hnames Hpost Hdir. unfold Fs.refusal.
  pose proof (key_fold fs p Hp) as Hkey. apply String.eqb_neq in Hp. rewrite Hp.
  rewrite Hsplit in *.
  destruct (demands_normal (Fs.start fs p) ups names post Hups Hnames Hpost)
    as [-> | ->]; [reflexivity|].
  cbn [Fs.refused]. rewrite <- Hkey. unfold Fs.stat in Hdir. rewrite Hdir.
  reflexivity.
Qed.

(** A joined path that leads to a directory is not refused. *)
Lemma refusal_join_dir fs a b :
  Fs.stat fs (join a b) = Some Fs.Dir -> Fs.refusal fs (join a b) = None.
Proof.
  assert (forall q, q <> ""%string ->
            Fs.stat fs (normalize q) = Some Fs.Dir ->
            Fs.refusal fs (normalize q) = None) as Hnormal.
  { intros q Hq.
    destruct (normalize_split q Hq)
      as (Hne & ups & names & post & Hsplit & Hups & Hnames & Hpost).
    eapply refusal_normal; eassumption. }
  unfold join.
  destruct (String.eqb_spec a ""), (String.eqb_spec b ""); try (apply Hnormal; assumption).
  - intros _. reflexivity.
  - apply Hnormal. destruct a; [contradiction | discriminate].
Qed.

(** A name joined to a directory is never refused. *)
Lemma refusal_join_file fs sd name :
  clean name = true -> Fs.refusal fs (join sd name) = None.
Proof.
  intros Hname. pose proof (clean_nonempty name Hname) as Hne.
  pose proof (clean_plain name Hname) as Hplain.
  pose proof (plain_no_slash name Hplain) as Hns.
  rewrite join_file by assumption. unfold Fs.refusal.
  destruct (String.eqb sd "") eqn:Hsd.
  - rewrite Hne, split_slash_no_slash, demands_names by assumption || (cbn; rewrite clean_is_name by assumption; reflexivity). reflexivity.
  - assert (forallb plain (rev (dir_stack sd) ++ [name]) = true) as Hall
      by (apply forallb_snoc; [rewrite forallb_rev; apply dir_stack_plain | exact Hplain]).
    assert (forallb no_slash (rev (dir_stack sd) ++ [name]) = true) as Hslash
      by (eapply forallb_impl; [apply plain_no_slash | exact Hall]).
    destruct (concat_plain_snoc _ _ Hall) as [_ Hnonempty].
    destruct (names_on_top_shape (dir_stack sd))
      as (ups & names & Hrev & Hups & Hnames);
      [apply walk_names_on_top; reflexivity|].
    assert (forall here,
              Fs.demands here (rev (dir_stack sd) ++ [name]) = []) as Hnone.
    { intros here. rewrite Hrev, <- app_assoc, demands_ups by assumption.
      apply demands_names, forallb_snoc; [exact Hnames | apply clean_is_name, Hname]. }
    destruct (isAbsolute sd).
    + change ("/" +:+ ?p) with (String slash p). cbn [String.eqb].
      rewrite split_slash_leading, split_slash_concat_snoc by assumption.
      cbn [Fs.demands]. rewrite Hnone. reflexivity.
    + change (""%string +:+ ?p) with p.
      rewrite Hnonempty, split_slash_concat_snoc, Hnone by assumption. reflexivity.
Qed.

(** The calls on a name joined to a directory, by the node at its place. *)
Lemma existsSync_join_file fs sd name :
  clean name = true ->
  Fs.existsSync fs (join sd name)
  = match Fs.stat fs (join sd name) with Some _ => true | None => false end.
Proof. intros Hname. unfold Fs.existsSync. rewrite refusal_join_file; auto. Qed.

Lemma read_join_file fs sd name :
  clean name = true ->
  Fs.read fs (join sd name)
  = match Fs.stat fs (join sd name) with
    | Some (Fs.File content) => Some content
    | _ => None
    end.
Proof. intros Hname. unfold Fs.read. rewrite refusal_join_file; auto. Qed.

Lemma writeFileSync_join_file fs sd name data :
  clean name = true ->
  Fs.writeFileSync fs (join sd name) data
  = match Fs.stat fs sd with
    | Some Fs.Dir =>
        match Fs.stat fs (join sd name) with
        | Some Fs.Dir =>
            Throw (Fs.sys_error "EISDIR: illegal operation on a directory" "open"
                     (join sd name))
        | _ => Return (Fs.Make (Fs.cwd fs)
                         (<[Fs.key fs (join sd name) := Fs.File data]> (Fs.nodes fs)))
        end
    | Some (Fs.File _) =>
        Throw (Fs.sys_error "ENOTDIR: not a directory" "open" (join sd name))
    | None =>
        Throw (Fs.sys_error "ENOENT: no such file or directory" "open" (join sd name))
    end.
Proof.
  intros Hname. unfold Fs.writeFileSync. rewrite refusal_join_file by assumption.
  unfold Fs.stat, Fs.key at 1. rewrite dirname_join_file by assumption. reflexivity.
Qed.

Lemma unlinkSync_join_file fs sd name :
  clean name = true ->
  Fs.unlinkSync fs (join sd name)
  = match Fs.stat fs (join sd name) with
    | Some (Fs.File _) =>
        Return (Fs.Make (Fs.cwd fs) (delete (Fs.key fs (join sd name)) (Fs.nodes fs)))
    | Some Fs.Dir =>
        Throw (Fs.sys_error "EISDIR: illegal operation on a directory" "unlink"
                 (join sd name))
    | None =>
        Throw (Fs.sys_error "ENOENT: no such file or directory" "unlink" (join sd name))
    end.
Proof. intros Hname. unfold Fs.unlinkSync. rewrite refusal_join_file; auto. Qed.

End FsFacts.

(** ** [VirtualPrinter] *)
Module VirtualPrinterFacts.
Import VirtualPrinter PathFacts.

Lemma digit_char_no_slash n : Ascii.eqb (Date.digit_char n) Path.slash = false.
Proof.
  unfold Date.digit_char. pose proof (Nat.mod_upper_bound n 10) as Hlt.
  destruct (n mod 10)%nat as [|k]; [reflexivity|].
  do 9 (destruct k as [|k]; [reflexivity|]). lia.
Qed.

Lemma padded_no_slash width : forall n tail,
  no_slash (Date.padded width n tail) = no_slash tail.
Proof.
  induction width as [|w IH]; intros n tail; [reflexivity|].
  cbn [Date.padded]. rewrite IH, no_slash_cons, digit_char_no_slash. reflexivity.
Qed.

Lemma year_string_no_slash y : no_slash (Date.year_string y) = true.
Proof.
  unfold Date.year_string. destruct ((0 <=? y) && (y <=? 9999)).
  - apply padded_no_slash.
  - rewrite no_slash_app, padded_no_slash. destruct (y <? 0); reflexivity.
Qed.

Lemma toISOString_no_slash d : no_slash (Date.toISOString d) = true.
Proof.
  unfold Date.toISOString.
  repeat (rewrite no_slash_app; apply andb_true_iff; split);
    try reflexivity; try apply padded_no_slash; apply year_string_no_slash.
Qed.

Lemma replace_colon_dot_no_slash s :
  no_slash (replace_colon_dot s) = no_slash s.
Proof.
  induction s as [|c s IH]; [reflexivity|].
  cbn [replace_colon_dot]. rewrite !no_slash_cons, IH. f_equal.
  destruct (Ascii.eqb c ":") eqn:Hcolon; [apply Ascii.eqb_eq in Hcolon; subst; reflexivity|].
  destruct (Ascii.eqb c ".") eqn:Hdot; [apply Ascii.eqb_eq in Hdot; subst; reflexivity|].
  reflexivity.
Qed.

(** No [:] and no [.] is left in a replaced text. *)
Lemma replace_colon_dot_spec s c :
  In c (list_ascii_of_string (replace_colon_dot s)) ->
  c <> ":"%char /\ c <> "."%char.
Proof.
  induction s as [|a s IH]; [intros []|].
  cbn [replace_colon_dot list_ascii_of_string In]. intros [<-|Hin]; [|auto].
  destruct (Ascii.eqb a ":") eqn:Hcolon; [split; discriminate|].
  destruct (Ascii.eqb a ".") eqn:Hdot; [split; discriminate|].
  apply Ascii.eqb_neq in Hcolon, Hdot. cbn. auto.
Qed.

Lemma extension_cases this :
  In (extension this) ["png"; "pdf"; "json"]%string /\
  (outputFormat this = "png"%string -> extension this = "png"%string) /\
  (outputFormat this = "pdf"%string -> extension this = "pdf"%string) /\
  (outputFormat this = "json"%string -> extension this = "json"%string).
Proof.
  unfold extension. repeat split; try (intros ->; reflexivity).
  destruct (String.eqb (outputFormat this) "pdf"); [cbn; auto|].
  destruct (String.eqb (outputFormat this) "json"); cbn; auto.
Qed.

(** A generated name is one path segment. *)
Lemma generateFilename_clean this now : clean (generateFilename this now) = true.
Proof.
  assert (no_slash (generateFilename this now) = true) as Hns.
  { unfold generateFilename.
    change (no_slash ("label_" +:+ replace_colon_dot (Date.toISOString now)
                      +:+ "." +:+ extension this) = true).
    rewrite !no_slash_app, replace_colon_dot_no_slash, toISOString_no_slash.
    destruct (extension_cases this) as [[<-|[<-|[<-|[]]]] _]; reflexivity. }
  unfold clean, plain. rewrite Hns. reflexivity.
Qed.

(** A generated name has no character [setHeader] refuses. *)
Lemma header_value_cons c s :
  Server.header_value (String c s) = Server.header_char c && Server.header_value s.
Proof. reflexivity. Qed.

Lemma header_value_app a b :
  Server.header_value (a +:+ b) = Server.header_value a && Server.header_value b.
Proof.
  induction a as [|c a IH]; [reflexivity|].
  rewrite append_cons, !header_value_cons, IH. apply andb_assoc.
Qed.

Lemma digit_char_header n : Server.header_char (Date.digit_char n) = true.
Proof.
  unfold Date.digit_char. pose proof (Nat.mod_upper_bound n 10) as Hlt.
  destruct (n mod 10)%nat as [|k]; [reflexivity|].
  do 9 (destruct k as [|k]; [reflexivity|]). lia.
Qed.

Lemma padded_header width : forall n tail,
  Server.header_value (Date.padded width n tail) = Server.header_value tail.
Proof.
  induction width as [|w IH]; intros n tail; [reflexivity|].
  cbn [Date.padded]. rewrite IH, header_value_cons, digit_char_header. reflexivity.
Qed.

Lemma year_string_header y : Server.header_value (Date.year_string y) = true.
Proof.
  unfold Date.year_string. destruct ((0 <=? y) && (y <=? 9999)).
  - apply padded_header.
  - rewrite header_value_app, padded_header. destruct (y <? 0); reflexivity.
Qed.

Lemma toISOString_header d : Server.header_value (Date.toISOString d) = true.
Proof.
  unfold Date.toISOString.
  repeat (rewrite header_value_app; apply andb_true_iff; split);
    try reflexivity; try apply padded_header; apply year_string_header.
Qed.

Lemma replace_colon_dot_header s :
  Server.header_value (replace_colon_dot s) = Server.header_value s.
Proof.
  induction s as [|c s IH]; [reflexivity|].
  cbn [replace_colon_dot]. rewrite !header_value_cons, IH. f_equal.
  destruct (Ascii.eqb c ":") eqn:Hcolon; [apply Ascii.eqb_eq in Hcolon; subst; reflexivity|].
  destruct (Ascii.eqb c ".") eqn:Hdot; [apply Ascii.eqb_eq in Hdot; subst; reflexivity|].
  reflexivity.
Qed.

Lemma generateFilename_header this now :
  Server.header_value
    ("inline; filename=" +:+ dquote +:+ generateFilename this now +:+ dquote) = true.
Proof.
  unfold generateFilename.
  change (Server.header_value
            ("inline; filename=" +:+ dquote +:+
             ("label_" +:+ replace_colon_dot (Date.toISOString now)
              +:+ "." +:+ extension this) +:+ dquote) = true).
  rewrite !header_value_app, replace_colon_dot_header, toISOString_header.
  destruct (extension_cases this) as [[<-|[<-|[<-|[]]]] _]; reflexivity.
Qed.

End VirtualPrinterFacts.

Section VirtualClaims.
Import VirtualPrinter PathFacts FsFacts VirtualPrinterFacts.

Variable utf8_decode : bytes -> string.
Variable utf8_encode : string -> bytes.

(** C4: whenever the render service answers with a status other than
    200, [print] rejects with an error whose message carries the status
    code and the text of the response body, and the file system is left
    as it was. *)
Theorem virtual_print_render_error this zplData res name_clock saved_clock fs :
  statusCode res <> 200 ->
  print utf8_decode utf8_encode this zplData (ResponseEnd res)
        name_clock saved_clock fs
  = (Rejected (Error ("Labelary API error (" +:+ pretty (statusCode res) +:+ "): "
                      +:+ utf8_decode (List.concat (chunks res)))), fs).
Proof.
  intros Hstatus. unfold print.
  destruct (Z.eqb_spec (statusCode res) 200); [contradiction | reflexivity].
Qed.

(** C5, as it stands, fails. A response with status 201, a success
    status, is turned down as an error of the render service and nothing
    is written. And a response with status 200 is not stored when the save
    path is a file: the promise is rejected with the error of the write. *)
Lemma virtual_print_stores_on_200_only :
  print Sample.decode Sample.encode Sample.printer Sample.zpl
    (ResponseEnd (Response 201 (Some "1"%string) [[x4f; x4b]]))
    (Date.Make 2024 1 15 10 30 45 123) (Date.Make 2024 1 15 10 30 45 124)
    Sample.disk
  = (Rejected (Error "Labelary API error (201): OK"), Sample.disk) /\
  print Sample.decode Sample.encode
    (with_defaults (Options None None None None None None (Some "/etc/passwd"%string)))
    Sample.zpl
    (ResponseEnd (Response 200 (Some "1"%string) [[x4f; x4b]]))
    (Date.Make 2024 1 15 10 30 45 123) (Date.Make 2024 1 15 10 30 45 124)
    Sample.disk
  = (Rejected
       (Error ("Failed to save file: ENOTDIR: not a directory, open "
               +:+ "'/etc/passwd/label_2024-01-15T10-30-45-123Z.png'")),
     Sample.disk).
Proof. split; vm_compute; reflexivity. Qed.

(** C5, amended: on a response with status 200 and body [B], with the
    save directory in place and no directory under the generated name,
    [print] stores a file directly below the save directory and touches
    nothing else. The file holds [B], passed through the text decoding
    when the output format is [json] and as it is otherwise. Its name is
    [label_], the ISO timestamp with [:] and [.] replaced by [-], a dot,
    and the extension [png], [pdf] or [json] that goes with the output
    format. The promise is fulfilled with the label count parsed from the
    count header (from ["1"] without one), the output format, the number
    of bytes of [B], the name, the joined path and the save time. *)
Theorem virtual_print_saves_label this zplData res name_clock saved_clock fs :
  statusCode res = 200 ->
  Fs.stat fs (saveDirectory this) = Some Fs.Dir ->
  Fs.stat fs (Path.join (saveDirectory this) (generateFilename this name_clock))
  <> Some Fs.Dir ->
  let body := List.concat (chunks res) in
  let stamp := replace_colon_dot (Date.toISOString name_clock) in
  let name := generateFilename this name_clock in
  let path := Path.join (saveDirectory this) name in
  exists fs' ext,
    print utf8_decode utf8_encode this zplData (ResponseEnd res)
          name_clock saved_clock fs
    = (Fulfilled {|
         success := true;
         result_message := "Label processed and saved successfully";
         labelCount := ParseInt.parseInt (or_default (x_total_count res) "1");
         result_outputFormat := outputFormat this;
         dataSize := length body;
         filename := name;
         filepath := path;
         savedAt := Date.toISOString saved_clock |}, fs') /\
    Fs.read fs' path
    = Some (if String.eqb (outputFormat this) "json"
            then utf8_encode (utf8_decode body) else body) /\
    Path.dirname (Fs.key fs' path) = Fs.key fs (saveDirectory this) /\
    (forall k, k <> Fs.key fs path -> Fs.nodes fs' !! k = Fs.nodes fs !! k) /\
    (x_total_count res = None ->
     ParseInt.parseInt (or_default (x_total_count res) "1") = Num 1) /\
    name = "label_" +:+ stamp +:+ "." +:+ ext /\
    (forall c, In c (list_ascii_of_string stamp) -> c <> ":"%char /\ c <> "."%char) /\
    In ext ["png"; "pdf"; "json"]%string /\
    (outputFormat this = "png"%string -> ext = "png"%string) /\
    (outputFormat this = "pdf"%string -> ext = "pdf"%string) /\
    (outputFormat this = "json"%string -> ext = "json"%string).
Proof.
  intros Hstatus Hdir Htarget body stamp name path.
  pose proof (generateFilename_clean this name_clock) as Hclean.
  set (k := Fs.key fs path).
  set (content := saved_content utf8_decode utf8_encode this body).
  exists (Fs.Make (Fs.cwd fs) (<[k := Fs.File content]> (Fs.nodes fs))), (extension this).
  assert (String.eqb k "/" = false) as Hroot
    by (apply resolve_join_file_not_root, Hclean).
  split; [|split; [|split; [|split; [|split; [|split; [|split]]]]]].
  - unfold print. rewrite Hstatus, Z.eqb_refl.
    rewrite writeFileSync_join_file, Hdir by exact Hclean.
    fold name path k body content in Htarget |- *.
    destruct (Fs.stat fs path) as [[|old]|]; [contradiction | reflexivity | reflexivity].
  - unfold path, name. rewrite read_join_file by exact Hclean.
    fold name path. unfold Fs.stat, Fs.lookup_key.
    change (Fs.key (Fs.Make (Fs.cwd fs) _) path) with k. cbn [Fs.nodes].
    rewrite Hroot, lookup_insert_eq. reflexivity.
  - apply dirname_join_file, Hclean.
  - intros k' Hk'. cbn [Fs.nodes]. apply lookup_insert_ne. congruence.
  - intros Hnone. rewrite Hnone. reflexivity.
  - reflexivity.
  - apply replace_colon_dot_spec.
  - apply extension_cases.
Qed.

End VirtualClaims.

(** ** [PrinterFactory] *)
Section FactoryClaims.
Import PrinterFactory.




End FactoryClaims.

(** ** The artifact routes *)
Section RouteClaims.
Import Server.

(** The guard of [serveLabel] is the only way to its file-system calls. *)
Lemma serveLabel_calls_behind_guard cfg fs filename saveDirectory :
  configured_saveDirectory cfg = Return saveDirectory ->
  snd (serveLabel cfg fs filename) <> [] ->
  Path.startsWith (Path.resolve (Fs.cwd fs) (Path.join saveDirectory filename))
                  (Path.resolve (Fs.cwd fs) saveDirectory) = true.
Proof.
  intros Hdir. unfold serveLabel. rewrite Hdir.
  destruct (negb (String.eqb (PrinterFactory.type cfg) "virtual")); [intros []; reflexivity|].
  destruct (Path.startsWith _ _); [reflexivity | intros []; reflexivity].
Qed.

(** C2 at work: the guard compares texts, not path segments. A name
    that leads into a directory next to the save directory, whose path
    begins with the same characters, passes it: the file is looked up
    and read although its resolved path is outside the save directory.
    The name [../../etc/passwd] is turned away before any file-system
    call. *)
Theorem serveLabel_guard_compares_text :
  inside_directory
    (Path.resolve "/app" "./generated_labels")
    (Path.resolve "/app"
       (Path.join "./generated_labels" "../generated_labels_old/a.png")) = false /\
  serveLabel Sample.virtual_config Sample.disk "../generated_labels_old/a.png"
  = (FileStream "image/png"
       ("inline; filename=" +:+ dquote +:+ "../generated_labels_old/a.png" +:+ dquote)
       (Some [x41]),
     [ExistsSync "generated_labels_old/a.png";
      CreateReadStream "generated_labels_old/a.png"]) /\
  serveLabel Sample.virtual_config Sample.disk "../../etc/passwd"
  = (Json 403 (Some "Access denied: Invalid file path"), []).
Proof. vm_compute. repeat split. Qed.

(** [deleteSavedLabel] removes whatever file the joined path reads. *)
Lemma deleteSavedLabel_removes this filename fs content :
  Fs.read fs (Path.join (VirtualPrinter.saveDirectory this) filename)
  = Some content ->
  VirtualPrinter.deleteSavedLabel this filename fs
  = Return (Fs.Make (Fs.cwd fs)
              (delete (Fs.key fs (Path.join (VirtualPrinter.saveDirectory this) filename))
                      (Fs.nodes fs))).
Proof.
  unfold VirtualPrinter.deleteSavedLabel, Fs.read, Fs.existsSync, Fs.unlinkSync.
  destruct (Fs.refusal fs _); [discriminate|]. unfold Fs.stat.
  destruct (Fs.lookup_key fs _) as [[|file]|]; try discriminate. reflexivity.
Qed.

(** C10: [deleteSavedLabel] makes no containment check. The name
    [../.env] has a [..] segment and resolves to a file outside the save
    directory; the printer deletes that file, and so does the DELETE
    route, while the GET route turns the same name away. *)
Theorem deleteSavedLabel_leaves_save_directory :
  exists filename,
    In ".."%string (Path.split_slash filename) /\
    inside_directory
      (Fs.key Sample.disk (VirtualPrinter.saveDirectory Sample.printer))
      (Fs.key Sample.disk
         (Path.join (VirtualPrinter.saveDirectory Sample.printer) filename)) = false /\
    Fs.read Sample.disk
      (Path.join (VirtualPrinter.saveDirectory Sample.printer) filename)
    = Some [x4b; x3d; x31] /\
    VirtualPrinter.deleteSavedLabel Sample.printer filename Sample.disk
    = Return Sample.disk_without_env /\
    Fs.existsSync Sample.disk_without_env
      (Path.join (VirtualPrinter.saveDirectory Sample.printer) filename) = false /\
    deleteLabel Sample.virtual_config Sample.disk filename
    = (Json 200 None, Sample.disk_without_env) /\
    serveLabel Sample.virtual_config Sample.disk filename
    = (Json 403 (Some "Access denied: Invalid file path"), []).
Proof.
  exists "../.env"%string. split; [left; reflexivity|].
  split; [reflexivity|]. split; [reflexivity|].
  split; [rewrite (deleteSavedLabel_removes _ _ _ [x4b; x3d; x31]) by reflexivity;
          reflexivity|].
  split; [reflexivity|]. split; vm_compute; reflexivity.
Qed.

End RouteClaims.

(** ** Worked cases *)

(** C1 at work: product [0x0120] is configured and only a device of
    product [0x0099] is attached. The comments of [findPrinter] ask for
    the exact pair when a product identifier is given, and no device has
    it; yet the [if] block falls through to the loop over the vendor's
    devices, discovery takes the attached one, and [print] opens it,
    claims it and sends the payload instead of failing with the
    not-found error. *)
Lemma usb_print_takes_another_product :
  let this := USBPrinter.constructor (Some 0x0a5f) (Some 0x0120) in
  let devices := [Sample.other_product] in
  let r := USBPrinter.print Sample.encode this (VString Sample.zpl) devices
             (Usb.Callback None) in
  USBPrinter.productId_given this = Some 0x0120 /\
  Usb.findByIds devices (USBPrinter.vendorId this) 0x0120 = None /\
  USBPrinter.outcome r = Fulfilled "Print job sent successfully via USB"%string /\
  USBPrinter.calls r
  = [Usb.Open; Usb.Claim;
     Usb.Transfer (Usb.Endpoint Usb.DirOut 1) (Sample.encode Sample.zpl);
     Usb.CloseDevice] /\
  USBPrinter.outcome r <> Rejected (Error "Zebra printer not found via USB").
Proof. cbv zeta. repeat split. discriminate. Qed.

Lemma usb_discovery_falls_back_to_vendor_witness :
  let this := USBPrinter.constructor (Some 0x0a5f) (Some 0x0120) in
  USBPrinter.device (snd (USBPrinter.findPrinter this [Sample.other_product]))
  = Some Sample.other_product /\
  USBPrinter.outcome
    (USBPrinter.print Sample.encode this (VString Sample.zpl) [] Usb.NoCallback)
  = Rejected (Error "Zebra printer not found via USB") /\
  USBPrinter.calls
    (USBPrinter.print Sample.encode this (VString Sample.zpl) [] Usb.NoCallback) = [].
Proof.
  cbv zeta. split.
  - destruct (usb_discovery_falls_back_to_vendor Sample.encode
                (USBPrinter.constructor (Some 0x0a5f) (Some 0x0120))
                (VString Sample.zpl) [Sample.other_product] Usb.NoCallback)
      as (_ & _ & Hfallback & _).
    rewrite (Hfallback 0x0120); reflexivity.
  - apply (usb_discovery_falls_back_to_vendor Sample.encode
             (USBPrinter.constructor (Some 0x0a5f) (Some 0x0120))
             (VString Sample.zpl) [] Usb.NoCallback).
    reflexivity.
Defined.

Lemma usb_transfer_closes_device_witness :
  let r := USBPrinter.print Sample.encode
             (USBPrinter.constructor (Some 0x0a5f) None) (VString Sample.zpl)
             [Sample.other_product] (Usb.Callback (Some (Error "LIBUSB_TRANSFER_STALL"))) in
  (exists log ep,
      USBPrinter.calls r
      = log ++ [Usb.Transfer ep (USBPrinter.to_buffer Sample.encode (VString Sample.zpl));
                Usb.CloseDevice]) /\
  USBPrinter.outcome r = Rejected (Error "LIBUSB_TRANSFER_STALL").
Proof.
  apply (usb_transfer_closes_device Sample.encode
           (USBPrinter.constructor (Some 0x0a5f) None) (VString Sample.zpl)
           [Sample.other_product] (Some (Error "LIBUSB_TRANSFER_STALL"))).
  reflexivity.
Defined.

Lemma virtual_print_render_error_witness :
  VirtualPrinter.print Sample.decode Sample.encode Sample.printer Sample.zpl
    (VirtualPrinter.ResponseEnd
       (VirtualPrinter.Response 404 None
          [[x6e; x6f; x74]; [x20; x66; x6f; x75; x6e; x64]]))
    (Date.Make 2024 1 15 10 30 45 123) (Date.Make 2024 1 15 10 30 45 124)
    Sample.disk
  = (Rejected (Error "Labelary API error (404): not found"), Sample.disk).
Proof.
  rewrite (virtual_print_render_error Sample.decode Sample.encode) by discriminate.
  reflexivity.
Defined.

Lemma virtual_print_saves_label_witness :
  exists fs',
    VirtualPrinter.print Sample.decode Sample.encode Sample.printer Sample.zpl
      (VirtualPrinter.ResponseEnd
         (VirtualPrinter.Response 200 (Some "2"%string) [[x89; x50]; [x4e; x47]]))
      (Date.Make 2024 1 15 10 30 45 123) (Date.Make 2024 1 15 10 30 45 124)
      Sample.disk
    = (Fulfilled {|
         VirtualPrinter.success := true;
         VirtualPrinter.result_message := "Label processed and saved successfully";
         VirtualPrinter.labelCount := Num 2;
         VirtualPrinter.result_outputFormat := "png";
         VirtualPrinter.dataSize := 4;
         VirtualPrinter.filename := "label_2024-01-15T10-30-45-123Z.png";
         VirtualPrinter.filepath :=
           "generated_labels/label_2024-01-15T10-30-45-123Z.png";
         VirtualPrinter.savedAt := "2024-01-15T10:30:45.124Z" |}, fs') /\
    Fs.read fs' "generated_labels/label_2024-01-15T10-30-45-123Z.png"
    = Some [x89; x50; x4e; x47].
Proof.
  destruct (virtual_print_saves_label Sample.decode Sample.encode Sample.printer
              Sample.zpl
              (VirtualPrinter.Response 200 (Some "2"%string) [[x89; x50]; [x4e; x47]])
              (Date.Make 2024 1 15 10 30 45 123) (Date.Make 2024 1 15 10 30 45 124)
              Sample.disk)
    as (fs' & ext & Hprint & Hread & _).
  - reflexivity.
  - reflexivity.
  - vm_compute. discriminate.
  - exists fs'. split; [exact Hprint | exact Hread].
Defined.

(** ** Checks of the runtime model on known values *)

Example join_examples :
  Path.join "./generated_labels" "a.png" = "generated_labels/a.png"%string /\
  Path.join "./generated_labels" "../../etc/passwd" = "../etc/passwd"%string /\
  Path.join "/srv/labels/" "x/../y.pdf" = "/srv/labels/y.pdf"%string /\
  Path.resolve "/app" "../etc/passwd" = "/etc/passwd"%string /\
  Path.resolve "/app" "./generated_labels" = "/app/generated_labels"%string /\
  Path.resolve "/" "" = "/"%string /\
  Path.dirname "/app/generated_labels/a.png" = "/app/generated_labels"%string /\
  Path.extname "label.tar.PNG" = ".PNG"%string /\
  Path.extname "../dir.d/.." = ""%string /\
  Path.extname ".hidden" = ""%string.
Proof. repeat split; reflexivity. Qed.

Example parseInt_examples :
  ParseInt.parseInt "1" = Num 1 /\ ParseInt.parseInt " 42 labels" = Num 42 /\
  ParseInt.parseInt "0x1F" = Num 31 /\ ParseInt.parseInt "-7" = Num (-7) /\
  ParseInt.parseInt "many" = NaN /\ ParseInt.parseInt "-0" = NegZero /\
  ParseInt.parseInt (String (ascii_of_nat 194) (String (ascii_of_nat 160) "12"))
  = Num 12 /\
  ParseInt.parseInt "9007199254740993" = Num 9007199254740992 /\
  ParseInt.parseInt "9007199254740995" = Num 9007199254740996 /\
  ParseInt.parseInt ("1" +:+ string_of_list_ascii (repeat "0"%char 308))
  = Num (10 ^ 308 - 10 ^ 308 mod 2 ^ 971 + 2 ^ 971) /\
  ParseInt.parseInt ("-1" +:+ string_of_list_ascii (repeat "0"%char 309))
  = Infinity true.
Proof. repeat split; vm_compute; reflexivity. Qed.

Example toISOString_example :
  Date.toISOString (Date.Make 2024 1 15 10 30 45 123)
  = "2024-01-15T10:30:45.123Z"%string /\
  replace_colon_dot (Date.toISOString (Date.Make 2024 1 15 10 30 45 123))
  = "2024-01-15T10-30-45-123Z"%string.
Proof. split; reflexivity. Qed.

Example toString_ascii_example :
  toString_ascii [x4f; x4b; xc1] = "OKA"%string.
Proof. reflexivity. Qed.

Example mkdir_example :
  VirtualPrinter.constructor
    (VirtualPrinter.Options None None None None None (Some "pdf"%string)
       (Some "out/labels"%string))
    (Fs.Make "/app" (<["/app"%string := Fs.Dir]> ∅))
  = Return
      (VirtualPrinter.with_defaults
         (VirtualPrinter.Options None None None None None (Some "pdf"%string)
            (Some "out/labels"%string)),
       Fs.Make "/app"
         (<["/app/out/labels"%string := Fs.Dir]>
            (<["/app/out"%string := Fs.Dir]>
               (<["/app"%string := Fs.Dir]> ∅)))) /\
  Fs.mkdirSync_recursive (Fs.Make "/app" (<["/app"%string := Fs.Dir]> ∅))
    "tmp/../out/"
  = Return
      (Fs.Make "/app"
         (<["/app/out"%string := Fs.Dir]>
            (<["/app/tmp"%string := Fs.Dir]>
               (<["/app"%string := Fs.Dir]> ∅)))).
Proof. vm_compute. split; reflexivity. Qed.

Example mkdir_stops_example :
  PrinterFactory.createPrinter
    (PrinterFactory.Config "virtual" None None None None
       (Some (VirtualPrinter.Options None None None None None None
                (Some "tmp/../.env/labels"%string))))
    Sample.disk
  = (Throw (Error "ENOTDIR: not a directory, mkdir 'tmp/../.env/labels'"),
     Fs.Make "/app" (<["/app/tmp"%string := Fs.Dir]> (Fs.nodes Sample.disk))).
Proof. vm_compute. reflexivity. Qed.

Example trailing_slash_example :
  Fs.existsSync Sample.disk "generated_labels/old.png" = true /\
  Fs.existsSync Sample.disk "generated_labels/old.png/" = false /\
  Fs.existsSync Sample.disk "generated_labels/" = true /\
  Fs.existsSync Sample.disk "/etc/passwd/../passwd" = false /\
  Fs.existsSync Sample.disk "missing/../generated_labels" = false /\
  Fs.unlinkSync Sample.disk "generated_labels/old.png/"
  = Throw (Error "ENOTDIR: not a directory, unlink 'generated_labels/old.png/'").
Proof. vm_compute. repeat split. Qed.

(** * Further properties of the code *)

(** ** The guard of the GET route, seen from inside the save directory *)
Module GuardFacts.
Import Path PathFacts.

Lemma prefix_append a b : String.prefix a (a +:+ b) = true.
Proof.
  induction a as [|c a IH]; [destruct b; reflexivity|].
  rewrite append_cons. cbn [String.prefix].
  destruct (ascii_dec c c); [exact IH | congruence].
Qed.

Lemma append_assoc a b c : (a +:+ b) +:+ c = a +:+ (b +:+ c).
Proof.
  induction a as [|x a IH]; [reflexivity|]. rewrite !append_cons, IH. reflexivity.
Qed.

Lemma concat_app_tail segs more :
  exists tail, String.concat "/" (segs ++ more) = String.concat "/" segs +:+ tail.
Proof.
  induction segs as [|seg segs IH]; [eexists; reflexivity|].
  destruct segs as [|next segs].
  - destruct more as [|m more].
    + exists ""%string. cbn [app String.concat].
      clear IH. induction seg as [|c seg IH]; [reflexivity|].
      rewrite append_cons, <- IH. reflexivity.
    + eexists. reflexivity.
  - destruct IH as [tail IH]. exists tail.
    change (String.concat "/" ((seg :: next :: segs) ++ more))
      with (seg +:+ "/" +:+ String.concat "/" ((next :: segs) ++ more)).
    rewrite IH.
    change (String.concat "/" (seg :: next :: segs))
      with (seg +:+ "/" +:+ String.concat "/" (next :: segs)).
    rewrite !append_assoc. reflexivity.
Qed.

Lemma segments_below_app dir p :
  segments_below dir p = true -> exists more, p = dir ++ more.
Proof.
  revert p. induction dir as [|d dir IH]; intros p; [eauto|].
  destruct p as [|q p]; [discriminate|]. cbn [segments_below].
  intros [Hd Hrest]%andb_true_iff. apply String.eqb_eq in Hd. subst q.
  destruct (IH p Hrest) as [more ->]. eauto.
Qed.

Lemma startsWith_of_segments segs more :
  startsWith (of_segments (segs ++ more)) (of_segments segs) = true.
Proof.
  unfold startsWith, of_segments.
  destruct (concat_app_tail segs more) as [tail ->].
  change ("/" ++ String.concat "/" segs +:+ tail)%string
    with (("/" +:+ String.concat "/" segs) +:+ tail).
  apply prefix_append.
Qed.

(** A resolved path inside a resolved directory begins with its text. *)
Lemma inside_startsWith cwd dir p :
  inside_directory (resolve cwd dir) (resolve cwd p) = true ->
  startsWith (resolve cwd p) (resolve cwd dir) = true.
Proof.
  unfold inside_directory. intros [more Hmore]%segments_below_app.
  rewrite <- (resolve_of_segments cwd p), <- (resolve_of_segments cwd dir), Hmore.
  apply startsWith_of_segments.
Qed.

Lemma last_dot_suffix_app a b ext :
  last_dot_suffix b = Some ext -> last_dot_suffix (a +:+ b) = Some ext.
Proof.
  intros Hb. induction a as [|c a IH]; [exact Hb|].
  rewrite append_cons. cbn [last_dot_suffix]. rewrite IH. reflexivity.
Qed.

Lemma last_component_segment name :
  no_slash name = true -> name <> ""%string -> last_component name = name.
Proof.
  intros Hns Hne. unfold last_component. rewrite split_slash_no_slash by assumption.
  cbn [List.filter]. apply String.eqb_neq in Hne. rewrite Hne. reflexivity.
Qed.

End GuardFacts.

Section GuardProperties.
Import Server PrinterFactory GuardFacts PathFacts VirtualPrinterFacts.

(** What the GET route does once the guard has been passed. *)
Lemma serveLabel_past_guard cfg fs filename saveDirectory :
  type cfg = "virtual"%string ->
  configured_saveDirectory cfg = Return saveDirectory ->
  Path.startsWith (Path.resolve (Fs.cwd fs) (Path.join saveDirectory filename))
                  (Path.resolve (Fs.cwd fs) saveDirectory) = true ->
  serveLabel cfg fs filename
  = let filepath := Path.join saveDirectory filename in
    let disposition := "inline; filename=" +:+ dquote +:+ filename +:+ dquote in
    if Fs.existsSync fs filepath then
      if header_value disposition then
        (FileStream (contentTypeOf (toLowerCase (Path.extname filename)))
           disposition (Fs.read fs filepath),
         [ExistsSync filepath; CreateReadStream filepath])
      else
        (Json 500 (Some (message (invalid_header "Content-Disposition"))),
         [ExistsSync filepath])
    else (Json 404 (Some "File not found"%string), [ExistsSync filepath]).
Proof.
  intros Htype Hdir Hguard. unfold serveLabel. rewrite Htype, Hdir. cbn [String.eqb Ascii.eqb Bool.eqb negb].
  rewrite Hguard. cbn [negb]. cbn zeta. destruct (Fs.existsSync fs _); reflexivity.
Qed.

(** X1: the guard of the GET route never turns away a name whose
    resolved path is inside the resolved save directory. The reply is 404
    when the file system finds nothing under the joined path, 500 when
    the name holds a character [setHeader] refuses (a control character
    or one above U+00FF), both before the file is opened, and the file
    otherwise; it is never 403. *)
Theorem serveLabel_admits_inside cfg fs filename saveDirectory :
  type cfg = "virtual"%string ->
  configured_saveDirectory cfg = Return saveDirectory ->
  inside_directory (Path.resolve (Fs.cwd fs) saveDirectory)
    (Path.resolve (Fs.cwd fs) (Path.join saveDirectory filename)) = true ->
  serveLabel cfg fs filename
  = (let filepath := Path.join saveDirectory filename in
     let disposition := "inline; filename=" +:+ dquote +:+ filename +:+ dquote in
     if Fs.existsSync fs filepath then
       if header_value disposition then
         (FileStream (contentTypeOf (toLowerCase (Path.extname filename)))
            disposition (Fs.read fs filepath),
          [ExistsSync filepath; CreateReadStream filepath])
       else
         (Json 500 (Some (message (invalid_header "Content-Disposition"))),
          [ExistsSync filepath])
     else (Json 404 (Some "File not found"%string), [ExistsSync filepath])) /\
  header_value ("inline; filename=" +:+ dquote +:+ filename +:+ dquote)
  = header_value filename /\
  fst (serveLabel cfg fs filename)
  <> Json 403 (Some "Access denied: Invalid file path"%string).
Proof.
  intros Htype Hdir Hinside.
  rewrite (serveLabel_past_guard cfg fs filename saveDirectory)
    by auto using inside_startsWith.
  split; [reflexivity|]. split.
  - rewrite !header_value_app.
    replace (header_value "inline; filename=") with true by reflexivity.
    replace (header_value dquote) with true by reflexivity.
    cbn [andb]. apply andb_true_r.
  - cbv zeta. destruct (Fs.existsSync fs _); [|discriminate].
    destruct (header_value _); discriminate.
Qed.

(** X2: a name that is one path segment (no [/], not empty, not [.] or
    [..]) always passes the guard, whatever the save directory and the
    working directory are, and the file looked up is the one directly
    below the save directory. *)
Theorem serveLabel_admits_plain_names cfg fs filename saveDirectory :
  type cfg = "virtual"%string ->
  configured_saveDirectory cfg = Return saveDirectory ->
  clean filename = true ->
  fst (serveLabel cfg fs filename) <> Json 403 (Some "Access denied: Invalid file path"%string) /\
  hd_error (snd (serveLabel cfg fs filename))
  = Some (ExistsSync (Path.join saveDirectory filename)) /\
  Path.dirname (Fs.key fs (Path.join saveDirectory filename))
  = Fs.key fs saveDirectory.
Proof.
  intros Htype Hdir Hclean.
  assert (Path.startsWith (Path.resolve (Fs.cwd fs) (Path.join saveDirectory filename))
            (Path.resolve (Fs.cwd fs) saveDirectory) = true) as Hguard.
  { rewrite <- (resolve_of_segments _ (Path.join _ _)), <- (resolve_of_segments _ saveDirectory).
    rewrite join_file_segments by assumption. apply startsWith_of_segments. }
  rewrite (serveLabel_past_guard cfg fs filename saveDirectory) by assumption.
  cbn zeta. split; [|split].
  - destruct (Fs.existsSync fs _); [|discriminate].
    destruct (header_value _); discriminate.
  - destruct (Fs.existsSync fs _); [|reflexivity].
    destruct (header_value _); reflexivity.
  - apply dirname_join_file, Hclean.
Qed.

End GuardProperties.

(** ** [VirtualPrinter.print] and the file it stores *)
Module StoreFacts.
Import VirtualPrinter Path PathFacts FsFacts VirtualPrinterFacts GuardFacts.

Lemma generateFilename_head this now :
  generateFilename this now
  = String "l" ("abel_" +:+ replace_colon_dot (Date.toISOString now)
                +:+ "." +:+ extension this).
Proof. reflexivity. Qed.

Lemma generateFilename_no_slash this now :
  no_slash (generateFilename this now) = true.
Proof. apply plain_no_slash, clean_plain, generateFilename_clean. Qed.

(** The extension [path.extname] reads off a generated name. *)
Lemma extname_generateFilename this now :
  extname (generateFilename this now) = "." +:+ extension this.
Proof.
  unfold extname.
  rewrite last_component_segment
    by (apply generateFilename_no_slash || (rewrite generateFilename_head; discriminate)).
  rewrite generateFilename_head.
  replace (String.eqb (String "l" _) "..") with false by reflexivity.
  rewrite (last_dot_suffix_app "abel_" _ ("." +:+ extension this)); [reflexivity|].
  apply last_dot_suffix_app.
  destruct (extension_cases this) as [[<-|[<-|[<-|[]]]] _]; reflexivity.
Qed.

Lemma lower_extension this : toLowerCase ("." +:+ extension this) = "." +:+ extension this.
Proof. destruct (extension_cases this) as [[<-|[<-|[<-|[]]]] _]; reflexivity. Qed.

(** The path of a stored label is not the path of the save directory. *)
Lemma label_key_fresh fs sd name :
  clean name = true -> Fs.key fs (join sd name) <> Fs.key fs sd.
Proof.
  intros Hclean Heq. unfold Fs.key in Heq.
  apply (f_equal segments) in Heq. rewrite join_file_segments in Heq by assumption.
  apply (f_equal (@length string)) in Heq. rewrite length_app in Heq. cbn in Heq. lia.
Qed.

Section Stored.

Variable utf8_decode : bytes -> string.
Variable utf8_encode : string -> bytes.

(** A response with status 200 is stored when the save directory is a
    directory and no directory has the name of the label. *)
Lemma print_stores this zplData res name_clock saved_clock fs :
  statusCode res = 200 ->
  Fs.stat fs (saveDirectory this) = Some Fs.Dir ->
  Fs.stat fs (join (saveDirectory this) (generateFilename this name_clock))
  <> Some Fs.Dir ->
  snd (print utf8_decode utf8_encode this zplData (ResponseEnd res)
         name_clock saved_clock fs)
  = Fs.Make (Fs.cwd fs)
      (<[Fs.key fs (join (saveDirectory this) (generateFilename this name_clock))
         := Fs.File (saved_content utf8_decode utf8_encode this
                       (List.concat (chunks res)))]> (Fs.nodes fs)) /\
  settled (fst (print utf8_decode utf8_encode this zplData (ResponseEnd res)
                  name_clock saved_clock fs)) = true /\
  (forall e, fst (print utf8_decode utf8_encode this zplData (ResponseEnd res)
                    name_clock saved_clock fs) <> Rejected e).
Proof.
  intros Hstatus Hdir Htarget.
  pose proof (generateFilename_clean this name_clock) as Hclean.
  unfold print. rewrite Hstatus, Z.eqb_refl.
  rewrite writeFileSync_join_file, Hdir by exact Hclean.
  destruct (Fs.stat fs (join _ _)) as [[|old]|]; [contradiction | |];
    cbn [fst snd]; repeat split; discriminate.
Qed.

(** After the store the label can be read back and the save directory is
    still a directory. *)
Lemma stored_state this name_clock fs content :
  Fs.stat fs (saveDirectory this) = Some Fs.Dir ->
  let path := join (saveDirectory this) (generateFilename this name_clock) in
  let fs' := Fs.Make (Fs.cwd fs) (<[Fs.key fs path := Fs.File content]> (Fs.nodes fs)) in
  Fs.stat fs' path = Some (Fs.File content) /\
  Fs.stat fs' (saveDirectory this) = Some Fs.Dir.
Proof.
  intros Hdir. cbv zeta.
  pose proof (generateFilename_clean this name_clock) as Hclean.
  unfold Fs.stat, Fs.key, Fs.lookup_key in *. cbn [Fs.cwd Fs.nodes]. split.
  - rewrite (resolve_join_file_not_root _ _ _ Hclean), lookup_insert_eq. reflexivity.
  - destruct (String.eqb (resolve (Fs.cwd fs) (saveDirectory this)) "/"); [reflexivity|].
    rewrite lookup_insert_ne; [exact Hdir|]. apply (label_key_fresh fs), Hclean.
Qed.

End Stored.

End StoreFacts.

Section StoreProperties.
Import VirtualPrinter Server PrinterFactory PathFacts FsFacts VirtualPrinterFacts
  GuardFacts StoreFacts.

Variable utf8_decode : bytes -> string.
Variable utf8_encode : string -> bytes.

(** X3: a label stored by [print] can be fetched through the GET route
    under the name [print] reports: the guard lets the name pass, and the
    reply streams the stored content with the content type of the label's
    extension. *)
Theorem stored_label_is_served this zplData res name_clock saved_clock fs cfg :
  statusCode res = 200 ->
  Fs.stat fs (saveDirectory this) = Some Fs.Dir ->
  Fs.stat fs (Path.join (saveDirectory this) (generateFilename this name_clock))
  <> Some Fs.Dir ->
  type cfg = "virtual"%string ->
  configured_saveDirectory cfg = Return (saveDirectory this) ->
  let name := generateFilename this name_clock in
  let path := Path.join (saveDirectory this) name in
  serveLabel cfg
    (snd (print utf8_decode utf8_encode this zplData (ResponseEnd res)
            name_clock saved_clock fs)) name
  = (FileStream (contentTypeOf ("." +:+ extension this))
       ("inline; filename=" +:+ dquote +:+ name +:+ dquote)
       (Some (saved_content utf8_decode utf8_encode this (List.concat (chunks res)))),
     [ExistsSync path; CreateReadStream path]).
Proof.
  intros Hstatus Hdir Htarget Htype Hcfg name path.
  pose proof (generateFilename_clean this name_clock) as Hclean.
  destruct (print_stores utf8_decode utf8_encode this zplData res name_clock
              saved_clock fs Hstatus Hdir Htarget) as (-> & _ & _).
  destruct (stored_state this name_clock fs
              (saved_content utf8_decode utf8_encode this (List.concat (chunks res)))
              Hdir) as [Hfile _].
  rewrite (serveLabel_past_guard cfg _ name (saveDirectory this)); auto.
  - cbv zeta. unfold name.
    rewrite existsSync_join_file, read_join_file, generateFilename_header
      by exact Hclean.
    rewrite Hfile, extname_generateFilename, lower_extension. reflexivity.
  - cbn [Fs.cwd].
    rewrite <- (resolve_of_segments _ (Path.join _ _)),
      <- (resolve_of_segments _ (saveDirectory this)).
    rewrite join_file_segments by assumption. apply startsWith_of_segments.
Qed.

(** X4: the content type under which a generated label is served is the
    [Accept] header its render request carried, as long as the configured
    output format is not [pdf] or [json] written with upper-case letters. *)
Theorem served_type_is_accept_header this now :
  (toLowerCase (outputFormat this) = "pdf"%string -> outputFormat this = "pdf"%string) ->
  (toLowerCase (outputFormat this) = "json"%string -> outputFormat this = "json"%string) ->
  contentTypeOf (toLowerCase (Path.extname (generateFilename this now)))
  = getAcceptHeader this.
Proof.
  intros Hpdf Hjson. rewrite extname_generateFilename, lower_extension.
  unfold extension, getAcceptHeader.
  destruct (String.eqb_spec (outputFormat this) "pdf") as [->|Hnp]; [reflexivity|].
  destruct (String.eqb_spec (outputFormat this) "json") as [->|Hnj]; [reflexivity|].
  destruct (String.eqb_spec (toLowerCase (outputFormat this)) "pdf") as [Hl|_];
    [destruct (Hnp (Hpdf Hl))|].
  destruct (String.eqb_spec (toLowerCase (outputFormat this)) "json") as [Hl|_];
    [destruct (Hnj (Hjson Hl))|].
  reflexivity.
Qed.

(** X5: with the output format [pdf] or [json] written in another letter
    case, the render request asks for that format, but the label is named
    [.png] and served as [image/png]. *)
Theorem upper_case_format_is_saved_as_png this now :
  toLowerCase (outputFormat this) = "pdf"%string \/
  toLowerCase (outputFormat this) = "json"%string ->
  outputFormat this <> toLowerCase (outputFormat this) ->
  getAcceptHeader this <> "image/png"%string /\
  extension this = "png"%string /\
  contentTypeOf (toLowerCase (Path.extname (generateFilename this now)))
  = "image/png"%string.
Proof.
  intros Hlower Hcase. rewrite extname_generateFilename, lower_extension.
  unfold extension, getAcceptHeader.
  destruct (String.eqb_spec (outputFormat this) "pdf") as [Heq|_];
    [rewrite Heq in Hcase; destruct (Hcase eq_refl)|].
  destruct (String.eqb_spec (outputFormat this) "json") as [Heq|_];
    [rewrite Heq in Hcase; destruct (Hcase eq_refl)|].
  destruct Hlower as [-> | ->]; repeat split; discriminate.
Qed.

(** X6: when the file cannot be written, a response with status 200 still
    ends in a rejection: the promise is rejected with the text
    [Failed to save file: ] followed by the message of the file-system
    error, and the file system is left as it was. That is so when the save
    directory is missing or is a file, and when a directory has the name of
    the label. *)
Theorem print_save_failure this zplData res name_clock saved_clock fs :
  statusCode res = 200 ->
  Fs.stat fs (saveDirectory this) <> Some Fs.Dir \/
  Fs.stat fs (Path.join (saveDirectory this) (generateFilename this name_clock))
  = Some Fs.Dir ->
  exists code,
    In code ["ENOENT: no such file or directory"; "ENOTDIR: not a directory";
             "EISDIR: illegal operation on a directory"]%string /\
    print utf8_decode utf8_encode this zplData (ResponseEnd res)
          name_clock saved_clock fs
    = (Rejected
         (Error ("Failed to save file: " +:+
                 message (Fs.sys_error code "open"
                            (Path.join (saveDirectory this)
                               (generateFilename this name_clock))))), fs).
Proof.
  intros Hstatus Hbad.
  pose proof (generateFilename_clean this name_clock) as Hclean.
  unfold print. rewrite Hstatus, Z.eqb_refl.
  rewrite writeFileSync_join_file by exact Hclean.
  destruct (Fs.stat fs (saveDirectory this)) as [[|parent]|].
  - destruct Hbad as [Hbad | ->]; [destruct (Hbad eq_refl)|].
    eexists. split; [right; right; left; reflexivity | reflexivity].
  - eexists. split; [right; left; reflexivity | reflexivity].
  - eexists. split; [left; reflexivity | reflexivity].
Qed.

(** X7: whatever the exchange with the render service, [print] touches
    at most the one path of the label it generates: every other path of the
    file system, and the working directory, are as before; and unless the
    promise is fulfilled the file system is unchanged altogether. *)
Theorem print_touches_one_path this zplData ex name_clock saved_clock fs :
  let after := print utf8_decode utf8_encode this zplData ex
                 name_clock saved_clock fs in
  Fs.cwd (snd after) = Fs.cwd fs /\
  (forall k,
      k <> Fs.key fs (Path.join (saveDirectory this) (generateFilename this name_clock)) ->
      Fs.nodes (snd after) !! k = Fs.nodes fs !! k) /\
  ((forall result, fst after <> Fulfilled result) -> snd after = fs).
Proof.
  cbv zeta. unfold print.
  destruct ex as [res|error| |error|]; try (repeat split; reflexivity).
  destruct (statusCode res =? 200); [|repeat split; reflexivity].
  unfold Fs.writeFileSync.
  destruct (Fs.refusal fs _); [repeat split; reflexivity|].
  destruct (Fs.lookup_key fs (Path.dirname _)) as [[|parent]|];
    try (repeat split; reflexivity).
  destruct (Fs.lookup_key fs _) as [[|old]|]; try (repeat split; reflexivity);
    (split; [reflexivity|]; split;
     [intros k Hk; cbn [snd Fs.nodes]; apply lookup_insert_ne; congruence
     |intros Hnot; cbn [fst] in Hnot; destruct (Hnot _ eq_refl)]).
Qed.

(** X8: two responses with status 200 that are handled within the same
    millisecond get the same file name, and the second label replaces the
    first: the file system ends as if only the second had been printed. *)
Theorem print_same_instant_overwrites this zpl1 zpl2 res1 res2
    name_clock saved1 saved2 fs :
  statusCode res1 = 200 -> statusCode res2 = 200 ->
  Fs.stat fs (saveDirectory this) = Some Fs.Dir ->
  Fs.stat fs (Path.join (saveDirectory this) (generateFilename this name_clock))
  <> Some Fs.Dir ->
  let first := print utf8_decode utf8_encode this zpl1 (ResponseEnd res1)
                 name_clock saved1 fs in
  let second := print utf8_decode utf8_encode this zpl2 (ResponseEnd res2)
                  name_clock saved2 (snd first) in
  settled (fst first) = true /\ (forall e, fst second <> Rejected e) /\
  snd second
  = snd (print utf8_decode utf8_encode this zpl2 (ResponseEnd res2)
           name_clock saved2 fs) /\
  Fs.read (snd second)
    (Path.join (saveDirectory this) (generateFilename this name_clock))
  = Some (saved_content utf8_decode utf8_encode this (List.concat (chunks res2))).
Proof.
  intros Hs1 Hs2 Hdir Htarget. cbv zeta.
  destruct (print_stores utf8_decode utf8_encode this zpl1 res1 name_clock saved1 fs
              Hs1 Hdir Htarget) as (Hfs1 & Hsettled & _).
  destruct (print_stores utf8_decode utf8_encode this zpl2 res2 name_clock saved2 fs
              Hs2 Hdir Htarget) as (Hdirect & _ & _).
  destruct (stored_state this name_clock fs
              (saved_content utf8_decode utf8_encode this (List.concat (chunks res1)))
              Hdir) as [Hfile1 Hdir1].
  rewrite <- Hfs1 in Hfile1, Hdir1.
  assert (Fs.stat (snd (print utf8_decode utf8_encode this zpl1 (ResponseEnd res1)
                          name_clock saved1 fs))
            (Path.join (saveDirectory this) (generateFilename this name_clock))
          <> Some Fs.Dir) as Htarget1 by (rewrite Hfile1; discriminate).
  destruct (print_stores utf8_decode utf8_encode this zpl2 res2 name_clock saved2 _
              Hs2 Hdir1 Htarget1) as (Hfs2 & _ & Hok).
  split; [exact Hsettled|]. split; [exact Hok|].
  rewrite Hfs2, Hdirect, Hfs1. cbn [Fs.cwd Fs.nodes]. unfold Fs.key. cbn [Fs.cwd].
  rewrite insert_insert_eq. split; [reflexivity|].
  destruct (stored_state this name_clock fs
              (saved_content utf8_decode utf8_encode this (List.concat (chunks res2)))
              Hdir) as [Hfile2 _].
  rewrite read_join_file by exact (generateFilename_clean this name_clock).
  unfold Fs.key in Hfile2. rewrite Hfile2. reflexivity.
Qed.

(** X9: printing and deleting undo each other: after a label has been
    stored under a name that was free, [deleteSavedLabel] with the file
    name [print] reported gives back the file system as it was before. *)
Theorem print_then_delete_restores this zplData res name_clock saved_clock fs :
  statusCode res = 200 ->
  Fs.stat fs (saveDirectory this) = Some Fs.Dir ->
  Fs.stat fs (Path.join (saveDirectory this) (generateFilename this name_clock)) = None ->
  deleteSavedLabel this (generateFilename this name_clock)
    (snd (print utf8_decode utf8_encode this zplData (ResponseEnd res)
            name_clock saved_clock fs))
  = Return fs.
Proof.
  intros Hstatus Hdir Hfree.
  pose proof (generateFilename_clean this name_clock) as Hclean.
  assert (Fs.stat fs (Path.join (saveDirectory this) (generateFilename this name_clock))
          <> Some Fs.Dir) as Htarget by (rewrite Hfree; discriminate).
  destruct (print_stores utf8_decode utf8_encode this zplData res name_clock
              saved_clock fs Hstatus Hdir Htarget) as (-> & _ & _).
  destruct (stored_state this name_clock fs
              (saved_content utf8_decode utf8_encode this (List.concat (chunks res)))
              Hdir) as [Hfile _].
  unfold deleteSavedLabel.
  rewrite existsSync_join_file, unlinkSync_join_file, Hfile by exact Hclean.
  cbn [Fs.cwd Fs.nodes]. unfold Fs.key. cbn [Fs.cwd].
  rewrite delete_insert_id.
  - destruct fs; reflexivity.
  - unfold Fs.stat, Fs.lookup_key, Fs.key in Hfree.
    rewrite (resolve_join_file_not_root _ _ _ Hclean) in Hfree. exact Hfree.
Qed.

End StoreProperties.

(** ** [deleteSavedLabel] *)
Section DeleteProperties.
Import VirtualPrinter.

(** X10: a [deleteSavedLabel] that returns has removed exactly one file:
    the joined path was a file, it is gone afterwards, every other path and
    the working directory are as before, and deleting the same name again
    fails with [File not found]. *)
Theorem deleteSavedLabel_removes_one_file this filename fs fs' :
  deleteSavedLabel this filename fs = Return fs' ->
  let path := Path.join (saveDirectory this) filename in
  (exists content, Fs.stat fs path = Some (Fs.File content)) /\
  Fs.existsSync fs' path = false /\
  Fs.cwd fs' = Fs.cwd fs /\
  (forall k, k <> Fs.key fs path -> Fs.nodes fs' !! k = Fs.nodes fs !! k) /\
  deleteSavedLabel this filename fs'
  = Throw (Error "Failed to delete file: File not found").
Proof.
  cbv zeta. unfold deleteSavedLabel.
  set (path := Path.join (saveDirectory this) filename).
  unfold Fs.existsSync at 1, Fs.unlinkSync, Fs.stat at 1.
  destruct (Fs.refusal fs path); [discriminate|].
  destruct (Fs.lookup_key fs (Fs.key fs path)) as [[|content]|] eqn:Hnode;
    try discriminate.
  intros [= <-].
  assert (Fs.existsSync (Fs.Make (Fs.cwd fs) (delete (Fs.key fs path) (Fs.nodes fs)))
            path = false) as Hgone.
  { unfold Fs.existsSync, Fs.stat. destruct (Fs.refusal _ path); [reflexivity|].
    change (Fs.key (Fs.Make (Fs.cwd fs) _) path) with (Fs.key fs path).
    unfold Fs.lookup_key in *. cbn [Fs.nodes].
    destruct (String.eqb (Fs.key fs path) "/"); [discriminate|].
    rewrite lookup_delete_eq. reflexivity. }
  rewrite Hgone. unfold Fs.stat. rewrite Hnode.
  split; [eauto|]. split; [reflexivity|]. split; [reflexivity|].
  split; [|reflexivity]. intros k Hk. apply lookup_delete_ne. congruence.
Qed.

(** X11: [deleteSavedLabel] never removes a directory. A name whose
    joined path is a directory (the save directory itself for [.], its
    parent for [..]) makes it throw the error of [unlink], and on every
    return the directories of the file system are still there. *)
Theorem deleteSavedLabel_keeps_directories this filename fs :
  (Fs.stat fs (Path.join (saveDirectory this) filename) = Some Fs.Dir ->
   exists e,
     Fs.unlinkSync fs (Path.join (saveDirectory this) filename) = Throw e /\
     deleteSavedLabel this filename fs
     = Throw (Error ("Failed to delete file: " +:+ message e))) /\
  (forall fs' p,
      deleteSavedLabel this filename fs = Return fs' ->
      Fs.stat fs p = Some Fs.Dir -> Fs.stat fs' p = Some Fs.Dir).
Proof.
  unfold deleteSavedLabel. split.
  - intros Hdir. unfold Fs.existsSync, Fs.unlinkSync.
    rewrite (FsFacts.refusal_join_dir fs _ _ Hdir), Hdir.
    unfold Fs.stat in Hdir. rewrite Hdir. eexists. split; reflexivity.
  - intros fs' p. unfold Fs.existsSync, Fs.unlinkSync, Fs.stat.
    destruct (Fs.refusal fs _); [discriminate|].
    destruct (Fs.lookup_key fs (Fs.key fs _)) as [[|content]|] eqn:Hnode;
      try discriminate.
    intros [= <-] Hdir. unfold Fs.lookup_key, Fs.key in *. cbn [Fs.cwd Fs.nodes].
    destruct (String.eqb (Path.resolve (Fs.cwd fs) p) "/"); [reflexivity|].
    rewrite lookup_delete_ne; [exact Hdir|].
    intros Heq. rewrite <- Heq in Hdir.
    destruct (String.eqb (Path.resolve (Fs.cwd fs) _) "/"); congruence.
Qed.

End DeleteProperties.

(** ** The constructor of [VirtualPrinter] and the selector *)
Module MkdirFacts.
Import Path PathFacts FsFacts.

(** [mkdir] keeps every node there was, and adds directories only. *)
Lemma mkdir_along_keeps segs : forall m here k v,
  m !! k = Some v -> snd (Fs.mkdir_along m here segs) !! k = Some v.
Proof.
  induction segs as [|seg rest IH]; intros m here k v; cbn [Fs.mkdir_along];
    [auto|].
  destruct (is_name seg); [|apply IH].
  destruct (m !! Fs.place _) as [[|content]|] eqn:Hhere; [apply IH | auto |].
  intros Hk. apply IH. rewrite lookup_insert_ne; [exact Hk|]. congruence.
Qed.

Lemma mkdir_along_adds segs : forall m here k v,
  snd (Fs.mkdir_along m here segs) !! k = Some v ->
  m !! k = Some v \/ v = Fs.Dir.
Proof.
  induction segs as [|seg rest IH]; intros m here k v; cbn [Fs.mkdir_along];
    [auto|].
  destruct (is_name seg); [|apply IH].
  destruct (m !! Fs.place _) as [[|content]|] eqn:Hhere; [apply IH | auto |].
  intros [Hk | Hk]%IH; [|auto].
  destruct (decide (Fs.place (walk_step false here seg) = k)) as [<-|Hne].
  - rewrite lookup_insert_eq in Hk. injection Hk as <-. auto.
  - rewrite lookup_insert_ne in Hk by exact Hne. auto.
Qed.

(** After [mkdir] there is a directory wherever the path asks for one. *)
Lemma mkdir_along_demands segs : forall m here,
  fst (Fs.mkdir_along m here segs) = None ->
  Forall (fun st => snd (Fs.mkdir_along m here segs) !! Fs.place st = Some Fs.Dir)
         (Fs.demands here segs).
Proof.
  induction segs as [|seg rest IH]; intros m here; [constructor|].
  cbn [Fs.mkdir_along Fs.demands]. unfold Fs.goes_on.
  destruct (is_name seg); cbn [andb]; [|apply IH].
  destruct (m !! Fs.place _) as [[|content]|] eqn:Hhere; [| discriminate |];
    intros Hdown; apply Forall_app; (split; [|apply IH, Hdown]).
  - destruct rest as [|next more]; [constructor|].
    destruct (negb (is_name next)); constructor; [|constructor].
    apply mkdir_along_keeps, Hhere.
  - destruct rest as [|next more]; [constructor|].
    destruct (negb (is_name next)); constructor; [|constructor].
    apply mkdir_along_keeps, lookup_insert_eq.
Qed.

Lemma refused_dirs fs places :
  Forall (fun st => Fs.nodes fs !! Fs.place st = Some Fs.Dir) places ->
  Fs.refused fs places = None.
Proof.
  induction 1 as [|st places Hst _ IH]; [reflexivity|]. cbn [Fs.refused].
  unfold Fs.lookup_key. destruct (String.eqb (Fs.place st) "/"); [exact IH|].
  rewrite Hst. exact IH.
Qed.

(** What a recursive [mkdir] leaves has every node there was, and
    directories besides. *)
Lemma mkdir_leaves_keeps fs p k v :
  Fs.lookup_key fs k = Some v -> Fs.lookup_key (Fs.mkdir_leaves fs p) k = Some v.
Proof.
  unfold Fs.mkdir_leaves. destruct (String.eqb p ""); [auto|].
  unfold Fs.lookup_key. cbn [Fs.nodes].
  destruct (String.eqb k "/"); [auto|]. apply mkdir_along_keeps.
Qed.

Lemma mkdir_leaves_adds fs p k v :
  Fs.lookup_key (Fs.mkdir_leaves fs p) k = Some v ->
  Fs.lookup_key fs k = Some v \/ v = Fs.Dir.
Proof.
  unfold Fs.mkdir_leaves. destruct (String.eqb p ""); [auto|].
  unfold Fs.lookup_key. cbn [Fs.nodes].
  destruct (String.eqb k "/"); [auto|]. apply mkdir_along_adds.
Qed.

(** A recursive [mkdir] that returns leaves a directory at the place of
    the path, reachable by the path as written. *)
Lemma mkdirSync_result fs p fs' :
  Fs.mkdirSync_recursive fs p = Return fs' ->
  fs' = Fs.mkdir_leaves fs p /\
  Fs.cwd fs' = Fs.cwd fs /\
  Fs.stat fs' p = Some Fs.Dir /\ Fs.refusal fs' p = None.
Proof.
  unfold Fs.mkdirSync_recursive, Fs.mkdir_leaves.
  destruct (String.eqb p "") eqn:Hp; [discriminate|].
  pose proof (mkdir_along_demands (split_slash p) (Fs.nodes fs) (Fs.start fs p))
    as Hdemands.
  destruct (Fs.mkdir_along _ _ _) as [[code|] m']; [discriminate|].
  destruct (Fs.lookup_key _ (Fs.key fs p)) as [[|content]|] eqn:Hplace;
    try discriminate.
  intros [= <-]. split; [reflexivity|]. split; [reflexivity|]. split; [exact Hplace|].
  unfold Fs.refusal. rewrite Hp. apply refused_dirs, Hdemands. reflexivity.
Qed.

Lemma ensure_keeps this fs fs' k v :
  VirtualPrinter.ensureDirectoryExists this fs = Return fs' ->
  Fs.lookup_key fs k = Some v -> Fs.lookup_key fs' k = Some v.
Proof.
  unfold VirtualPrinter.ensureDirectoryExists.
  destruct (Fs.existsSync fs _); cbn [negb]; [intros [= <-]; auto|].
  intros Hmkdir. apply mkdirSync_result in Hmkdir as (-> & _).
  apply mkdir_leaves_keeps.
Qed.

(** What [ensureDirectoryExists] leaves: the path was there, directory or
    not, and nothing is done; or it was not, and is a directory now. *)
Lemma ensure_cases this fs fs' :
  VirtualPrinter.ensureDirectoryExists this fs = Return fs' ->
  Fs.cwd fs' = Fs.cwd fs /\
  Fs.existsSync fs' (VirtualPrinter.saveDirectory this) = true /\
  (Fs.existsSync fs (VirtualPrinter.saveDirectory this) = true /\ fs' = fs \/
   Fs.existsSync fs (VirtualPrinter.saveDirectory this) = false /\
   Fs.stat fs' (VirtualPrinter.saveDirectory this) = Some Fs.Dir).
Proof.
  unfold VirtualPrinter.ensureDirectoryExists.
  destruct (Fs.existsSync fs _) eqn:Hexists; cbn [negb]; [intros [= <-]; auto|].
  intros Hmkdir. apply mkdirSync_result in Hmkdir as (_ & Hcwd & Hdir & Hgoes).
  split; [exact Hcwd|]. split; [|right; auto].
  unfold Fs.existsSync. rewrite Hgoes, Hdir. reflexivity.
Qed.

End MkdirFacts.

Section ConstructorProperties.
Import PrinterFactory MkdirFacts.

(** X12: when the constructor of the virtual printer returns,
    [existsSync] finds its save path, as a directory or as a file that was
    there before and is left as it is: the constructor does not tell the
    two apart. Nothing that was in the file system has been removed or
    changed, and constructing again from the same options changes nothing
    more. *)
Theorem constructor_is_idempotent o fs this fs' :
  VirtualPrinter.constructor o fs = Return (this, fs') ->
  Fs.existsSync fs' (VirtualPrinter.saveDirectory this) = true /\
  (Fs.stat fs' (VirtualPrinter.saveDirectory this) = Some Fs.Dir \/
   fs' = fs /\
   exists content,
     Fs.stat fs (VirtualPrinter.saveDirectory this) = Some (Fs.File content)) /\
  (forall k v, Fs.lookup_key fs k = Some v -> Fs.lookup_key fs' k = Some v) /\
  VirtualPrinter.constructor o fs' = Return (this, fs').
Proof.
  unfold VirtualPrinter.constructor. cbv zeta.
  destruct (VirtualPrinter.ensureDirectoryExists _ fs) as [fs1|e] eqn:Hensure;
    [|discriminate].
  intros [= <- <-]. destruct (ensure_cases _ _ _ Hensure) as (_ & Hexists & Hcases).
  split; [exact Hexists|]. split; [|split].
  - destruct Hcases as [[Hbefore Hsame] | [_ Hdir]]; [|left; exact Hdir].
    subst. unfold Fs.existsSync in Hbefore.
    destruct (Fs.refusal _ _); [discriminate|].
    destruct (Fs.stat _ _) as [[|content]|]; [left; reflexivity | | discriminate].
    right. eauto.
  - intros k v. apply (ensure_keeps _ _ _ k v Hensure).
  - unfold VirtualPrinter.ensureDirectoryExists at 1. rewrite Hexists. reflexivity.
Qed.

(** X13: [createPrinter] never removes or changes a node of the file
    system, and what it adds are directories, also when it throws. For
    every kind but [virtual], and for the virtual printer whose save path
    is there already, the file system is returned as it was. *)
Theorem createPrinter_preserves_files cfg fs :
  (forall k v, Fs.lookup_key fs k = Some v ->
               Fs.lookup_key (snd (createPrinter cfg fs)) k = Some v) /\
  (forall k v, Fs.lookup_key (snd (createPrinter cfg fs)) k = Some v ->
               Fs.lookup_key fs k = Some v \/ v = Fs.Dir) /\
  (toLowerCase (type cfg) <> "virtual"%string -> snd (createPrinter cfg fs) = fs) /\
  (Fs.existsSync fs
     (VirtualPrinter.saveDirectory
        (VirtualPrinter.with_defaults
           (default VirtualPrinter.no_options (virtual cfg)))) = true ->
   snd (createPrinter cfg fs) = fs).
Proof.
  unfold createPrinter.
  destruct (String.eqb (toLowerCase (type cfg)) "tcp");
    [destruct (truthy_string (host cfg)), (truthy_number (port cfg));
     repeat split; auto|].
  destruct (String.eqb (toLowerCase (type cfg)) "usb"); [repeat split; auto|].
  destruct (String.eqb_spec (toLowerCase (type cfg)) "virtual") as [Hv|Hv];
    [|repeat split; auto].
  unfold VirtualPrinter.constructor, VirtualPrinter.constructor_leaves,
    VirtualPrinter.ensureDirectoryExists. cbv zeta.
  destruct (Fs.existsSync fs _) eqn:Hexists; cbn [negb fst snd];
    [repeat split; auto; contradiction|].
  destruct (Fs.mkdirSync_recursive fs _) as [fs1|e] eqn:Hmkdir; cbn [fst snd];
    [apply mkdirSync_result in Hmkdir as (-> & _)|];
    (split; [intros k v; apply mkdir_leaves_keeps|]);
    (split; [intros k v; apply mkdir_leaves_adds|]);
    (split; [contradiction | discriminate]).
Qed.

End ConstructorProperties.

(** ** [listSavedLabels] *)
Module ListFacts.
Import VirtualPrinter VirtualPrinterOps.

Lemma insert_newest_perm x sorted : Permutation (insert_newest x sorted) (x :: sorted).
Proof.
  induction sorted as [|y rest IH]; [reflexivity|]. cbn [insert_newest].
  destruct (created x <? created y); [|reflexivity].
  rewrite IH. apply perm_swap.
Qed.

Lemma sort_newest_first_perm labels : Permutation (sort_newest_first labels) labels.
Proof.
  induction labels as [|x rest IH]; [reflexivity|]. cbn [sort_newest_first].
  rewrite insert_newest_perm, IH. reflexivity.
Qed.

Lemma insert_newest_sorted x sorted :
  Sorted not_older sorted -> Sorted not_older (insert_newest x sorted).
Proof.
  induction 1 as [|y rest Hrest IH Hhd]; [repeat constructor|].
  cbn [insert_newest]. destruct (Z.ltb_spec (created x) (created y)).
  - constructor; [exact IH|].
    destruct rest as [|z rest]; cbn [insert_newest].
    + constructor. unfold not_older. lia.
    + destruct (created x <? created z); constructor.
      * inversion Hhd; assumption.
      * unfold not_older. lia.
  - constructor; [constructor; assumption|]. constructor. unfold not_older. lia.
Qed.

Lemma sort_newest_first_sorted labels : Sorted not_older (sort_newest_first labels).
Proof.
  induction labels as [|x rest IH]; [constructor|]. apply insert_newest_sorted, IH.
Qed.

(** Labels of one creation time keep their order. *)
Lemma insert_newest_stable time x sorted :
  List.filter (fun l => created l =? time) (insert_newest x sorted)
  = List.filter (fun l => created l =? time) (x :: sorted).
Proof.
  induction sorted as [|y rest IH]; [reflexivity|]. cbn [insert_newest].
  destruct (Z.ltb_spec (created x) (created y)); [|reflexivity].
  cbn [List.filter] in *. rewrite IH.
  destruct (Z.eqb_spec (created x) time), (Z.eqb_spec (created y) time);
    try reflexivity. lia.
Qed.

Lemma sort_newest_first_stable time labels :
  List.filter (fun l => created l =? time) (sort_newest_first labels)
  = List.filter (fun l => created l =? time) labels.
Proof.
  induction labels as [|x rest IH]; [reflexivity|]. cbn [sort_newest_first].
  rewrite insert_newest_stable. cbn [List.filter]. rewrite IH. reflexivity.
Qed.

(** What [map] returns when no [statSync] throws. *)
Lemma describe_all_spec this fsys files : forall labels,
  describe_all this fsys files = Return labels ->
  map label_filename labels = files /\
  Forall (fun l =>
            exists st,
              statSync fsys (Path.join (saveDirectory this) (label_filename l))
              = Return st /\
              l = describe this (label_filename l) st) labels.
Proof.
  induction files as [|file rest IH]; intros labels; cbn [describe_all].
  - intros [= <-]. split; [reflexivity | constructor].
  - destruct (statSync fsys _) as [st|e] eqn:Hstat; [|discriminate].
    destruct (describe_all this fsys rest) as [described|e]; [|discriminate].
    intros [= <-]. destruct (IH described eq_refl) as [Hnames Hall].
    split; [cbn; rewrite Hnames; reflexivity|].
    constructor; [|exact Hall]. exists st. split; [exact Hstat | reflexivity].
Qed.

(** The first [statSync] that throws makes [map] throw. *)
Lemma describe_all_throws this fsys files file e :
  In file files ->
  statSync fsys (Path.join (saveDirectory this) file) = Throw e ->
  exists e', describe_all this fsys files = Throw e'.
Proof.
  induction files as [|f rest IH]; [intros []|]. cbn [describe_all].
  intros [->|Hin] Hthrow.
  - rewrite Hthrow. eexists; reflexivity.
  - destruct (IH Hin Hthrow) as [e' ->].
    destruct (statSync fsys (Path.join (saveDirectory this) f)); eexists; reflexivity.
Qed.

End ListFacts.

Section ListProperties.
Import VirtualPrinter VirtualPrinterOps ListFacts.

(** X14: the array [listSavedLabels] returns goes from the newest label
    to the oldest. It holds one entry for each directory entry whose name
    ends in [.png], [.pdf] or [.json] in any letter case, and no other;
    each entry carries the name, the name joined to the save directory, and
    the size and times [statSync] gave for that path. *)
Theorem listSavedLabels_newest_first this fsys files labels :
  existsSync fsys (saveDirectory this) = true ->
  readdirSync fsys (saveDirectory this) = Return files ->
  listSavedLabels this fsys = Return labels ->
  Sorted not_older labels /\
  Permutation (map label_filename labels) (List.filter is_label files) /\
  Forall (fun l =>
            is_label (label_filename l) = true /\
            In (label_filename l) files /\
            exists st,
              statSync fsys (Path.join (saveDirectory this) (label_filename l))
              = Return st /\
              l = describe this (label_filename l) st) labels.
Proof.
  intros Hexists Hreaddir. unfold listSavedLabels. rewrite Hexists, Hreaddir. cbn [negb].
  destruct (describe_all this fsys (List.filter is_label files)) as [described|e] eqn:Hmap;
    [|discriminate].
  intros [= <-]. destruct (describe_all_spec _ _ _ _ Hmap) as [Hnames Hall].
  split; [apply sort_newest_first_sorted|]. split.
  - rewrite <- Hnames. apply Permutation_map, sort_newest_first_perm.
  - apply Stdlib.Lists.List.Forall_forall. intros l Hin.
    apply (Permutation_in _ (sort_newest_first_perm described)) in Hin.
    pose proof (proj1 (Stdlib.Lists.List.Forall_forall _ _) Hall l Hin) as Hl.
    assert (In (label_filename l) (List.filter is_label files)) as Hname
      by (rewrite <- Hnames; apply in_map, Hin).
    apply filter_In in Hname as [Hfile Hlabel]. auto.
Qed.

(** X15: labels created at the same time are listed in the order of the
    directory entries: the sort only moves a label in front of older
    ones. *)
Theorem listSavedLabels_keeps_directory_order this fsys files labels time :
  existsSync fsys (saveDirectory this) = true ->
  readdirSync fsys (saveDirectory this) = Return files ->
  listSavedLabels this fsys = Return labels ->
  map label_filename (List.filter (fun l => created l =? time) labels)
  = List.filter
      (fun file =>
         match statSync fsys (Path.join (saveDirectory this) file) with
         | Return st => birthtime st =? time
         | Throw _ => false
         end)
      (List.filter is_label files).
Proof.
  intros Hexists Hreaddir. unfold listSavedLabels. rewrite Hexists, Hreaddir. cbn [negb].
  generalize (List.filter is_label files). intros names.
  destruct (describe_all this fsys names) as [described|e] eqn:Hmap; [|discriminate].
  intros [= <-]. rewrite sort_newest_first_stable.
  revert described Hmap. induction names as [|file rest IH]; intros described;
    cbn [describe_all].
  - intros [= <-]. reflexivity.
  - destruct (statSync fsys _) as [st|e] eqn:Hstat; [|discriminate].
    destruct (describe_all this fsys rest) as [more|e]; [|discriminate].
    intros [= <-]. cbn [List.filter]. rewrite Hstat. cbn [describe created].
    destruct (birthtime st =? time); cbn [map]; rewrite (IH more eq_refl); reflexivity.
Qed.

(** X16: the failure paths of [listSavedLabels]. Without the save
    directory the answer is the empty array and the directory is not read.
    When [readdirSync] throws, or [statSync] throws for one entry that has
    a label extension, the whole call throws an error whose message starts
    with [Failed to list saved labels: ]; entries without a label extension
    are never passed to [statSync], so they cannot make it fail. *)
Theorem listSavedLabels_failures this fsys :
  (existsSync fsys (saveDirectory this) = false ->
   listSavedLabels this fsys = Return []) /\
  (forall e,
      existsSync fsys (saveDirectory this) = true ->
      readdirSync fsys (saveDirectory this) = Throw e ->
      listSavedLabels this fsys
      = Throw (Error ("Failed to list saved labels: " +:+ message e))) /\
  (forall files file e,
      existsSync fsys (saveDirectory this) = true ->
      readdirSync fsys (saveDirectory this) = Return files ->
      In file files -> is_label file = true ->
      statSync fsys (Path.join (saveDirectory this) file) = Throw e ->
      exists e',
        listSavedLabels this fsys
        = Throw (Error ("Failed to list saved labels: " +:+ message e'))) /\
  (forall files,
      existsSync fsys (saveDirectory this) = true ->
      readdirSync fsys (saveDirectory this) = Return files ->
      Forall (fun file =>
                is_label file = true ->
                exists st, statSync fsys (Path.join (saveDirectory this) file)
                           = Return st) files ->
      exists labels, listSavedLabels this fsys = Return labels).
Proof.
  unfold listSavedLabels. split; [|split; [|split]].
  - intros ->. reflexivity.
  - intros e -> ->. reflexivity.
  - intros files file e -> -> Hin Hlabel Hthrow. cbn [negb].
    destruct (describe_all_throws this fsys (List.filter is_label files) file e)
      as [e' ->]; [apply filter_In; auto | exact Hthrow | eexists; reflexivity].
  - intros files -> -> Hall. cbn [negb].
    assert (exists described,
               describe_all this fsys (List.filter is_label files) = Return described)
      as [described ->]; [|eexists; reflexivity].
    induction Hall as [|file rest Hfile _ IH]; [eexists; reflexivity|].
    cbn [List.filter]. destruct (is_label file) eqn:Hlabel; [|exact IH].
    cbn [describe_all]. destruct (Hfile eq_refl) as [st ->].
    destruct IH as [described ->]. eexists; reflexivity.
Qed.

End ListProperties.

(** ** The extension field of a listed label *)
Module ExtensionFacts.
Import Path PathFacts GuardFacts VirtualPrinterOps.

Lemma lower_ascii_dot c : Ascii.eqb (lower_ascii c) "." = Ascii.eqb c ".".
Proof. destruct c as [[] [] [] [] [] [] [] []]; reflexivity. Qed.

Lemma last_dot_suffix_lower s :
  last_dot_suffix (toLowerCase s) = option_map toLowerCase (last_dot_suffix s).
Proof.
  induction s as [|c s IH]; [reflexivity|].
  cbn [toLowerCase last_dot_suffix]. rewrite IH, lower_ascii_dot.
  destruct (last_dot_suffix s); [reflexivity|].
  cbn [option_map]. destruct (Ascii.eqb c "."); reflexivity.
Qed.

Lemma endsWith_last_dot s suffix :
  last_dot_suffix suffix = Some suffix ->
  endsWith s suffix = true -> last_dot_suffix s = Some suffix.
Proof.
  intros Hsuffix. induction s as [|c s IH]; cbn [endsWith].
  - rewrite orb_false_r. intros ->%String.eqb_eq. exact Hsuffix.
  - intros [->%String.eqb_eq | Hrest]%orb_true_iff; [exact Hsuffix|].
    cbn [last_dot_suffix]. rewrite (IH Hrest). reflexivity.
Qed.

(** The three patterns of the filter, each with the extension it leaves. *)
Lemma is_label_suffix file :
  is_label file = true ->
  exists suffix,
    endsWith (toLowerCase file) suffix = true /\
    In (suffix, substring1 suffix)
      [(".png", "png"); (".pdf", "pdf"); (".json", "json")]%string.
Proof.
  unfold is_label. cbv zeta.
  intros [[H|H]%orb_true_iff|H]%orb_true_iff; eexists; (split; [exact H|]); cbn; auto.
Qed.

End ExtensionFacts.

Section ExtensionProperties.
Import Path PathFacts GuardFacts VirtualPrinter VirtualPrinterOps ExtensionFacts.

(** X17: the [extension] field of a listed label is [png], [pdf] or
    [json] in lower case, whatever the letter case of the file name. The
    one exception is a file named just [.png], [.pdf] or [.json] (in any
    letter case): it passes the filter, but [path.extname] sees a name
    without extension, and the field is empty. *)
Theorem listed_extension_is_lower_case this file st :
  is_label file = true -> no_slash file = true ->
  let field := extension_of (describe this file st) in
  (In field ["png"; "pdf"; "json"]%string /\
   endsWith (toLowerCase file) ("." +:+ field) = true /\
   ~ In (toLowerCase file) [".png"; ".pdf"; ".json"]%string) \/
  (field = ""%string /\ In (toLowerCase file) [".png"; ".pdf"; ".json"]%string).
Proof.
  intros Hlabel Hns. cbn [describe extension_of]. cbv zeta.
  destruct (is_label_suffix file Hlabel) as (suffix & Hends & Hsuffix).
  destruct file as [|c rest];
    [cbn in Hsuffix; destruct Hsuffix as [[= <- _]|[[= <- _]|[[= <- _]|[]]]]; discriminate|].
  unfold extname.
  rewrite last_component_segment by (assumption || discriminate).
  destruct (String.eqb_spec (String c rest) "..") as [Hdots|_].
  { rewrite Hdots in Hends. cbn in Hsuffix.
    destruct Hsuffix as [[= <- _]|[[= <- _]|[[= <- _]|[]]]]; discriminate. }
  cbn [toLowerCase endsWith] in Hends.
  apply orb_true_iff in Hends as [Hwhole|Hrest].
  - right. apply String.eqb_eq in Hwhole. cbn [toLowerCase].
    assert (last_dot_suffix rest = None) as ->.
    { pose proof (last_dot_suffix_lower rest) as Hlower.
      assert (last_dot_suffix (toLowerCase rest) = None) as Hnone.
      { cbn in Hsuffix.
        destruct Hsuffix as [[= <- _]|[[= <- _]|[[= <- _]|[]]]];
          injection Hwhole as _ ->; reflexivity. }
      rewrite Hnone in Hlower. destruct (last_dot_suffix rest); [discriminate | reflexivity]. }
    split; [reflexivity|]. rewrite Hwhole. cbn in Hsuffix.
    destruct Hsuffix as [[= <- _]|[[= <- _]|[[= <- _]|[]]]]; cbn; auto.
  - left.
    assert (last_dot_suffix suffix = Some suffix /\ toLowerCase suffix = suffix /\
            suffix = "." +:+ substring1 suffix) as (Hdot & Hlow & Hshape).
    { cbn in Hsuffix.
      destruct Hsuffix as [[= <- _]|[[= <- _]|[[= <- _]|[]]]]; repeat split. }
    pose proof (endsWith_last_dot _ _ Hdot Hrest) as Hlast.
    rewrite last_dot_suffix_lower in Hlast.
    destruct (last_dot_suffix rest) as [ext|]; [|discriminate].
    injection Hlast as Hext. rewrite Hext.
    split; [|split].
    + cbn in Hsuffix.
      destruct Hsuffix as [[= <- <-]|[[= <- <-]|[[= <- <-]|[]]]]; cbn; auto.
    + rewrite <- Hshape. cbn [toLowerCase endsWith]. rewrite Hrest. apply orb_true_r.
    + intros Hbare. cbn [toLowerCase] in Hbare. cbn in Hsuffix.
      destruct Hsuffix as [[= <- _]|[[= <- _]|[[= <- _]|[]]]];
        destruct Hbare as [Hb|[Hb|[Hb|[]]]]; injection Hb as _ Hb;
        rewrite <- Hb in Hrest; discriminate.
Qed.

End ExtensionProperties.

(** ** [USBPrinter]: discovery, set-up and release *)
Module UsbFacts.
Import Usb USBPrinter.

Lemma findPrinter_keeps this devices :
  vendorId (snd (findPrinter this devices)) = vendorId this /\
  endpoint (snd (findPrinter this devices)) = endpoint this.
Proof.
  unfold findPrinter, find_exact.
  destruct (productId_given this) as [pid|];
    [destruct (findByIds devices (vendorId this) pid)|];
    cbn [with_device device vendorId endpoint fst snd];
    try (split; reflexivity);
    destruct (List.find _ devices); split; reflexivity.
Qed.

(** A device the discovery takes is attached and of the vendor. *)
Lemma findPrinter_selects this devices :
  fst (findPrinter this devices) = true ->
  exists d,
    device (snd (findPrinter this devices)) = Some d /\
    In d devices /\ idVendor d = vendorId this.
Proof.
  unfold findPrinter, find_exact.
  destruct (productId_given this) as [pid|].
  - destruct (findByIds devices (vendorId this) pid) as [d|] eqn:Hexact;
      cbn [with_device device vendorId fst snd].
    + intros _. exists d. apply find_some in Hexact as [Hin Hids].
      apply andb_true_iff in Hids as [Hvid _]. apply Z.eqb_eq in Hvid. auto.
    + destruct (List.find _ devices) as [d|] eqn:Hfirst; [|discriminate].
      intros _. exists d. apply find_some in Hfirst as [Hin Hvid].
      apply Z.eqb_eq in Hvid. auto.
  - destruct (List.find _ devices) as [d|] eqn:Hfirst; [|discriminate].
    intros _. exists d. apply find_some in Hfirst as [Hin Hvid].
    apply Z.eqb_eq in Hvid. auto.
Qed.

(** What [initializeDevice] does on an object whose device is [d]. *)
Lemma initializeDevice_on this d :
  device this = Some d ->
  let '(done, (this', log)) := initializeDevice (this, []) in
  vendorId this' = vendorId this /\ device this' = Some d /\
  ((exists ep,
       done = Return tt /\ endpoint this' = Found ep /\
       List.find is_out (endpoints d) = Some ep /\
       log = [Open] ++ (if kernelDriverActive d then [DetachKernelDriver] else [])
             ++ [Claim]) \/
   (exists e,
       done = Throw e /\
       (endpoint this' = endpoint this \/ endpoint this' = Undefined) /\
       hd_error log = Some Open /\
       (forall c, In c log -> c = Open \/ c = DetachKernelDriver \/ c = Claim) /\
       exists rest,
         [Open] ++ (if kernelDriverActive d then [DetachKernelDriver] else [])
         ++ [Claim] = log ++ rest)).
Proof.
  intros Hd. unfold initializeDevice, bind, this_device, lib, set_endpoint, ret, throw.
  rewrite Hd.
  destruct (open_error d), (kernelDriverActive d), (detach_error d),
    (claim_error d), (List.find is_out (endpoints d));
    cbn [with_endpoint vendorId device endpoint app]; (split; [reflexivity|]);
    (split; [exact Hd|]);
    try (left; eexists; repeat split; reflexivity);
    right; eexists;
    (split; [reflexivity|]); (split; [auto|]); (split; [reflexivity|]);
    (split; [cbn; intuition auto | eexists; reflexivity]).
Qed.

End UsbFacts.

Section UsbProperties.
Import Usb USBPrinter UsbFacts.

Variable utf8_encode : string -> bytes.

(** X18: the device [findPrinter] takes is always an attached device
    with the configured vendor identifier; without a product identifier it
    is the first such device in the order of enumeration. *)
Theorem findPrinter_takes_attached_device this devices :
  (fst (findPrinter this devices) = true ->
   exists d,
     device (snd (findPrinter this devices)) = Some d /\
     In d devices /\ idVendor d = vendorId this) /\
  (forall before d after,
      productId_given this = None ->
      devices = before ++ d :: after ->
      idVendor d = vendorId this ->
      Forall (fun other => idVendor other <> vendorId this) before ->
      findPrinter this devices = (true, with_device this (Some d))).
Proof.
  split; [apply findPrinter_selects|].
  intros before d after Hpid -> Hvid Hbefore. unfold findPrinter, find_exact.
  rewrite Hpid.
  assert (List.find (fun d0 => idVendor d0 =? vendorId this) (before ++ d :: after)
          = Some d) as ->; [|reflexivity].
  induction Hbefore as [|other before Hother _ IH]; cbn [app List.find].
  - apply Z.eqb_eq in Hvid. rewrite Hvid. reflexivity.
  - apply Z.eqb_neq in Hother. rewrite Hother. exact IH.
Qed.

(** X19: on a new printer object the library calls of [print] always
    come in the order open, detach (only with an active kernel driver),
    claim, transfer, close, all on the device that was found: whatever
    happens, the calls made are an initial part of that sequence, and
    without a device none is made. *)
Theorem usb_calls_in_order vendor product data devices tr :
  let r := print utf8_encode (constructor vendor product) data devices tr in
  match device (after r) with
  | Some d =>
      fst (findPrinter (constructor vendor product) devices) = true ->
      exists rest, full_sequence d (to_buffer utf8_encode data) = calls r ++ rest
  | None => calls r = []
  end.
Proof.
  cbv zeta. unfold print.
  pose proof (findPrinter_selects (constructor vendor product) devices) as Hsel.
  pose proof (findPrinter_keeps (constructor vendor product) devices) as [_ Hslot].
  destruct (findPrinter (constructor vendor product) devices) as [[|] this'];
    cbn [fst snd negb] in *.
  - destruct (Hsel eq_refl) as (d & Hd & _).
    pose proof (initializeDevice_on this' d Hd) as Hinit.
    destruct (initializeDevice (this', [])) as [done [this'' log]].
    destruct Hinit as (_ & Hd'' & [(ep & _ & Hep & Hfind & ->) | (e & _ & Hep & _ & _ & rest & Hrest)]).
    + rewrite Hep.
      destruct tr as [|error]; cbn [after calls]; rewrite Hd''; intros _;
        unfold full_sequence; rewrite Hfind.
      * exists [CloseDevice]. rewrite <- !app_assoc. reflexivity.
      * exists []. rewrite <- !app_assoc. reflexivity.
    + assert (endpoint this'' = Null \/ endpoint this'' = Undefined) as Hnone
        by (destruct Hep as [Hep|Hep]; [left; rewrite Hep, Hslot; reflexivity | auto]).
      destruct Hnone as [-> | ->]; cbn [after calls]; rewrite Hd''; intros _;
        unfold full_sequence;
        rewrite (app_assoc [Open]), (app_assoc ([Open] ++ _) [Claim]);
        rewrite <- (app_assoc [Open]), Hrest, <- app_assoc;
        eexists; reflexivity.
  - cbn [after calls].
    destruct (device this'); reflexivity || (intros; discriminate).
Qed.

(** X20: when the device is found but cannot be set up ([open],
    [detachKernelDriver] or [claim] throws, or it has no OUT endpoint),
    a new printer object rejects with the [TypeError] of calling [transfer]
    on a missing endpoint, not with the error of the set-up. [open] has
    been called by then, and [close] is not called. *)
Theorem usb_setup_failure_leaves_device_open vendor product data devices tr e :
  let found := findPrinter (constructor vendor product) devices in
  let r := print utf8_encode (constructor vendor product) data devices tr in
  fst found = true ->
  fst (initializeDevice (snd found, [])) = Throw e ->
  (outcome r = Rejected (no_endpoint_error "null") \/
   outcome r = Rejected (no_endpoint_error "undefined")) /\
  hd_error (calls r) = Some Open /\
  ~ In CloseDevice (calls r).
Proof.
  cbv zeta. unfold print.
  pose proof (findPrinter_selects (constructor vendor product) devices) as Hsel.
  pose proof (findPrinter_keeps (constructor vendor product) devices) as [_ Hslot].
  destruct (findPrinter (constructor vendor product) devices) as [found this'].
  cbn [fst snd] in *. intros -> Hthrow. destruct (Hsel eq_refl) as (d & Hd & _).
  pose proof (initializeDevice_on this' d Hd) as Hinit.
  destruct (initializeDevice (this', [])) as [done [this'' log]]. cbn [fst negb] in *.
  subst done.
  destruct Hinit as (_ & _ & [(ep & Hdone & _) | (e' & _ & Hep & Hhd & Hcalls & _)]);
    [discriminate|].
  assert (endpoint this'' = Null \/ endpoint this'' = Undefined) as Hnone
    by (destruct Hep as [Hep|Hep]; [left; rewrite Hep, Hslot; reflexivity | auto]).
  destruct Hnone as [-> | ->]; cbn [outcome calls];
    (split; [auto|]); (split; [exact Hhd|]);
    intros Hin; destruct (Hcalls _ Hin) as [|[|]]; discriminate.
Qed.

(** [initializeDevice] never closes the device. *)
Lemma initializeDevice_no_close this :
  ~ In CloseDevice (snd (snd (initializeDevice (this, [])))).
Proof.
  unfold initializeDevice, bind, this_device, lib, set_endpoint, ret, throw.
  destruct (device this) as [d|]; [|intros []].
  destruct (open_error d), (kernelDriverActive d), (detach_error d),
    (claim_error d), (List.find is_out (endpoints d)); cbn;
    intuition discriminate.
Qed.

(** X21: the device is closed by the callback of the transfer and by
    nothing else. If [close] was called, the transfer had been started and
    its callback has run; while the callback has not run, the promise is
    pending and the device stays open. *)
Theorem usb_close_only_in_callback this data devices tr :
  let r := print utf8_encode this data devices tr in
  (In CloseDevice (calls r) ->
   (exists error, tr = Callback error) /\ existsb is_transfer (calls r) = true) /\
  (tr = NoCallback -> existsb is_transfer (calls r) = true ->
   outcome r = Pending /\ ~ In CloseDevice (calls r)).
Proof.
  cbv zeta. unfold print.
  destruct (findPrinter this devices) as [[|] this']; cbn [negb];
    [|split; [intros [] | discriminate]].
  pose proof (initializeDevice_no_close this') as Hclose.
  pose proof (initializeDevice_no_transfer this') as Htransfer.
  destruct (initializeDevice (this', [])) as [done [this'' log]]. cbn [snd] in *.
  destruct (endpoint this'') as [| |ep]; cbn [calls outcome].
  - split; [intros Hin; destruct (Hclose Hin) | congruence].
  - split; [intros Hin; destruct (Hclose Hin) | congruence].
  - destruct tr as [|error]; cbn [calls outcome].
    + split.
      * intros [Hin|[Hin|[]]]%in_app_or; [destruct (Hclose Hin) | discriminate].
      * intros _ _. split; [reflexivity|].
        intros [Hin|[Hin|[]]]%in_app_or; [destruct (Hclose Hin) | discriminate].
    + split; [|discriminate]. intros _. split; [eexists; reflexivity|].
      rewrite !existsb_app. cbn. rewrite orb_true_r. reflexivity.
Qed.

End UsbProperties.

(** ** More on the TCP printers *)
Module TcpMoreFacts.
Import Net TCPPrinter TCPPrinterFacts.

Lemma step_written data c o :
  written (client (step data c o))
  = written (client c) ++ (if is_connect o then [data] else []).
Proof.
  destruct c as [[dead sent] p]; destruct o as [[|resp| |e]|]; cbn;
    try destruct dead; cbn; rewrite ?app_nil_r; reflexivity.
Qed.

Lemma steps_written data os : forall c,
  written (client (fold_left (step data) os c))
  = written (client c) ++ repeat data (length (List.filter is_connect os)).
Proof.
  induction os as [|o os IH]; intros c; [cbn; rewrite app_nil_r; reflexivity|].
  cbn [fold_left List.filter]. rewrite IH, step_written.
  destruct (is_connect o); cbn [length repeat]; rewrite <- app_assoc; reflexivity.
Qed.

(** Without an ['error'] event no step rejects. *)
Lemma step_not_rejected data c o :
  (forall e, o <> Emitted (Err e)) ->
  (forall e, outcome c <> Rejected e) ->
  forall e, outcome (step data c o) <> Rejected e.
Proof.
  intros Ho Hc e. destruct c as [[dead sent] [|v|err]]; destruct o as [[|resp| |e']|];
    cbn; try destruct dead; cbn; try discriminate;
    try (destruct (Ho e' eq_refl)); apply Hc.
Qed.

Lemma steps_not_rejected data os : forall c,
  Forall (fun o => forall e, o <> Emitted (Err e)) os ->
  (forall e, outcome c <> Rejected e) ->
  forall e, outcome (fold_left (step data) os c) <> Rejected e.
Proof.
  induction os as [|o os IH]; intros c Hos Hc; [exact Hc|].
  inversion Hos; subst. cbn [fold_left]. apply IH; [assumption|].
  apply step_not_rejected; assumption.
Qed.

Lemma schedule_no_error timeout evs :
  Forall (fun te => is_error (snd te) = false) evs ->
  Forall (fun o => forall e, o <> Emitted (Err e)) (schedule timeout evs).
Proof.
  induction 1 as [|[at_ms ev] evs Hev Hrest IH]; [repeat constructor; discriminate|].
  assert (forall e, Emitted ev <> Emitted (Err e)) as Hne
    by (intros e [= ->]; discriminate).
  cbn [schedule]. destruct (at_ms <? timeout).
  - constructor; assumption.
  - constructor; [discriminate|]. cbn [map]. constructor; [exact Hne|].
    clear - Hrest. induction Hrest as [|[t ev'] rest Hev' _ IH]; [constructor|].
    cbn [map]. constructor; [intros e [= ->]; discriminate | exact IH].
Qed.

(** A rejection comes from an ['error'] event. *)
Lemma step_rejected data c o e :
  outcome (step data c o) = Rejected e ->
  outcome c = Rejected e \/ o = Emitted (Err e).
Proof.
  destruct c as [[dead sent] [|v|err]]; destruct o as [[|resp| |e']|];
    cbn; try destruct dead; cbn; intros H; try discriminate; auto;
    injection H as ->; auto.
Qed.

Lemma steps_rejected data os e : forall c,
  outcome (fold_left (step data) os c) = Rejected e ->
  outcome c = Rejected e \/ In (Emitted (Err e)) os.
Proof.
  induction os as [|o os IH]; intros c; [auto|]. cbn [fold_left In].
  intros [[H | ->]%step_rejected | H]%IH; auto.
Qed.

Lemma schedule_emitted timeout evs ev :
  In (Emitted ev) (schedule timeout evs) -> exists at_ms, In (at_ms, ev) evs.
Proof.
  induction evs as [|[at_ms e] evs IH]; cbn [schedule].
  - intros [H|[]]; discriminate.
  - destruct (at_ms <? timeout).
    + intros [[= ->] | (t & Ht)%IH]; [exists at_ms; left; reflexivity|].
      exists t. right. exact Ht.
    + intros [H | H]; [discriminate|].
      apply in_map_iff in H as ([t e'] & [= ->] & Hin). exists t. exact Hin.
Qed.

End TcpMoreFacts.

Section TcpProperties.
Import Net TcpMoreFacts.

(** X22: the promise of [TCPPrinter.print] settles once: after it has
    settled, no further callback, whatever it is, changes the outcome. *)
Theorem tcp_outcome_settles_once data os more :
  settled (outcome (TCPPrinter.run data os)) = true ->
  outcome (TCPPrinter.run data (os ++ more)) = outcome (TCPPrinter.run data os).
Proof.
  intros Hsettled. unfold TCPPrinter.run in *. rewrite fold_left_app.
  apply TCPPrinterFacts.steps_keep_outcome, Hsettled.
Qed.

(** X23: [TCPPrinter.print] writes to the socket only in the callback of
    [connect], and what it writes is the payload as given: after any
    callbacks, the writes are one copy of the payload for each ['connect']
    seen, and nothing is written without one. *)
Theorem tcp_writes_payload_on_connect data os :
  written (client (TCPPrinter.run data os))
  = repeat data (length (List.filter is_connect os)).
Proof. unfold TCPPrinter.run. rewrite steps_written. reflexivity. Qed.

(** X24: [TCPPrinter.print] fails only on an error of the connection.
    On a port that [connect] takes, a peer that produces no ['error'] event
    gets the promise fulfilled, whether it answers, closes, or stays
    silent; and a rejection carries either what [connect] threw on the
    port or the error of an ['error'] event of the socket. *)
Theorem tcp_print_fulfils_without_error this data evs :
  (valid_port (TCPPrinter.port this) = true ->
   Forall (fun te => is_error (snd te) = false) evs ->
   exists value, outcome (TCPPrinter.print this data evs) = Fulfilled value) /\
  (forall e,
      outcome (TCPPrinter.print this data evs) = Rejected e ->
      valid_port (TCPPrinter.port this) = false /\
      e = bad_port (TCPPrinter.port this) \/
      valid_port (TCPPrinter.port this) = true /\
      exists at_ms, In (at_ms, Err e) evs).
Proof.
  unfold TCPPrinter.print, TCPPrinter.run. split.
  - intros -> Hevs.
    pose proof (TCPPrinterFacts.scheduled_settles data TCPPrinter.timeout_ms evs
                  start eq_refl) as Hsettled.
    pose proof (steps_not_rejected data _ start
                  (schedule_no_error TCPPrinter.timeout_ms evs Hevs)
                  ltac:(discriminate)) as Hok.
    destruct (outcome (fold_left _ _ start)) as [|value|e];
      [discriminate | eexists; reflexivity | destruct (Hok e eq_refl)].
  - intros e. destruct (valid_port (TCPPrinter.port this)).
    + intros [H | H]%steps_rejected; [discriminate|].
      right. split; [reflexivity|]. eapply schedule_emitted, H.
    + cbn. intros [= <-]. left. auto.
Qed.

(** X25: the race of the 100 ms variant, on a port that [connect]
    takes. A response before the timer fulfils the promise with the
    response decoded as ASCII text, a close before the timer with the
    generic success text, the timer before any of them with the text
    marked timeout, and an error before the timer rejects with that
    error. On any other port the promise is rejected with what [connect]
    threw. *)
Theorem tcp2_print_race this data times at_ms response err rest late evs :
  Forall (fun t => t < TCPPrinter2.timeout_ms) times ->
  at_ms < TCPPrinter2.timeout_ms ->
  Forall (fun te => TCPPrinter2.timeout_ms <= fst te) late ->
  (valid_port (TCPPrinter2.port this) = true ->
   outcome (TCPPrinter2.print this data (connects times ++ (at_ms, Data response) :: rest))
   = Fulfilled (VString (toString_ascii response)) /\
   outcome (TCPPrinter2.print this data (connects times ++ (at_ms, Close) :: rest))
   = Fulfilled (VString "Print job sent successfully") /\
   outcome (TCPPrinter2.print this data (connects times ++ late))
   = Fulfilled (VString "Print job sent (timeout)") /\
   outcome (TCPPrinter2.print this data (connects times ++ (at_ms, Err err) :: rest))
   = Rejected err) /\
  (valid_port (TCPPrinter2.port this) = false ->
   outcome (TCPPrinter2.print this data evs)
   = Rejected (bad_port (TCPPrinter2.port this))).
Proof.
  intros Htimes Hat Hlate. unfold TCPPrinter2.print. split; intros ->; [|reflexivity].
  rewrite !schedule_connects, !schedule_early, (schedule_late _ late) by assumption.
  rewrite !run_ascii_view. cbn [ascii_view outcome].
  rewrite (decided_after_connects data times _ _ (Fulfilled (VBuffer response)))
    by reflexivity.
  rewrite (decided_after_connects data times _ _
             (Fulfilled (VString "Print job sent successfully"))) by reflexivity.
  rewrite (decided_after_connects data times _ _
             (Fulfilled (VString "Print job sent (timeout)"))) by reflexivity.
  rewrite (decided_after_connects data times _ _ (Rejected err)) by reflexivity.
  repeat split.
Qed.

(** X26: the 100 ms variant closes the socket on every exit as well,
    once [connect] has taken the port: each callback but that of
    ['connect'] leaves the socket closed, a settled promise goes with a
    closed socket, and every call settles. When [connect] throws on the
    port, the promise is rejected and the socket is not closed. *)
Theorem tcp2_socket_closed_on_every_exit this data os o evs :
  (o <> Emitted Connect ->
   destroyed (client (TCPPrinter2.step data (TCPPrinter2.run data os) o)) = true) /\
  (settled (outcome (TCPPrinter2.run data os)) = true ->
   destroyed (client (TCPPrinter2.run data os)) = true) /\
  (valid_port (TCPPrinter2.port this) = true ->
   settled (outcome (TCPPrinter2.print this data evs)) = true /\
   destroyed (client (TCPPrinter2.print this data evs)) = true) /\
  (valid_port (TCPPrinter2.port this) = false ->
   settled (outcome (TCPPrinter2.print this data evs)) = true /\
   destroyed (client (TCPPrinter2.print this data evs)) = false).
Proof.
  assert (forall os', settled (outcome (TCPPrinter2.run data os'))
                      = destroyed (client (TCPPrinter2.run data os'))) as Hinv.
  { intros os'. rewrite run_ascii_view. cbn [ascii_view outcome client].
    rewrite <- TCPPrinterFacts.run_closed.
    destruct (outcome (TCPPrinter.run data os')); reflexivity. }
  assert (settled (outcome (TCPPrinter2.run data
                              (schedule TCPPrinter2.timeout_ms evs))) = true)
    as Hsettled.
  { rewrite run_ascii_view. cbn [ascii_view outcome].
    pose proof (TCPPrinterFacts.scheduled_settles data TCPPrinter2.timeout_ms evs
                  start eq_refl) as Hs.
    unfold TCPPrinter.run. destruct (outcome (fold_left _ _ start)); [discriminate| |];
      reflexivity. }
  split; [|split; [rewrite Hinv; auto|]].
  - intros Ho. destruct (TCPPrinter2.run data os) as [[dead sent] p].
    destruct o as [[|resp| |e]|]; cbn; try destruct dead; cbn; congruence.
  - unfold TCPPrinter2.print. split; intros ->; [|split; reflexivity].
    split; [exact Hsettled|]. rewrite <- Hinv. exact Hsettled.
Qed.

End TcpProperties.

(** ** The routes of the virtual printer *)
Section RouteProperties.
Import PrinterFactory Server ServerOps.

Variable utf8_decode : bytes -> string.
Variable utf8_encode : string -> bytes.

Lemma createPrinter_virtual cfg fs fs1 :
  toLowerCase (type cfg) = "virtual"%string ->
  VirtualPrinter.ensureDirectoryExists
    (VirtualPrinter.with_defaults (default VirtualPrinter.no_options (virtual cfg))) fs
  = Return fs1 ->
  createPrinter cfg fs
  = (Return (Virtual (VirtualPrinter.with_defaults
                        (default VirtualPrinter.no_options (virtual cfg)))), fs1).
Proof.
  intros Hkind Hdir. unfold createPrinter. rewrite Hkind.
  cbn [String.eqb Ascii.eqb Bool.eqb]. unfold VirtualPrinter.constructor.
  cbn zeta. rewrite Hdir. reflexivity.
Qed.

(** X27: the four routes of the virtual printer compare the configured
    type with [virtual] letter by letter. With any other text they answer
    400 and leave the file system alone, also with a text such as [Virtual]
    that [createPrinter], which ignores the letter case, takes for the
    virtual printer. *)
Theorem virtual_routes_need_exact_type cfg fs filename fsys ex name_clock saved_clock :
  type cfg <> "virtual"%string ->
  serveLabel cfg fs filename
  = (Json 400 (Some "Labels endpoint only available for virtual printers"%string), []) /\
  deleteLabel cfg fs filename
  = (Json 400 (Some "Labels endpoint only available for virtual printers"%string), fs) /\
  listLabels cfg fs fsys
  = (Failed 400 "Labels endpoint only available for virtual printers", fs) /\
  printerTest utf8_decode utf8_encode cfg ex name_clock saved_clock fs
  = (Some (Failed 400 "Test endpoint only available for virtual printers"), fs) /\
  (forall fs1,
      toLowerCase (type cfg) = "virtual"%string ->
      VirtualPrinter.ensureDirectoryExists
        (VirtualPrinter.with_defaults (default VirtualPrinter.no_options (virtual cfg)))
        fs = Return fs1 ->
      exists printer, createPrinter cfg fs = (Return (Virtual printer), fs1)).
Proof.
  intros Htype. apply String.eqb_neq in Htype.
  unfold serveLabel, deleteLabel, listLabels, printerTest. rewrite Htype.
  repeat split. intros fs1 Hkind Hdir. eexists. apply createPrinter_virtual; assumption.
Qed.

(** X28: [GET /printer/test] answers when the exchange with the render
    service ends. A response with a status other than 200, an error of the
    request, the timeout and a throwing [request] call each give a 500
    reply with the message of the rejection, and nothing is stored: the
    file system is the one the constructor left. A response that never
    ends leaves the route without an answer; every other exchange gets
    one. *)
Theorem printerTest_reports_failures cfg fs fs1 name_clock saved_clock :
  type cfg = "virtual"%string ->
  VirtualPrinter.ensureDirectoryExists
    (VirtualPrinter.with_defaults (default VirtualPrinter.no_options (virtual cfg))) fs
  = Return fs1 ->
  (forall res,
      VirtualPrinter.statusCode res <> 200 ->
      printerTest utf8_decode utf8_encode cfg (VirtualPrinter.ResponseEnd res)
        name_clock saved_clock fs
      = (Some (Failed 500
                 ("Labelary API error (" +:+ pretty (VirtualPrinter.statusCode res)
                  +:+ "): " +:+ utf8_decode (List.concat (VirtualPrinter.chunks res)))),
         fs1)) /\
  (forall error,
      printerTest utf8_decode utf8_encode cfg (VirtualPrinter.RequestError error)
        name_clock saved_clock fs
      = (Some (Failed 500 ("Network error: " +:+ message error)), fs1)) /\
  printerTest utf8_decode utf8_encode cfg VirtualPrinter.RequestTimeout
    name_clock saved_clock fs
  = (Some (Failed 500 "Request timeout"), fs1) /\
  (forall error,
      printerTest utf8_decode utf8_encode cfg (VirtualPrinter.RequestThrows error)
        name_clock saved_clock fs
      = (Some (Failed 500 (message error)), fs1)) /\
  printerTest utf8_decode utf8_encode cfg VirtualPrinter.ResponseNeverEnds
    name_clock saved_clock fs
  = (None, fs1) /\
  (forall ex,
      ex <> VirtualPrinter.ResponseNeverEnds ->
      fst (printerTest utf8_decode utf8_encode cfg ex name_clock saved_clock fs)
      <> None).
Proof.
  intros Htype Hdir. unfold printerTest. rewrite Htype.
  cbn [String.eqb Ascii.eqb Bool.eqb negb].
  rewrite (createPrinter_virtual cfg fs fs1) by (rewrite ?Htype; auto).
  unfold VirtualPrinterOps.testConnection, VirtualPrinter.print.
  split; [|split; [|split; [|split; [|split]]]]; try reflexivity.
  - intros res Hstatus. apply Z.eqb_neq in Hstatus. rewrite Hstatus. reflexivity.
  - intros [res|error| |error|] Hex; try discriminate; [|destruct (Hex eq_refl)].
    destruct (VirtualPrinter.statusCode res =? 200); [|discriminate].
    destruct (Fs.writeFileSync _ _ _); discriminate.
Qed.

(** X29: the DELETE route answers a name under which [existsSync]
    finds nothing with status 500 and the text
    [Failed to delete file: File not found], not with 404, and changes
    nothing; a name whose joined path reads as a file gets 200 and the
    file is removed. *)
Theorem deleteLabel_replies cfg fs filename :
  type cfg = "virtual"%string ->
  let this := VirtualPrinter.with_defaults
                (default VirtualPrinter.no_options (virtual cfg)) in
  let path := Path.join (VirtualPrinter.saveDirectory this) filename in
  Fs.existsSync fs (VirtualPrinter.saveDirectory this) = true ->
  (Fs.existsSync fs path = false ->
   deleteLabel cfg fs filename
   = (Json 500 (Some "Failed to delete file: File not found"%string), fs)) /\
  (forall content,
      Fs.read fs path = Some content ->
      deleteLabel cfg fs filename
      = (Json 200 None, Fs.Make (Fs.cwd fs) (delete (Fs.key fs path) (Fs.nodes fs)))).
Proof.
  intros Htype. cbv zeta. intros Hdir. unfold deleteLabel. rewrite Htype.
  cbn [String.eqb Ascii.eqb Bool.eqb negb].
  rewrite (createPrinter_virtual cfg fs fs)
    by (rewrite ?Htype; auto; unfold VirtualPrinter.ensureDirectoryExists;
        rewrite Hdir; reflexivity).
  split.
  - unfold VirtualPrinter.deleteSavedLabel. intros ->. reflexivity.
  - intros content Hfile.
    rewrite (deleteSavedLabel_removes _ _ _ content Hfile). reflexivity.
Qed.

End RouteProperties.

(** ** Worked cases of the further properties *)

Lemma serveLabel_admits_inside_witness :
  Server.serveLabel Sample.virtual_config Sample.disk "old.png"
  = (Server.FileStream "image/png"
       ("inline; filename=" +:+ dquote +:+ "old.png" +:+ dquote)
       (Some [x89; x50; x4e; x47]),
     [Server.ExistsSync "generated_labels/old.png";
      Server.CreateReadStream "generated_labels/old.png"]) /\
  Server.serveLabel Sample.virtual_config Sample.disk
    (String (ascii_of_nat 7) "/../old.png")
  = (Server.Json 500
       (Some ("Invalid character in header content [" +:+ dquote
              +:+ "Content-Disposition" +:+ dquote +:+ "]")),
     [Server.ExistsSync "generated_labels/old.png"]) /\
  Server.serveLabel Sample.virtual_config Sample.disk "old.png/"
  = (Server.Json 404 (Some "File not found"%string),
     [Server.ExistsSync "generated_labels/old.png/"]).
Proof.
  destruct (serveLabel_admits_inside Sample.virtual_config Sample.disk "old.png"
              "./generated_labels") as (Hfile & _ & _); [reflexivity..|].
  destruct (serveLabel_admits_inside Sample.virtual_config Sample.disk
              (String (ascii_of_nat 7) "/../old.png") "./generated_labels")
    as (Hbell & _ & _); [reflexivity..|].
  destruct (serveLabel_admits_inside Sample.virtual_config Sample.disk "old.png/"
              "./generated_labels") as (Hslash & _ & _); [reflexivity..|].
  rewrite Hfile, Hbell, Hslash. repeat split.
Defined.

Lemma serveLabel_admits_plain_names_witness :
  hd_error (snd (Server.serveLabel Sample.virtual_config Sample.disk "missing.pdf"))
  = Some (Server.ExistsSync "generated_labels/missing.pdf").
Proof.
  apply (serveLabel_admits_plain_names Sample.virtual_config Sample.disk
           "missing.pdf" "./generated_labels"); reflexivity.
Defined.

Lemma stored_label_is_served_witness :
  Server.serveLabel Sample.virtual_config
    (snd (VirtualPrinter.print Sample.decode Sample.encode Sample.printer Sample.zpl
            (VirtualPrinter.ResponseEnd SampleOps.rendered)
            SampleOps.clock SampleOps.later Sample.disk))
    "label_2024-01-15T10-30-45-123Z.png"
  = (Server.FileStream "image/png"
       ("inline; filename=" +:+ dquote +:+ "label_2024-01-15T10-30-45-123Z.png"
        +:+ dquote)
       (Some [x89; x50; x4e; x47]),
     [Server.ExistsSync "generated_labels/label_2024-01-15T10-30-45-123Z.png";
      Server.CreateReadStream "generated_labels/label_2024-01-15T10-30-45-123Z.png"]).
Proof.
  apply (stored_label_is_served Sample.decode Sample.encode Sample.printer Sample.zpl
           SampleOps.rendered SampleOps.clock SampleOps.later Sample.disk
           Sample.virtual_config);
    try reflexivity. vm_compute. discriminate.
Defined.

Lemma served_type_is_accept_header_witness :
  Server.contentTypeOf
    (toLowerCase (Path.extname (VirtualPrinter.generateFilename Sample.printer
                                  SampleOps.clock)))
  = VirtualPrinter.getAcceptHeader Sample.printer.
Proof.
  apply (served_type_is_accept_header Sample.printer SampleOps.clock); discriminate.
Defined.

Lemma upper_case_format_is_saved_as_png_witness :
  VirtualPrinter.getAcceptHeader SampleOps.capital_pdf <> "image/png"%string /\
  VirtualPrinter.extension SampleOps.capital_pdf = "png"%string /\
  Server.contentTypeOf
    (toLowerCase (Path.extname (VirtualPrinter.generateFilename SampleOps.capital_pdf
                                  SampleOps.clock)))
  = "image/png"%string.
Proof.
  apply (upper_case_format_is_saved_as_png SampleOps.capital_pdf SampleOps.clock);
    [left; reflexivity | discriminate].
Defined.

Lemma print_save_failure_witness :
  exists code,
    In code ["ENOENT: no such file or directory"; "ENOTDIR: not a directory";
             "EISDIR: illegal operation on a directory"]%string /\
    VirtualPrinter.print Sample.decode Sample.encode Sample.printer Sample.zpl
      (VirtualPrinter.ResponseEnd SampleOps.rendered) SampleOps.clock SampleOps.later
      (Fs.Make "/app" ∅)
    = (Rejected
         (Error ("Failed to save file: " +:+
                 message (Fs.sys_error code "open"
                            (Path.join (VirtualPrinter.saveDirectory Sample.printer)
                               (VirtualPrinter.generateFilename Sample.printer
                                  SampleOps.clock))))),
       Fs.Make "/app" ∅).
Proof.
  apply (print_save_failure Sample.decode Sample.encode Sample.printer Sample.zpl
           SampleOps.rendered SampleOps.clock SampleOps.later (Fs.Make "/app" ∅));
    [reflexivity | left; vm_compute; discriminate].
Defined.

Lemma print_touches_one_path_witness :
  snd (VirtualPrinter.print Sample.decode Sample.encode Sample.printer Sample.zpl
         VirtualPrinter.RequestTimeout SampleOps.clock SampleOps.later Sample.disk)
  = Sample.disk.
Proof.
  apply (print_touches_one_path Sample.decode Sample.encode Sample.printer Sample.zpl
           VirtualPrinter.RequestTimeout SampleOps.clock SampleOps.later Sample.disk).
  discriminate.
Defined.

Lemma print_same_instant_overwrites_witness :
  Fs.read
    (snd (VirtualPrinter.print Sample.decode Sample.encode Sample.printer Sample.zpl
            (VirtualPrinter.ResponseEnd SampleOps.rendered_again)
            SampleOps.clock SampleOps.later
            (snd (VirtualPrinter.print Sample.decode Sample.encode Sample.printer
                    Sample.zpl (VirtualPrinter.ResponseEnd SampleOps.rendered)
                    SampleOps.clock SampleOps.clock Sample.disk))))
    "generated_labels/label_2024-01-15T10-30-45-123Z.png"
  = Some [x47; x49; x46].
Proof.
  apply (print_same_instant_overwrites Sample.decode Sample.encode Sample.printer
           Sample.zpl Sample.zpl SampleOps.rendered SampleOps.rendered_again
           SampleOps.clock SampleOps.clock SampleOps.later Sample.disk);
    try reflexivity. vm_compute. discriminate.
Defined.

Lemma print_then_delete_restores_witness :
  VirtualPrinter.deleteSavedLabel Sample.printer "label_2024-01-15T10-30-45-123Z.png"
    (snd (VirtualPrinter.print Sample.decode Sample.encode Sample.printer Sample.zpl
            (VirtualPrinter.ResponseEnd SampleOps.rendered)
            SampleOps.clock SampleOps.later Sample.disk))
  = Return Sample.disk.
Proof.
  apply (print_then_delete_restores Sample.decode Sample.encode Sample.printer
           Sample.zpl SampleOps.rendered SampleOps.clock SampleOps.later Sample.disk);
    reflexivity.
Defined.

Lemma deleteSavedLabel_removes_one_file_witness :
  Fs.existsSync
    (Fs.Make "/app" (delete "/app/generated_labels/old.png" (Fs.nodes Sample.disk)))
    "generated_labels/old.png" = false /\
  VirtualPrinter.deleteSavedLabel Sample.printer "old.png"
    (Fs.Make "/app" (delete "/app/generated_labels/old.png" (Fs.nodes Sample.disk)))
  = Throw (Error "Failed to delete file: File not found").
Proof.
  destruct (deleteSavedLabel_removes_one_file Sample.printer "old.png" Sample.disk
              (Fs.Make "/app" (delete "/app/generated_labels/old.png"
                                 (Fs.nodes Sample.disk))))
    as (_ & Hgone & _ & _ & Hagain); [reflexivity|].
  split; [exact Hgone | exact Hagain].
Defined.

Lemma deleteSavedLabel_keeps_directories_witness :
  Fs.stat Sample.disk (Path.join (VirtualPrinter.saveDirectory Sample.printer) ".")
  = Some Fs.Dir /\
  exists e,
    Fs.unlinkSync Sample.disk
      (Path.join (VirtualPrinter.saveDirectory Sample.printer) ".") = Throw e /\
    VirtualPrinter.deleteSavedLabel Sample.printer "." Sample.disk
    = Throw (Error ("Failed to delete file: " +:+ message e)).
Proof.
  split; [reflexivity|].
  apply (deleteSavedLabel_keeps_directories Sample.printer "." Sample.disk).
  reflexivity.
Defined.

Lemma constructor_is_idempotent_witness :
  let o := VirtualPrinter.Options None None None None None None
             (Some "out/labels"%string) in
  let made := Fs.Make "/app"
                (<["/app/out/labels"%string := Fs.Dir]>
                   (<["/app/out"%string := Fs.Dir]>
                      (<["/app"%string := Fs.Dir]> ∅))) in
  let taken := VirtualPrinter.Options None None None None None None
                 (Some "/etc/passwd"%string) in
  Fs.stat made "out/labels" = Some Fs.Dir /\
  VirtualPrinter.constructor o made
  = Return (VirtualPrinter.with_defaults o, made) /\
  Fs.existsSync Sample.disk "/etc/passwd" = true /\
  VirtualPrinter.constructor taken Sample.disk
  = Return (VirtualPrinter.with_defaults taken, Sample.disk).
Proof.
  cbv zeta.
  destruct (constructor_is_idempotent
              (VirtualPrinter.Options None None None None None None
                 (Some "out/labels"%string))
              (Fs.Make "/app" (<["/app"%string := Fs.Dir]> ∅))
              (VirtualPrinter.with_defaults
                 (VirtualPrinter.Options None None None None None None
                    (Some "out/labels"%string)))
              (Fs.Make "/app"
                 (<["/app/out/labels"%string := Fs.Dir]>
                    (<["/app/out"%string := Fs.Dir]>
                       (<["/app"%string := Fs.Dir]> ∅)))))
    as (_ & Hdir & _ & Hagain); [vm_compute; reflexivity|].
  destruct (constructor_is_idempotent
              (VirtualPrinter.Options None None None None None None
                 (Some "/etc/passwd"%string))
              Sample.disk
              (VirtualPrinter.with_defaults
                 (VirtualPrinter.Options None None None None None None
                    (Some "/etc/passwd"%string)))
              Sample.disk)
    as (Hexists & _ & _ & Hfile); [vm_compute; reflexivity|].
  split; [|split; [exact Hagain | split; [exact Hexists | exact Hfile]]].
  destruct Hdir as [Hdir | [_ [content Hcontent]]]; [exact Hdir|].
  vm_compute in Hcontent. discriminate.
Defined.

Lemma createPrinter_preserves_files_witness :
  snd (PrinterFactory.createPrinter Sample.tcp_config Sample.disk) = Sample.disk /\
  snd (PrinterFactory.createPrinter Sample.virtual_config Sample.disk) = Sample.disk.
Proof.
  destruct (createPrinter_preserves_files Sample.tcp_config Sample.disk)
    as (_ & _ & Hother & _).
  destruct (createPrinter_preserves_files Sample.virtual_config Sample.disk)
    as (_ & _ & _ & Hthere).
  split; [apply Hother; discriminate | apply Hthere; reflexivity].
Defined.

Lemma listSavedLabels_newest_first_witness :
  VirtualPrinterOps.listSavedLabels Sample.printer (SampleOps.listing false)
  = Return
      [VirtualPrinterOps.Label "c.pdf" "generated_labels/c.pdf" 30 2000 2000 "pdf";
       VirtualPrinterOps.Label "b.PNG" "generated_labels/b.PNG" 10 1000 1000 "png";
       VirtualPrinterOps.Label "a.json" "generated_labels/a.json" 20 1000 1500 "json";
       VirtualPrinterOps.Label "gone.png" "generated_labels/gone.png" 0 500 500 "png"] /\
  Sorted not_older
    [VirtualPrinterOps.Label "c.pdf" "generated_labels/c.pdf" 30 2000 2000 "pdf";
     VirtualPrinterOps.Label "b.PNG" "generated_labels/b.PNG" 10 1000 1000 "png";
     VirtualPrinterOps.Label "a.json" "generated_labels/a.json" 20 1000 1500 "json";
     VirtualPrinterOps.Label "gone.png" "generated_labels/gone.png" 0 500 500 "png"].
Proof.
  split; [reflexivity|].
  apply (listSavedLabels_newest_first Sample.printer (SampleOps.listing false)
           ["b.PNG"; "notes.txt"; "a.json"; "c.pdf"; "gone.png"]%string);
    reflexivity.
Defined.

Lemma listSavedLabels_keeps_directory_order_witness :
  map VirtualPrinterOps.label_filename
    (List.filter (fun l => VirtualPrinterOps.created l =? 1000)
       [VirtualPrinterOps.Label "c.pdf" "generated_labels/c.pdf" 30 2000 2000 "pdf";
        VirtualPrinterOps.Label "b.PNG" "generated_labels/b.PNG" 10 1000 1000 "png";
        VirtualPrinterOps.Label "a.json" "generated_labels/a.json" 20 1000 1500 "json";
        VirtualPrinterOps.Label "gone.png" "generated_labels/gone.png" 0 500 500 "png"])
  = ["b.PNG"; "a.json"]%string.
Proof.
  rewrite (listSavedLabels_keeps_directory_order Sample.printer (SampleOps.listing false)
             ["b.PNG"; "notes.txt"; "a.json"; "c.pdf"; "gone.png"]%string);
    reflexivity.
Defined.

Lemma listSavedLabels_failures_witness :
  exists e',
    VirtualPrinterOps.listSavedLabels Sample.printer (SampleOps.listing true)
    = Throw (Error ("Failed to list saved labels: " +:+ message e')).
Proof.
  destruct (listSavedLabels_failures Sample.printer (SampleOps.listing true))
    as (_ & _ & Hstat & _).
  apply (Hstat ["b.PNG"; "notes.txt"; "a.json"; "c.pdf"; "gone.png"]%string
           "gone.png"%string
           (Error "ENOENT: no such file or directory, stat 'generated_labels/gone.png'"));
    try reflexivity.
  right; right; right; right; left; reflexivity.
Defined.

Lemma listed_extension_is_lower_case_witness :
  VirtualPrinterOps.extension_of
    (VirtualPrinterOps.describe Sample.printer "b.PNG"
       (VirtualPrinterOps.Stats 10 1000 1000)) = "png"%string /\
  VirtualPrinterOps.extension_of
    (VirtualPrinterOps.describe Sample.printer ".Pdf"
       (VirtualPrinterOps.Stats 10 1000 1000)) = ""%string.
Proof.
  split.
  - destruct (listed_extension_is_lower_case Sample.printer "b.PNG"
                (VirtualPrinterOps.Stats 10 1000 1000) eq_refl eq_refl)
      as [(_ & _ & _) | (Hempty & _)]; [reflexivity | vm_compute in Hempty; discriminate].
  - destruct (listed_extension_is_lower_case Sample.printer ".Pdf"
                (VirtualPrinterOps.Stats 10 1000 1000) eq_refl eq_refl)
      as [(_ & _ & Hnot) | (Hempty & _)]; [|exact Hempty].
    destruct Hnot. right; left; reflexivity.
Defined.

Lemma findPrinter_takes_attached_device_witness :
  USBPrinter.findPrinter (USBPrinter.constructor None None)
    [Usb.Device 0x04b8 0x0202 None false None None []; Sample.other_product;
     SampleOps.input_only]
  = (true, USBPrinter.with_device (USBPrinter.constructor None None)
             (Some Sample.other_product)).
Proof.
  destruct (findPrinter_takes_attached_device (USBPrinter.constructor None None)
              [Usb.Device 0x04b8 0x0202 None false None None []; Sample.other_product;
               SampleOps.input_only]) as [_ Hfirst].
  apply (Hfirst [Usb.Device 0x04b8 0x0202 None false None None []]
           Sample.other_product [SampleOps.input_only]); try reflexivity.
  repeat constructor. discriminate.
Defined.

Lemma usb_calls_in_order_witness :
  exists rest,
    full_sequence Sample.other_product (Sample.encode Sample.zpl)
    = USBPrinter.calls
        (USBPrinter.print Sample.encode (USBPrinter.constructor None None)
           (VString Sample.zpl) [Sample.other_product] Usb.NoCallback) ++ rest.
Proof.
  pose proof (usb_calls_in_order Sample.encode None None (VString Sample.zpl)
                [Sample.other_product] Usb.NoCallback) as Horder.
  cbv zeta in Horder. apply Horder. reflexivity.
Defined.

Lemma usb_setup_failure_leaves_device_open_witness :
  let r := USBPrinter.print Sample.encode (USBPrinter.constructor None None)
             (VString Sample.zpl) [SampleOps.input_only] (Usb.Callback None) in
  USBPrinter.outcome r
  = Rejected (Error "Cannot read properties of undefined (reading 'transfer')") /\
  USBPrinter.calls r = [Usb.Open; Usb.DetachKernelDriver; Usb.Claim] /\
  ~ In Usb.CloseDevice (USBPrinter.calls r).
Proof.
  cbv zeta.
  destruct (usb_setup_failure_leaves_device_open Sample.encode None None
              (VString Sample.zpl) [SampleOps.input_only] (Usb.Callback None)
              (Error "No OUT endpoint found on USB device") eq_refl eq_refl)
    as (_ & _ & Hopen).
  repeat split. exact Hopen.
Defined.

Lemma usb_close_only_in_callback_witness :
  let r := USBPrinter.print Sample.encode (USBPrinter.constructor None None)
             (VString Sample.zpl) [Sample.other_product] Usb.NoCallback in
  USBPrinter.outcome r = Pending /\ ~ In Usb.CloseDevice (USBPrinter.calls r).
Proof.
  apply (usb_close_only_in_callback Sample.encode (USBPrinter.constructor None None)
           (VString Sample.zpl) [Sample.other_product] Usb.NoCallback); reflexivity.
Defined.

Lemma tcp_outcome_settles_once_witness :
  Net.outcome (TCPPrinter.run (VString Sample.zpl)
                 ([Net.Emitted Net.Connect; Net.Emitted Net.Close]
                  ++ [Net.Emitted (Net.Err (Error "EPIPE")); Net.TimerFired]))
  = Fulfilled (VString "Print job sent successfully").
Proof.
  rewrite (tcp_outcome_settles_once (VString Sample.zpl)
             [Net.Emitted Net.Connect; Net.Emitted Net.Close]
             [Net.Emitted (Net.Err (Error "EPIPE")); Net.TimerFired]);
    reflexivity.
Defined.

Lemma tcp_print_fulfils_without_error_witness :
  (exists value,
      Net.outcome (TCPPrinter.print (TCPPrinter.Make "10.0.0.7" 9100)
                     (VString Sample.zpl) [(3, Net.Connect); (7000, Net.Close)])
      = Fulfilled value) /\
  (exists at_ms,
      In (at_ms, Net.Err (Error "ECONNREFUSED"))
         [(12, Net.Err (Error "ECONNREFUSED")); (13, Net.Close)]).
Proof.
  split.
  - apply (tcp_print_fulfils_without_error (TCPPrinter.Make "10.0.0.7" 9100)
             (VString Sample.zpl) [(3, Net.Connect); (7000, Net.Close)]);
      [reflexivity | repeat constructor].
  - destruct (tcp_print_fulfils_without_error (TCPPrinter.Make "10.0.0.7" 9100)
                (VString Sample.zpl)
                [(12, Net.Err (Error "ECONNREFUSED")); (13, Net.Close)])
      as [_ Hrejected].
    destruct (Hrejected (Error "ECONNREFUSED") eq_refl) as [[Hport _] | [_ Hevent]];
      [discriminate | exact Hevent].
Defined.

Lemma tcp2_print_race_witness :
  Net.outcome (TCPPrinter2.print (TCPPrinter2.Make "10.0.0.7" 9100)
                 (VString Sample.zpl)
                 (connects [3] ++ (40, Net.Data [x4f; xcb]) :: [(41, Net.Close)]))
  = Fulfilled (VString "OK") /\
  Net.outcome (TCPPrinter2.print (TCPPrinter2.Make "10.0.0.7" 9100)
                 (VString Sample.zpl)
                 (connects [3] ++ [(150, Net.Data [x4f; xcb])]))
  = Fulfilled (VString "Print job sent (timeout)") /\
  Net.outcome (TCPPrinter2.print (TCPPrinter2.Make "10.0.0.7" (-1))
                 (VString Sample.zpl) [])
  = Rejected (Error "Port should be >= 0 and < 65536. Received type number (-1).").
Proof.
  destruct (tcp2_print_race (TCPPrinter2.Make "10.0.0.7" 9100) (VString Sample.zpl)
              [3] 40 [x4f; xcb] (Error "ECONNRESET") [(41, Net.Close)]
              [(150, Net.Data [x4f; xcb])] []) as [Hrace _].
  - repeat constructor.
  - reflexivity.
  - repeat constructor. cbn. discriminate.
  - destruct (tcp2_print_race (TCPPrinter2.Make "10.0.0.7" (-1)) (VString Sample.zpl)
                [] 0 [] (Error "ECONNRESET") [] [] []) as [_ Hbad];
      [constructor | reflexivity | constructor |].
    destruct (Hrace eq_refl) as (Hdata & _ & Htimer & _).
    split; [exact Hdata | split; [exact Htimer | exact (Hbad eq_refl)]].
Defined.

Lemma tcp2_socket_closed_on_every_exit_witness :
  Net.destroyed
    (Net.client (TCPPrinter2.step (VString Sample.zpl)
                   (TCPPrinter2.run (VString Sample.zpl) [Net.Emitted Net.Connect])
                   (Net.Emitted (Net.Data [x4f; x4b])))) = true /\
  Net.destroyed
    (Net.client (TCPPrinter2.run (VString Sample.zpl)
                   [Net.Emitted Net.Connect; Net.Emitted (Net.Err (Error "EPIPE"))]))
  = true /\
  Net.destroyed
    (Net.client (TCPPrinter2.print (TCPPrinter2.Make "10.0.0.7" 70000)
                   (VString Sample.zpl) [])) = false.
Proof.
  destruct (tcp2_socket_closed_on_every_exit (TCPPrinter2.Make "10.0.0.7" 70000)
              (VString Sample.zpl) [Net.Emitted Net.Connect]
              (Net.Emitted (Net.Data [x4f; x4b])) [])
    as (Hstep & _ & _ & Hbad).
  destruct (tcp2_socket_closed_on_every_exit (TCPPrinter2.Make "10.0.0.7" 9100)
              (VString Sample.zpl)
              [Net.Emitted Net.Connect; Net.Emitted (Net.Err (Error "EPIPE"))]
              Net.TimerFired [])
    as (_ & Hexit & _ & _).
  split; [apply Hstep; discriminate|].
  split; [apply Hexit; reflexivity|].
  apply (Hbad eq_refl).
Defined.

Lemma virtual_routes_need_exact_type_witness :
  Server.deleteLabel SampleOps.virtual_config_capital Sample.disk "old.png"
  = (Server.Json 400 (Some "Labels endpoint only available for virtual printers"%string),
     Sample.disk) /\
  exists printer,
    PrinterFactory.createPrinter SampleOps.virtual_config_capital Sample.disk
    = (Return (PrinterFactory.Virtual printer), Sample.disk).
Proof.
  destruct (virtual_routes_need_exact_type Sample.decode Sample.encode
              SampleOps.virtual_config_capital Sample.disk "old.png"
              (SampleOps.listing false) VirtualPrinter.RequestTimeout
              SampleOps.clock SampleOps.later) as (_ & Hdelete & _ & _ & Hfactory);
    [discriminate|].
  split; [exact Hdelete|]. apply Hfactory; reflexivity.
Defined.

Lemma printerTest_reports_failures_witness :
  ServerOps.printerTest Sample.decode Sample.encode Sample.virtual_config
    (VirtualPrinter.ResponseEnd
       (VirtualPrinter.Response 503 None [[x62; x75; x73; x79]]))
    SampleOps.clock SampleOps.later Sample.disk
  = (Some (ServerOps.Failed 500 "Labelary API error (503): busy"), Sample.disk) /\
  ServerOps.printerTest Sample.decode Sample.encode Sample.virtual_config
    VirtualPrinter.ResponseNeverEnds SampleOps.clock SampleOps.later Sample.disk
  = (None, Sample.disk).
Proof.
  destruct (printerTest_reports_failures Sample.decode Sample.encode
              Sample.virtual_config Sample.disk Sample.disk
              SampleOps.clock SampleOps.later eq_refl eq_refl)
    as (Hstatus & _ & _ & _ & Hnever & _).
  rewrite Hstatus by discriminate. split; [reflexivity | exact Hnever].
Defined.

Lemma deleteLabel_replies_witness :
  Server.deleteLabel Sample.virtual_config Sample.disk "nothing.png"
  = (Server.Json 500 (Some "Failed to delete file: File not found"%string), Sample.disk) /\
  Server.deleteLabel Sample.virtual_config Sample.disk "old.png/"
  = (Server.Json 500 (Some "Failed to delete file: File not found"%string), Sample.disk) /\
  Server.deleteLabel Sample.virtual_config Sample.disk "old.png"
  = (Server.Json 200 None,
     Fs.Make "/app" (delete "/app/generated_labels/old.png"%string
                       (Fs.nodes Sample.disk))).
Proof.
  split; [|split].
  - apply (deleteLabel_replies Sample.virtual_config Sample.disk "nothing.png");
      reflexivity.
  - apply (deleteLabel_replies Sample.virtual_config Sample.disk "old.png/");
      reflexivity.
  - apply (deleteLabel_replies Sample.virtual_config Sample.disk "old.png" eq_refl
             eq_refl) with (content := [x89; x50; x4e; x47]).
    reflexivity.
Defined.
